(** * BCAI anomaly-detection core: a shallow embedding and its properties

    The development follows the Python sources
      - [app/services/model_cache.py]        (module [model_cache])
      - [app/services/anomaly_detector.py]   (module [anomaly_detector])
      - [app/services/correlation_engine.py] (module [correlation_engine])

    Conventions of the embedding.
      - A Python [float] is read as the rational number it denotes ([Q]).
        The products [_calculate_severity] compares with are rounded to
        binary64; elsewhere arithmetic is exact.  The one irrational
        operation of the code, the square root inside
        [statistics.stdev], lives in [R].
      - A naive [datetime] is the number of microseconds since the epoch
        ([Z]); [datetime.utcnow()] is an explicit argument, one per call
        the source makes.  The cutoff of an analysis,
        [utcnow() - timedelta(hours=...)], raises [OverflowError]
        outside [datetime.min .. datetime.max] as Python does.
      - A Python [dict] is an association list in insertion order, the
        order in which CPython iterates it.
      - An operation that can raise returns [Exc]. *)

From Stdlib Require Import ZArith QArith Qabs Qminmax Qround List String Bool Lia Lra.
From Stdlib Require Import Reals Qreals Lqa DecimalString.
From Stdlib Require DecimalZ DecimalPos Permutation Sorted.
Import ListNotations.

(* ================================================================== *)
(** * Python prelude *)
(* ================================================================== *)

Module py.

(** Exceptions the embedded code can raise. *)
Inductive PyError : Type :=
| ValueError (msg : string)
| TypeError (msg : string)
| StatisticsError (msg : string)
| OverflowError (msg : string).

Inductive Exc (A : Type) : Type :=
| Return (a : A)
| Raise (e : PyError).
Arguments Return {A} a.
Arguments Raise {A} e.

Definition bind {A B} (m : Exc A) (k : A -> Exc B) : Exc B :=
  match m with
  | Return a => k a
  | Raise e => Raise e
  end.

Definition raises {A} (m : Exc A) : Prop :=
  match m with Raise _ => True | Return _ => False end.

(** [str(n)] for an [int]. *)
Definition str (z : Z) : string := NilZero.string_of_int (Z.to_int z).

(** A naive [datetime], in microseconds since the epoch. *)
Definition datetime := Z.

Definition timedelta_minutes (m : Z) : Z := (m * 60000000)%Z.
Definition timedelta_hours (h : Z) : Z := (h * 3600000000)%Z.

(** [t.replace(minute=0, second=0, microsecond=0)] *)
Definition replace_to_hour (t : datetime) : datetime :=
  (t - t mod 3600000000)%Z.

(** [datetime.min] and [datetime.max]: 0001-01-01T00:00:00 and
    9999-12-31T23:59:59.999999. *)
Definition datetime_min : datetime := (-62135596800000000)%Z.
Definition datetime_max : datetime := 253402300799999999%Z.

(** [timedelta(hours=h)]: the constructor normalises to days, seconds
    and microseconds and raises [OverflowError] when the number of days
    is beyond 999999999 in magnitude. *)
Definition timedelta (hours : Z) : Exc Z :=
  if (Z.abs (hours / 24) >? 999999999)%Z
  then Raise (OverflowError "days; must have magnitude <= 999999999")
  else Return (timedelta_hours hours).

(** [t - delta] for a [datetime] and a [timedelta]: [OverflowError]
    when the result is before [datetime.min] or after [datetime.max]. *)
Definition datetime_sub (t : datetime) (delta : Z) : Exc datetime :=
  let r := (t - delta)%Z in
  if ((r <? datetime_min) || (r >? datetime_max))%Z
  then Raise (OverflowError "date value out of range")
  else Return r.

(** ** Floats *)

(** The integer nearest to [x], a tie going to the even one. *)
Definition round_half_even (x : Q) : Z :=
  let f := Qfloor x in
  match Qcompare (x - inject_Z f) (1 # 2) with
  | Lt => f
  | Gt => (f + 1)%Z
  | Eq => if Z.even f then f else (f + 1)%Z
  end.

(** The [e] with [2 ^ e <= a < 2 ^ (e + 1)], for a positive [a]. *)
Definition floor_log2 (a : Q) : Z :=
  let e := (Z.log2 (Qnum a) - Z.log2 (Zpos (Qden a)))%Z in
  if Qle_bool (2 ^ e) a then e else (e - 1)%Z.

(** The binary64 number nearest to [x], a tie going to the even
    significand: what a [float] operation returns for the exact result
    [x], and what a conversion to float64 makes of [x].  The
    significand has 53 bits and the exponent of its last bit is at
    least -1074; a value beyond the largest float stands for [inf]. *)
Definition binary64 (x : Q) : Q :=
  if Qeq_bool x 0 then 0
  else
    let a := Qabs x in
    let q := (Z.max (floor_log2 a) (-1022) - 52)%Z in
    let m := round_half_even (a / 2 ^ q) in
    (if Qle_bool 0 x then 1 else -1) * inject_Z m * 2 ^ q.

(** ** Dictionaries in insertion order *)
Section Dict.
Context {K V : Type}.
Variable eqb : K -> K -> bool.

Definition dict := list (K * V).

Definition keys (d : dict) : list K := map fst d.
Definition values (d : dict) : list V := map snd d.

(** [d.get(k)] / [k in d] *)
Fixpoint lookup (k : K) (d : dict) : option V :=
  match d with
  | [] => None
  | (k', v) :: r => if eqb k k' then Some v else lookup k r
  end.

Definition contains (k : K) (d : dict) : bool :=
  match lookup k d with Some _ => true | None => false end.

(** [del d[k]] *)
Fixpoint delete (k : K) (d : dict) : dict :=
  match d with
  | [] => []
  | (k', v) :: r => if eqb k k' then r else (k', v) :: delete k r
  end.

(** [d[k] = v]: an existing key keeps its place, a new one goes last. *)
Fixpoint setitem (k : K) (v : V) (d : dict) : dict :=
  match d with
  | [] => [(k, v)]
  | (k', v') :: r =>
      if eqb k k' then (k', v) :: r else (k', v') :: setitem k v r
  end.
End Dict.

(** [min(xs, key=...)] on a non-empty iterable [x0 :: xs]: the first
    element whose key is not above any other. *)
Fixpoint min_from {A} (lt : A -> A -> bool) (best : A) (xs : list A) : A :=
  match xs with
  | [] => best
  | x :: r => if lt x best then min_from lt x r else min_from lt best r
  end.

End py.

(* ================================================================== *)
(** * app/services/anomaly_detector.py: the detector object *)
(* ================================================================== *)

Module detector_object.

(** The attributes [__init__] sets.  The fitted scaler and forest are
    overwritten by every detection call before they are read. *)
Record AnomalyDetector : Type := mkDetector {
  contamination : Q;
  cache_enabled : bool
}.

End detector_object.

(* ================================================================== *)
(** * app/services/model_cache.py *)
(* ================================================================== *)

Module model_cache.
Import py detector_object.
Local Open Scope Z_scope.

Record CachedItem : Type := mkItem {
  model : AnomalyDetector;
  created_at : datetime;
  expires_at : datetime;
  hits : Z;
  last_accessed : datetime
}.

Record ModelCache : Type := mkCache {
  ttl_minutes : Z;
  max_cache_size : Z;
  _cache : list (string * CachedItem)
}.

(** [ModelCache.__init__] *)
Definition init (ttl_minutes max_cache_size : Z) : ModelCache :=
  mkCache ttl_minutes max_cache_size [].

Definition _generate_cache_key
  (anomaly_type : string) (feature_count data_size : Z) : string :=
  (anomaly_type ++ "_" ++ str feature_count ++ "_" ++ str data_size)%string.

Definition with_cache (c : ModelCache) (d : list (string * CachedItem)) :=
  mkCache (ttl_minutes c) (max_cache_size c) d.

(** [ModelCache.get]; [now1] and [now2] are the two clock readings. *)
Definition get (c : ModelCache) (anomaly_type : string)
  (feature_count data_size : Z) (now1 now2 : datetime)
  : ModelCache * option AnomalyDetector :=
  let cache_key := _generate_cache_key anomaly_type feature_count data_size in
  match lookup String.eqb cache_key (_cache c) with
  | None => (c, None)
  | Some cached_item =>
      if now1 >? expires_at cached_item then
        (with_cache c (delete String.eqb cache_key (_cache c)), None)
      else
        let item' := mkItem (model cached_item) (created_at cached_item)
                            (expires_at cached_item)
                            (hits cached_item + 1) now2 in
        (with_cache c (setitem String.eqb cache_key item' (_cache c)),
         Some (model cached_item))
  end.

(** The sort key of [_evict_least_used]: [(hits, last_accessed)]. *)
Definition use_key (d : list (string * CachedItem)) (k : string) : Z * Z :=
  match lookup String.eqb k d with
  | Some it => (hits it, last_accessed it)
  | None => (0, 0)
  end.

(** Python's [<] on pairs. *)
Definition tuple_ltb (a b : Z * Z) : bool :=
  (fst a <? fst b) || ((fst a =? fst b) && (snd a <? snd b)).

Definition tuple_le (a b : Z * Z) : Prop :=
  fst a < fst b \/ (fst a = fst b /\ snd a <= snd b).

Definition least_used_key (d : list (string * CachedItem)) : option string :=
  match keys d with
  | [] => None
  | k0 :: ks =>
      Some (min_from (fun a b => tuple_ltb (use_key d a) (use_key d b)) k0 ks)
  end.

Definition _evict_least_used (c : ModelCache) : ModelCache :=
  match least_used_key (_cache c) with
  | None => c
  | Some least_used_key =>
      with_cache c (delete String.eqb least_used_key (_cache c))
  end.

(** The expiry time [utcnow() + timedelta(minutes=ttl_minutes)] is a
    [datetime]: at most 999999999 days ahead or back, and between year
    1 and year 9999.  Otherwise building the entry raises
    [OverflowError]. *)
Definition expiry_fits (ttl_minutes : Z) (now : datetime) : Prop :=
  Z.abs (ttl_minutes / 1440) <= 999999999 /\
  datetime_min <= now + ttl_minutes * 60000000 <= datetime_max.

(** [ModelCache.set], for a TTL with [expiry_fits]; [now1], [now2],
    [now3] are the clock readings taken for [created_at], [expires_at]
    and [last_accessed]. *)
Definition set (c : ModelCache) (anomaly_type : string)
  (feature_count data_size : Z) (m : AnomalyDetector)
  (now1 now2 now3 : datetime) : ModelCache :=
  let cache_key := _generate_cache_key anomaly_type feature_count data_size in
  let c1 := if Z.of_nat (List.length (_cache c)) >=? max_cache_size c
            then _evict_least_used c else c in
  let item := mkItem m now1 (now2 + timedelta_minutes (ttl_minutes c1)) 0 now3 in
  with_cache c1 (setitem String.eqb cache_key item (_cache c1)).

Definition clear (c : ModelCache) : ModelCache := with_cache c [].

(** The keys [cleanup_expired] collects; [clock i] is the [utcnow()]
    read when the entry at position [i] of the dict is tested. *)
Fixpoint expired_from (clock : nat -> datetime) (i : nat)
  (d : list (string * CachedItem)) : list string :=
  match d with
  | [] => []
  | (key, item) :: r =>
      if clock i >? expires_at item
      then key :: expired_from clock (S i) r
      else expired_from clock (S i) r
  end.

Definition cleanup_expired (c : ModelCache) (clock : nat -> datetime)
  : ModelCache * Z :=
  let expired_keys := expired_from clock 0 (_cache c) in
  (with_cache c
     (fold_left (fun d key => delete String.eqb key d) expired_keys (_cache c)),
   Z.of_nat (List.length expired_keys)).

(** One element of [get_stats()["models"]]. *)
Record ModelStat : Type := mkStat {
  st_key : string;
  st_hits : Z;
  st_created_at : string;
  st_expires_at : string;
  st_last_accessed : string
}.

Record Stats : Type := mkStats {
  stats_size : Z;
  stats_max_size : Z;
  stats_ttl_minutes : Z;
  total_hits : Z;
  stats_models : list ModelStat
}.

(** [ModelCache.get_stats]; [isoformat] is [datetime.isoformat]. *)
Definition get_stats (isoformat : datetime -> string) (c : ModelCache)
  : Stats :=
  mkStats (Z.of_nat (List.length (_cache c)))
          (max_cache_size c)
          (ttl_minutes c)
          (fold_right Z.add 0 (map hits (values (_cache c))))
          (map (fun kv =>
                  mkStat (fst kv) (hits (snd kv))
                         (isoformat (created_at (snd kv)))
                         (isoformat (expires_at (snd kv)))
                         (isoformat (last_accessed (snd kv))))
               (_cache c)).

(** One [set] call with everything it reads. *)
Record SetCall : Type := mkSet {
  s_type : string; s_features : Z; s_size : Z;
  s_model : AnomalyDetector;
  s_now1 : datetime; s_now2 : datetime; s_now3 : datetime
}.

Definition s_key (s : SetCall) : string :=
  _generate_cache_key (s_type s) (s_features s) (s_size s).

Definition do_set (c : ModelCache) (s : SetCall) : ModelCache :=
  set c (s_type s) (s_features s) (s_size s) (s_model s)
      (s_now1 s) (s_now2 s) (s_now3 s).

Definition set_all (c : ModelCache) (calls : list SetCall) : ModelCache :=
  fold_left do_set calls c.

Definition size (c : ModelCache) : Z := Z.of_nat (List.length (_cache c)).

(** One call on the cache, with the clock readings it takes. *)
Inductive Op : Type :=
| OpGet (anomaly_type : string) (feature_count data_size : Z)
        (now1 now2 : datetime)
| OpSet (s : SetCall)
| OpCleanup (clock : nat -> datetime)
| OpClear.

Definition step (c : ModelCache) (op : Op) : ModelCache :=
  match op with
  | OpGet ty fc ds now1 now2 => fst (get c ty fc ds now1 now2)
  | OpSet s => do_set c s
  | OpCleanup clock => fst (cleanup_expired c clock)
  | OpClear => clear c
  end.

(** A sequence of calls, one after the other. *)
Definition run (c : ModelCache) (ops : list Op) : ModelCache :=
  fold_left step ops c.

End model_cache.

(* ================================================================== *)
(** * The slice of polars, numpy and scikit-learn the detector calls *)
(* ================================================================== *)

Module libs.
Import py.

(** A value found in an input record ([Dict[str, Any]]). *)
Inductive PyValue : Type :=
| PyInt (z : Z)
| PyFloat (q : Q)
| PyStr (s : string)
| PyBool (b : bool)
| PyDatetime (t : datetime)
| PyNone.

Definition Record_ := list (string * PyValue).

Inductive DType : Type :=
| Float64 | Float32 | Int64 | Int32 | UInt64 | Int128
| Utf8 | Boolean | Datetime | Null.

Record Series : Type := mkSeries {
  s_name : string;
  s_dtype : DType;
  s_values : list PyValue
}.

Record DataFrame : Type := mkDF {
  columns : list Series;
  height : nat
}.

(** The number of records polars reads to infer the schema
    ([infer_schema_length], left at its default). *)
Definition infer_schema_length : nat := 100.

(** Column names of [pl.DataFrame(rows)]: the keys of the records the
    schema is inferred from, in first-seen order. *)
Fixpoint add_names (seen : list string) (ks : list string) : list string :=
  match ks with
  | [] => seen
  | k :: r =>
      if existsb (String.eqb k) seen then add_names seen r
      else add_names (seen ++ [k]) r
  end.

Definition column_names (data : list Record_) : list string :=
  fold_left (fun seen r => add_names seen (keys r))
            (firstn infer_schema_length data) [].

Definition cell (name : string) (r : Record_) : PyValue :=
  match lookup String.eqb name r with
  | Some v => v
  | None => PyNone
  end.

(** The dtype of a Python [int]: [Int64] when it fits 64 signed bits,
    a wider integer type otherwise. *)
Definition int_dtype (z : Z) : DType :=
  if ((-9223372036854775808 <=? z) && (z <? 9223372036854775808))%Z
  then Int64
  else if ((0 <=? z) && (z <? 18446744073709551616))%Z then UInt64
  else Int128.

Definition value_dtype (v : PyValue) : DType :=
  match v with
  | PyInt z => int_dtype z
  | PyFloat _ => Float64
  | PyStr _ => Utf8
  | PyBool _ => Boolean
  | PyDatetime _ => Datetime
  | PyNone => Null
  end.

(** The common dtype of two dtypes, where this model has one: a
    Boolean counts as a number next to a number, integers of
    different widths meet in [Int128], an integer next to a float is a
    float. *)
Definition supertype (a b : DType) : option DType :=
  match a, b with
  | Null, d => Some d
  | d, Null => Some d
  | Boolean, Boolean => Some Boolean
  | Utf8, Utf8 => Some Utf8
  | Datetime, Datetime => Some Datetime
  | Float64, (Float64 | Int64 | UInt64 | Int128 | Boolean) => Some Float64
  | (Int64 | UInt64 | Int128 | Boolean), Float64 => Some Float64
  | Int64, (Int64 | Boolean) => Some Int64
  | Boolean, Int64 => Some Int64
  | UInt64, (UInt64 | Boolean) => Some UInt64
  | Boolean, UInt64 => Some UInt64
  | Int64, (UInt64 | Int128) => Some Int128
  | UInt64, (Int64 | Int128) => Some Int128
  | Int128, (Int64 | UInt64 | Int128 | Boolean) => Some Int128
  | Boolean, Int128 => Some Int128
  | _, _ => None
  end.

(** The dtype polars infers for one more value of a column; [None] when
    the values have no common dtype and the constructor raises. *)
Definition join_dtype (d : DType) (v : PyValue) : option DType :=
  supertype d (value_dtype v).

Fixpoint infer_dtype (d : DType) (vs : list PyValue) : option DType :=
  match vs with
  | [] => Some d
  | v :: r =>
      match join_dtype d v with
      | Some d' => infer_dtype d' r
      | None => None
      end
  end.

Definition dtype_eqb (a b : DType) : bool :=
  match a, b with
  | Float64, Float64 | Float32, Float32 | Int64, Int64 | Int32, Int32
  | UInt64, UInt64 | Int128, Int128 | Utf8, Utf8 | Boolean, Boolean
  | Datetime, Datetime | Null, Null => true
  | _, _ => false
  end.

(** A value read after the schema is fixed has to fit the column's
    dtype. *)
Definition fits (d : DType) (v : PyValue) : bool :=
  match join_dtype d v with
  | Some d' => dtype_eqb d' d
  | None => false
  end.

Fixpoint build_columns (names : list string) (data : list Record_)
  : Exc (list Series) :=
  match names with
  | [] => Return []
  | n :: r =>
      let vs := map (cell n) data in
      match infer_dtype Null (firstn infer_schema_length vs) with
      | None => Raise (TypeError "unexpected value while building Series")
      | Some d =>
          if forallb (fits d) (skipn infer_schema_length vs)
          then bind (build_columns r data)
                    (fun cs => Return (mkSeries n d vs :: cs))
          else Raise (TypeError "unexpected value while building Series")
      end
  end.

(** [pl.DataFrame(data)] for a list of dicts, as far as this model
    goes: the schema comes from the first [infer_schema_length]
    records, a key a record lacks is a null, and the frame has one row
    per record. *)
Definition pl_DataFrame (data : list Record_) : Exc DataFrame :=
  let names := column_names data in
  bind (build_columns names data)
       (fun cs => Return (mkDF cs (match names with
                                   | [] => O
                                   | _ => List.length data
                                   end))).

Definition get_column (df : DataFrame) (name : string) : option Series :=
  find (fun s => String.eqb name (s_name s)) (columns df).

(** [fill_null(0)] then [to_numpy()] on one cell of a numeric column. *)
Definition to_float (v : PyValue) : Q :=
  match v with
  | PyInt z => inject_Z z
  | PyFloat q => q
  | PyBool true => 1
  | _ => 0
  end.

Definition matrix := list (list Q).

Definition is_float (d : DType) : bool :=
  match d with Float64 | Float32 => true | _ => false end.

(** The conversion [to_numpy] applies to the cells: the array is an
    array of integers when every selected column is an integer column
    and an array of floats otherwise. *)
Definition to_numpy_cast (cols : list Series) : Q -> Q :=
  if existsb (fun s => is_float (s_dtype s)) cols then binary64
  else fun q => q.

(** [df.select(cols).fill_null(0).to_numpy()], row by row. *)
Definition select_to_numpy (df : DataFrame) (cols : list Series) : matrix :=
  map (fun i =>
         map (fun s => to_numpy_cast cols
                         (to_float (nth i (s_values s) PyNone))) cols)
      (seq 0 (height df)).

(** ** numpy *)

Fixpoint Qsum (l : list Q) : Q :=
  match l with
  | [] => 0
  | x :: r => x + Qsum r
  end.

Definition Qlen (l : list Q) : Q := inject_Z (Z.of_nat (List.length l)).

(** [np.mean] of a vector. *)
Definition np_mean (l : list Q) : Q := Qsum l / Qlen l.

(** The square of [np.std] (population variance). *)
Definition np_var (l : list Q) : Q :=
  let m := np_mean l in
  Qsum (map (fun x => (x - m) * (x - m)) l) / Qlen l.

Definition column_of (X : matrix) (j : nat) : list Q :=
  map (fun row => nth j row 0) X.

Fixpoint insert_sorted (x : Q) (l : list Q) : list Q :=
  match l with
  | [] => [x]
  | y :: r => if Qle_bool x y then x :: l else y :: insert_sorted x r
  end.

Definition np_sort (l : list Q) : list Q := fold_right insert_sorted [] l.

(** The percentile by linear interpolation between the two nearest
    ranks, as numpy documents its default method, without rounding;
    [None] for an empty array.  The stand-ins of the sample runs
    answer with it. *)
Definition linear_percentile (a : list Q) (q : Q) : option Q :=
  match a with
  | [] => None
  | _ =>
      let s := np_sort a in
      let n := List.length s in
      let rank := inject_Z (Z.of_nat (n - 1)) * q / 100 in
      let lo := Z.to_nat (Qfloor rank) in
      let hi := Nat.min (lo + 1) (n - 1) in
      let frac := rank - inject_Z (Qfloor rank) in
      Some (nth lo s 0 + (nth hi s 0 - nth lo s 0) * frac)
  end.

(** ** scikit-learn and [np.percentile]: what the detector asks of
    them.  [fit_predict] and [score_samples] take the constructor
    arguments of the forest (contamination, random_state,
    n_estimators); [score_samples] also takes the matrix the forest was
    fitted on.  [np_percentile a q] is the float [np.percentile(a, q)]
    returns, [None] when that is [nan]. *)
Record Sklearn : Type := mkSklearn {
  StandardScaler_fit_transform : matrix -> Exc matrix;
  IsolationForest_fit_predict : Q -> Z -> Z -> matrix -> Exc (list Z);
  IsolationForest_score_samples :
    Q -> Z -> Z -> matrix -> matrix -> Exc (list Q);
  np_percentile : list Q -> Q -> option Q
}.

End libs.

(* ================================================================== *)
(** * app/services/anomaly_detector.py *)
(* ================================================================== *)

Module anomaly_detector.
Import py libs.
Local Open Scope Q_scope.

Inductive Severity : Type := low | medium | high | critical.

(** The string the code returns. *)
Definition severity_str (s : Severity) : string :=
  match s with
  | low => "low" | medium => "medium" | high => "high" | critical => "critical"
  end.

(** low < medium < high < critical *)
Definition severity_rank (s : Severity) : nat :=
  match s with
  | low => 0 | medium => 1 | high => 2 | critical => 3
  end.

Record Anomaly : Type := mkAnomaly {
  index : nat;
  anomaly_detected : bool;
  anomaly_score : Q;
  affected_metrics : list string;
  severity : Severity;
  timestamp : PyValue;
  recommendations : list string
}.

Definition is_numeric (d : DType) : bool :=
  match d with
  | Float64 | Float32 | Int64 | Int32 => true
  | _ => false
  end.

Fixpoint numeric_columns (df : DataFrame) (feature_columns : list string)
  : list Series :=
  match feature_columns with
  | [] => []
  | col :: r =>
      match get_column df col with
      | Some s => if is_numeric (s_dtype s)
                  then s :: numeric_columns df r
                  else numeric_columns df r
      | None => numeric_columns df r
      end
  end.

Definition _prepare_data (data : list Record_) (feature_columns : list string)
  : Exc (matrix * DataFrame) :=
  bind (pl_DataFrame data) (fun df =>
    match numeric_columns df feature_columns with
    | [] => Raise (ValueError "No numeric columns found in the data")
    | numeric_cols => Return (select_to_numpy df numeric_cols, df)
    end).

Definition Qgt_bool (a b : Q) : bool := negb (Qle_bool a b).

(** [_identify_affected_metrics].  [std > 0] and
    [abs(value - mean) > 2 * std] are decided on the squares, where
    [np.std ** 2] is the rational [np_var]. *)
Definition deviates (value : Q) (col : list Q) : bool :=
  let mean := np_mean col in
  let var := np_var col in
  Qgt_bool var 0 && Qgt_bool ((value - mean) * (value - mean)) (4 * var).

Fixpoint affected_from (idx : nat) (sample : list Q) (all_samples : matrix)
  (feature_names : list string) : list string :=
  match sample with
  | [] => []
  | value :: r =>
      let rest := affected_from (S idx) r all_samples feature_names in
      if deviates value (column_of all_samples idx)
      then nth idx feature_names EmptyString :: rest
      else rest
  end.

Definition _identify_affected_metrics (sample : list Q) (all_samples : matrix)
  (feature_names : list string) : list string :=
  match affected_from 0 sample all_samples feature_names with
  | [] => firstn 1 feature_names
  | affected => affected
  end.

(** [a * b] on floats. *)
Definition fmul (a b : Q) : Q := binary64 (a * b).

Definition _calculate_severity (sk : Sklearn) (score : Q)
  (all_scores : list Q) : Severity :=
  let score_abs := Qabs score in
  match np_percentile sk (map Qabs all_scores) 90 with
  | None => low
  | Some percentile =>
      if Qgt_bool score_abs (fmul percentile (3 # 2)) then critical
      else if Qgt_bool score_abs percentile then high
      else if Qgt_bool score_abs (fmul percentile (1 # 2)) then medium
      else low
  end.

Definition mem (s : string) (l : list string) : bool :=
  existsb (String.eqb s) l.

Definition when (b : bool) (s : string) : list string :=
  if b then [s] else [].

Definition urgent (s : Severity) : bool :=
  match s with critical | high => true | _ => false end.

Definition or_default (l : list string) (d : string) : list string :=
  match l with [] => [d] | _ => l end.

Definition _generate_network_recommendations
  (affected_metrics : list string) (severity : Severity) : list string :=
  or_default
    (when (mem "bandwidth_usage" affected_metrics)
       "Monitor bandwidth consumption and consider upgrading capacity"
     ++ when (mem "packet_loss" affected_metrics)
       "Check network equipment and cable connections for packet loss"
     ++ when (mem "latency" affected_metrics)
       "Investigate routing paths and potential bottlenecks"
     ++ when (mem "error_rate" affected_metrics)
       "Review error logs and check for hardware issues"
     ++ when (mem "connection_count" affected_metrics)
       "Analyze connection patterns and consider load balancing"
     ++ when (urgent severity)
       "Immediate investigation recommended - potential service impact")
    "Review network metrics and establish baseline".

Definition _generate_site_recommendations
  (affected_metrics : list string) (severity : Severity) : list string :=
  or_default
    (when (mem "response_time" affected_metrics)
       "Optimize database queries and implement caching strategies"
     ++ when (mem "uptime_percentage" affected_metrics)
       "Investigate recent downtime and implement redundancy"
     ++ when (mem "error_count" affected_metrics)
       "Review application logs and fix recurring errors"
     ++ when (mem "cpu_usage" affected_metrics)
       "Consider scaling compute resources or optimizing CPU-intensive tasks"
     ++ when (mem "memory_usage" affected_metrics)
       "Check for memory leaks and optimize memory allocation"
     ++ when (urgent severity)
       "Critical issue detected - immediate action required")
    "Monitor site performance metrics".

Definition _generate_link_recommendations
  (affected_metrics : list string) (severity : Severity) : list string :=
  or_default
    (when (mem "throughput" affected_metrics)
       "Verify link capacity and check for congestion"
     ++ when (mem "utilization" affected_metrics)
       "Consider link upgrade or traffic optimization"
     ++ when (mem "errors" affected_metrics)
       "Inspect physical connections and replace faulty equipment"
     ++ when (mem "discards" affected_metrics)
       "Review QoS policies and buffer configurations"
     ++ when (urgent severity)
       "High-priority link issue - potential connectivity impact")
    "Monitor link health metrics".

(** The loop over [enumerate(zip(predictions, anomaly_scores))];
    [clock idx] is the [utcnow()] read while row [idx] is handled. *)
Fixpoint collect (sk : Sklearn)
  (recommend : list string -> Severity -> list string)
  (feature_columns : list string) (data : list Record_) (X : matrix)
  (anomaly_scores : list Q) (clock : nat -> datetime)
  (idx : nat) (preds : list Z) (scores : list Q) : list Anomaly :=
  match preds, scores with
  | pred :: preds', score :: scores' =>
      let rest := collect sk recommend feature_columns data X anomaly_scores
                          clock (S idx) preds' scores' in
      if (pred =? -1)%Z then
        let affected :=
          _identify_affected_metrics (nth idx X []) X feature_columns in
        let sev := _calculate_severity sk score anomaly_scores in
        mkAnomaly idx true (Qabs score) affected sev
          (match lookup String.eqb "timestamp"%string (nth idx data []) with
           | Some t => t
           | None => PyDatetime (clock idx)
           end)
          (recommend affected sev) :: rest
      else rest
  | _, _ => []
  end.

(** The body the three detection methods share, word for word, up to
    the feature columns and the recommendation generator. *)
Definition detect (sk : Sklearn) (feature_columns : list string)
  (recommend : list string -> Severity -> list string)
  (data : list Record_) (sensitivity : Q) (clock : nat -> datetime)
  : Exc (list Anomaly) :=
  bind (_prepare_data data feature_columns) (fun Xdf =>
    let X := fst Xdf in
    if (List.length X <? 10)%nat then Return []
    else
      let contamination := 1 - sensitivity in
      bind (StandardScaler_fit_transform sk X) (fun X_scaled =>
      bind (IsolationForest_fit_predict sk contamination 42 100 X_scaled)
        (fun predictions =>
      bind (IsolationForest_score_samples sk contamination 42 100
              X_scaled X_scaled) (fun anomaly_scores =>
      Return (collect sk recommend feature_columns data X anomaly_scores
                      clock 0 predictions anomaly_scores))))).

Definition network_columns : list string :=
  ["bandwidth_usage"; "packet_loss"; "latency"; "error_rate";
   "connection_count"]%string.

Definition site_columns : list string :=
  ["response_time"; "uptime_percentage"; "request_count"; "error_count";
   "cpu_usage"; "memory_usage"]%string.

Definition link_columns : list string :=
  ["throughput"; "utilization"; "errors"; "discards"]%string.

Definition detect_network_anomalies (sk : Sklearn) :=
  detect sk network_columns _generate_network_recommendations.

Definition detect_site_anomalies (sk : Sklearn) :=
  detect sk site_columns _generate_site_recommendations.

Definition detect_link_anomalies (sk : Sklearn) :=
  detect sk link_columns _generate_link_recommendations.

End anomaly_detector.

(* ================================================================== *)
(** * app/services/anomaly_detector.py: the two cache helpers *)
(* ================================================================== *)

Module detector_cache.
Import py detector_object.

(** [AnomalyDetector._get_cached_detector]; [cache] is the global
    [model_cache] instance, returned with the changes [get] made. *)
Definition _get_cached_detector (self : AnomalyDetector)
  (cache : model_cache.ModelCache) (anomaly_type : string)
  (feature_columns : list string) (now1 now2 : datetime)
  : model_cache.ModelCache * option AnomalyDetector :=
  if negb (cache_enabled self) then (cache, None)
  else model_cache.get cache anomaly_type
         (Z.of_nat (List.length feature_columns)) 1 now1 now2.

(** [AnomalyDetector._cache_detector] *)
Definition _cache_detector (self : AnomalyDetector)
  (cache : model_cache.ModelCache) (anomaly_type : string)
  (feature_columns : list string) (now1 now2 now3 : datetime)
  : model_cache.ModelCache :=
  if negb (cache_enabled self) then cache
  else model_cache.set cache anomaly_type
         (Z.of_nat (List.length feature_columns)) 1 self now1 now2 now3.

End detector_cache.

(* ================================================================== *)
(** * app/api/v1/endpoints/anomaly_detection.py: the status of a
      detection response *)
(* ================================================================== *)

Module endpoints.
Import anomaly_detector.

(** [overall_status] as [detect_anomalies] derives it from the
    results. *)
Definition overall_status (results : list Anomaly) : string :=
  if existsb (fun r => match severity r with
                       | critical | high => true
                       | _ => false
                       end) results
  then "critical"
  else if existsb (fun r => match severity r with
                            | medium => true
                            | _ => false
                            end) results
  then "warning"
  else match results with
       | [] => "healthy"
       | _ => "anomalies_detected"
       end.

(** healthy < anomalies_detected < warning < critical *)
Definition status_rank (s : string) : nat :=
  if String.eqb s "critical" then 3
  else if String.eqb s "warning" then 2
  else if String.eqb s "anomalies_detected" then 1
  else 0.

End endpoints.

(* ================================================================== *)
(** * app/models/bcom_models.py: the tables the engine queries *)
(* ================================================================== *)

Module bcom_models.
Import py.

Record Site : Type := mkSite {
  site_site_id : Z;
  site_type : option string
}.

Record Link : Type := mkLink {
  link_link_id : Z;
  link_site_id : Z;
  link_network_id : Z;
  link_type : option string
}.

(** A row of [site_grades]; the [Float] columns other than [grade] are
    nullable. *)
Record SiteGrade : Type := mkGrade {
  link_id : Z;
  timestamp : datetime;
  ib_degradation : option Q;
  ob_degradation : option Q;
  ib_instability : option Q;
  ob_instability : option Q;
  congestion : option Q;
  grade : Q
}.

(** The database session, as the rows it holds. *)
Record Session : Type := mkSession {
  sites : list Site;
  links : list Link;
  site_grades : list SiteGrade
}.

End bcom_models.

(* ================================================================== *)
(** * app/services/correlation_engine.py *)
(* ================================================================== *)

Module correlation_engine.
Import py bcom_models.
Local Open Scope Q_scope.

(** A value of the [supporting_metrics] dict. *)
Inductive Metric : Type :=
| MFloat (q : Q)
| MInt (z : Z)
| MStr (s : string).

Record DegradationPattern : Type := mkPattern {
  pattern_id : string;
  pattern_type : string;
  severity : Q;
  confidence : Q;
  affected_items : list Z;
  root_cause : string;
  supporting_metrics : list (string * Metric);
  p_timestamp : datetime;
  hours_duration : Z;
  devices_affected_count : Z;
  links_affected_count : Z
}.

Record CorrelationAnalysis : Type := mkAnalysis {
  analysis_id : string;
  scope : string;
  scope_id : Z;
  a_timestamp : datetime;
  hours_analyzed : Z;
  patterns_found : list DegradationPattern;
  correlation_score : R;
  recommendations : list string
}.

(** Formatting done by the Python runtime: [datetime.isoformat()] and
    the [:.1f] float format. *)
Record Runtime : Type := mkRuntime {
  isoformat : datetime -> string;
  format_1f : Q -> string
}.

(** Thresholds set by [CorrelationEngine.__init__]. *)
Definition CRITICAL_GRADE_THRESHOLD : Q := 6.
Definition WARNING_GRADE_THRESHOLD : Q := 7.
Definition MIN_DEVICES_FOR_PATTERN : nat := 2.
Definition IB_DEGRADATION_THRESHOLD : Q := 2 # 10.
Definition OB_DEGRADATION_THRESHOLD : Q := 2 # 10.
Definition INSTABILITY_THRESHOLD : Q := 3 # 10.

Definition Qlt_bool (a b : Q) : bool := negb (Qle_bool b a).
Definition Qgt_bool (a b : Q) : bool := negb (Qle_bool a b).
Definition Qge_bool (a b : Q) : bool := Qle_bool b a.

(** [x or 0] for a nullable float. *)
Definition or0 (x : option Q) : Q :=
  match x with Some q => q | None => 0 end.

Definition len {A} (l : list A) : Z := Z.of_nat (List.length l).
Definition Qlen {A} (l : list A) : Q := inject_Z (len l).

Fixpoint Qsum (l : list Q) : Q :=
  match l with
  | [] => 0
  | x :: r => x + Qsum r
  end.

(** [statistics.mean] *)
Definition mean (l : list Q) : Exc Q :=
  match l with
  | [] => Raise (StatisticsError "mean requires at least one data point")
  | _ => Return (Qsum l / Qlen l)
  end.

(** The sample variance [statistics.stdev] takes the root of. *)
Definition variance (l : list Q) : Q :=
  let m := Qsum l / Qlen l in
  Qsum (map (fun x => (x - m) * (x - m)) l) / (Qlen l - 1).

(** [statistics.stdev] *)
Definition stdev (l : list Q) : Exc R :=
  if (List.length l <? 2)%nat
  then Raise (StatisticsError "stdev requires at least two data points")
  else Return (sqrt (Q2R (variance l))).

(** [min(xs)] on floats. *)
Fixpoint Qminimum (best : Q) (l : list Q) : Q :=
  match l with
  | [] => best
  | x :: r => if Qlt_bool x best then Qminimum x r else Qminimum best r
  end.

(** *** [list(set(xs))] for ints

    CPython keeps a set in an open-addressing table and iterates the
    slots in index order.  A key goes to slot [hash & mask] or, when
    that is taken, to the first free slot of the probe sequence: up to
    nine slots further on, then a jump to
    [(i * 5 + 1 + perturb) & mask] with [perturb] shifted right by 5
    each time.  The table starts with 8 slots and is rebuilt, in slot
    order, with more slots once three fifths of it are used. *)

(** Each element once, first occurrences kept. *)
Fixpoint dedup (l : list Z) : list Z :=
  match l with
  | [] => []
  | x :: r => x :: filter (fun y => negb (y =? x)%Z) (dedup r)
  end.

(** [hash(n)] for an int. *)
Definition int_hash (n : Z) : Z :=
  let h := (Z.sgn n * (Z.abs n mod (2 ^ 61 - 1)))%Z in
  if (h =? -1)%Z then (-2)%Z else h.

(** The table: [None] is a free slot. *)
Definition set_table := list (option Z).

Definition slot (t : set_table) (i : Z) : option Z :=
  nth (Z.to_nat i) t None.

Fixpoint put (t : set_table) (i : nat) (k : Z) : set_table :=
  match t, i with
  | [], _ => []
  | _ :: r, O => Some k :: r
  | e :: r, S i' => e :: put r i' k
  end.

(** Up to [n] slots from [i] on: [Some (Some j)] for the free slot
    [j], [Some None] when [k] is there already, [None] when neither
    was met. *)
Fixpoint linear_probe (t : set_table) (k i : Z) (n : nat)
  : option (option Z) :=
  match n with
  | O => None
  | S n' =>
      match slot t i with
      | None => Some (Some i)
      | Some k' =>
          if (k' =? k)%Z then Some None
          else linear_probe t k (i + 1)%Z n'
      end
  end.

Fixpoint probe (fuel : nat) (t : set_table) (mask k i perturb : Z)
  : option (option Z) :=
  match fuel with
  | O => None
  | S fuel' =>
      match linear_probe t k i
              (if (i + 9 <=? mask)%Z then 10%nat else 1%nat) with
      | Some r => Some r
      | None =>
          let perturb' := Z.shiftr perturb 5 in
          probe fuel' t mask k (Z.land (i * 5 + 1 + perturb') mask)
                perturb'
      end
  end.

(** The probe sequence of [k]; it has met every slot after
    [14 + len(table)] rounds. *)
Definition find_slot (t : set_table) (k : Z) : option (option Z) :=
  let mask := (Z.of_nat (List.length t) - 1)%Z in
  let h := int_hash k in
  probe (14 + List.length t) t mask k (Z.land h mask) (h mod 2 ^ 64)%Z.

Definition table_keys (t : set_table) : list Z :=
  flat_map (fun e => match e with Some k => [k] | None => [] end) t.

Definition place (t : set_table) (k : Z) : set_table :=
  match find_slot t k with
  | Some (Some i) => put t (Z.to_nat i) k
  | _ => t
  end.

(** [set_table_resize]: a table of the least power of two above
    [minused], 8 at least, refilled in slot order. *)
Definition resize (t : set_table) (minused : Z) : set_table :=
  let newsize := Z.to_nat (Z.max 8 (2 ^ (Z.log2 minused + 1))) in
  fold_left place (table_keys t) (repeat None newsize).

(** [set.add] *)
Definition set_add (t : set_table) (k : Z) : set_table :=
  match find_slot t k with
  | Some (Some i) =>
      let t' := put t (Z.to_nat i) k in
      let used := len (table_keys t') in
      let mask := (Z.of_nat (List.length t') - 1)%Z in
      if (used * 5 <? mask * 3)%Z then t'
      else resize t' (if (used >? 50000)%Z then used * 2 else used * 4)%Z
  | _ => t
  end.

(** [set(xs)] *)
Definition set_of (l : list Z) : set_table :=
  fold_left set_add l (repeat None 8%nat).

(** [list(set(xs))]: the elements of [xs], each once, in the order of
    their slots. *)
Definition list_set (l : list Z) : list Z :=
  let elements := dedup l in
  let order := dedup (table_keys (set_of l)) in
  filter (fun x => existsb (Z.eqb x) elements) order
  ++ filter (fun x => negb (existsb (Z.eqb x) order)) elements.

Fixpoint contains_str (needle hay : string) : bool :=
  prefix needle hay ||
  match hay with
  | EmptyString => false
  | String _ r => contains_str needle r
  end.

Definition lower_ascii (c : Ascii.ascii) : Ascii.ascii :=
  let n := Ascii.nat_of_ascii c in
  if ((65 <=? n) && (n <=? 90))%nat then Ascii.ascii_of_nat (n + 32) else c.

Fixpoint lower (s : string) : string :=
  match s with
  | EmptyString => EmptyString
  | String c r => String (lower_ascii c) (lower r)
  end.

Definition percent : Ascii.ascii := Ascii.ascii_of_nat 37.
Definition underscore : Ascii.ascii := Ascii.ascii_of_nat 95.
Definition backslash : Ascii.ascii := Ascii.ascii_of_nat 92.

(** PostgreSQL's [LIKE]: in the pattern a percent sign stands for any
    run of characters, an underscore for any one character, and a
    backslash makes the character after it stand for itself.  (A
    pattern that ends in a lone backslash is an error to PostgreSQL; a
    pattern that ends in a percent sign never gets there.) *)
Fixpoint like (pattern : string) : string -> bool :=
  match pattern with
  | EmptyString =>
      fun s => match s with EmptyString => true | _ => false end
  | String c p =>
      if Ascii.eqb c percent then
        fix any (s : string) : bool :=
          like p s
          || match s with EmptyString => false | String _ r => any r end
      else if Ascii.eqb c underscore then
        fun s => match s with EmptyString => false | String _ r => like p r end
      else if Ascii.eqb c backslash then
        match p with
        | EmptyString => fun _ => false
        | String e p' =>
            fun s => match s with
                     | EmptyString => false
                     | String x r => Ascii.eqb x e && like p' r
                     end
        end
      else
        fun s => match s with
                 | EmptyString => false
                 | String x r => Ascii.eqb x c && like p r
                 end
  end.

(** [column.ilike(pattern)]: [LIKE] without regard to the case of the
    letters A to Z (a string is read as a sequence of one-byte
    characters); a NULL column matches nothing. *)
Definition ilike (column : option string) (pattern : string) : bool :=
  match column with
  | Some t => like (lower pattern) (lower t)
  | None => false
  end.

(** [Link.link_type.ilike(f"%{satellite_name}%")] *)
Definition link_type_ilike (satellite_name : string) (l : Link) : bool :=
  ilike (link_type l)
        (String percent (satellite_name ++ String percent EmptyString)).

(** [datetime.utcnow() - timedelta(hours=hours_lookback)] *)
Definition cutoff_time_of (now : datetime) (hours_lookback : Z)
  : Exc datetime :=
  bind (timedelta hours_lookback) (datetime_sub now).

Definition grades_of (db : Session) (l : Z) (cutoff_time : datetime)
  : list SiteGrade :=
  filter (fun g => (link_id g =? l)%Z && (timestamp g >=? cutoff_time)%Z)
         (site_grades db).

Definition degraded_grades_of (db : Session) (l : Z) (cutoff_time : datetime)
  : list SiteGrade :=
  filter (fun g => (link_id g =? l)%Z && (timestamp g >=? cutoff_time)%Z
                   && Qlt_bool (grade g) WARNING_GRADE_THRESHOLD)
         (site_grades db).

(** ** Pattern detection *)

Definition Buckets := list (datetime * list (Z * SiteGrade)).

Definition bucket_add (b : Buckets) (l : Z) (g : SiteGrade) : Buckets :=
  let hour_key := replace_to_hour (timestamp g) in
  match lookup Z.eqb hour_key b with
  | None => setitem Z.eqb hour_key [(l, g)] b
  | Some entries => setitem Z.eqb hour_key (entries ++ [(l, g)]) b
  end.

Definition hourly_buckets (link_grades : list (Z * list SiteGrade)) : Buckets :=
  fold_left
    (fun b lg => fold_left (fun b' g => bucket_add b' (fst lg) g) (snd lg) b)
    link_grades [].

Definition temporal_pattern (rt : Runtime) (network_id : Z)
  (hour : datetime) (entries : list (Z * SiteGrade)) : Exc DegradationPattern :=
  let affected_links := list_set (map fst entries) in
  let grades_list := map (fun e => grade (snd e)) entries in
  bind (mean grades_list) (fun m =>
    let severity := 1 - m / 10 in
    let confidence := Qmin (95 # 100) (Qlen affected_links / 10 * 2) in
    Return (mkPattern
      (str network_id ++ "_" ++ isoformat rt hour)
      "network_equipment_failure"
      severity confidence affected_links
      "Possible equipment/hardware failure affecting multiple sites"
      [("avg_grade"%string, MFloat m);
       ("min_grade"%string,
        MFloat (Qminimum (hd 0 grades_list) (tl grades_list)));
       ("affected_links"%string, MInt (len affected_links));
       ("simultaneous_degradation_count"%string, MInt (len entries))]
      hour 1 (len affected_links) (len affected_links))).

(** The loop over the buckets; an exception ends it and the patterns
    found so far are returned. *)
Fixpoint temporal_loop (rt : Runtime) (network_id : Z) (b : Buckets)
  : list DegradationPattern :=
  match b with
  | [] => []
  | (hour, entries) :: r =>
      if (MIN_DEVICES_FOR_PATTERN <=? List.length entries)%nat then
        match temporal_pattern rt network_id hour entries with
        | Return p => p :: temporal_loop rt network_id r
        | Raise _ => []
        end
      else temporal_loop rt network_id r
  end.

Definition _detect_temporal_correlation (rt : Runtime)
  (link_grades : list (Z * list SiteGrade)) (network_id : Z)
  (pattern_type : string) : list DegradationPattern :=
  if (List.length link_grades <? MIN_DEVICES_FOR_PATTERN)%nat then []
  else temporal_loop rt network_id (hourly_buckets link_grades).

Definition mean_or0 (l : list Q) : Q :=
  match mean l with Return m => m | Raise _ => 0 end.

Fixpoint _detect_antenna_alignment_patterns (rt : Runtime)
  (degraded_links : list (Z * list SiteGrade)) (site_id : Z)
  (now : datetime) : list DegradationPattern :=
  match degraded_links with
  | [] => []
  | (l, grades) :: r =>
      let avg_ib_instability :=
        mean_or0 (map (fun g => or0 (ib_instability g)) grades) in
      let avg_ob_instability :=
        mean_or0 (map (fun g => or0 (ob_instability g)) grades) in
      let rest := _detect_antenna_alignment_patterns rt r site_id now in
      if Qgt_bool avg_ib_instability INSTABILITY_THRESHOLD
         && Qgt_bool avg_ob_instability INSTABILITY_THRESHOLD
      then
        mkPattern
          ("ANTENNA_" ++ str site_id ++ "_" ++ str l)
          "antenna_alignment"
          (Qmax avg_ib_instability avg_ob_instability) (85 # 100) [l]
          "Antenna alignment issue causing bidirectional instability"
          [("avg_ib_instability"%string, MFloat avg_ib_instability);
           ("avg_ob_instability"%string, MFloat avg_ob_instability);
           ("grade_records_analyzed"%string, MInt (len grades))]
          (match grades with g :: _ => timestamp g | [] => now end)
          (len grades) 1 1 :: rest
      else rest
  end.

Definition _detect_satellite_patterns (rt : Runtime)
  (degraded_links : list (Z * list SiteGrade)) (satellite_name : string)
  (now : datetime) : list DegradationPattern :=
  if (MIN_DEVICES_FOR_PATTERN <=? List.length degraded_links)%nat then
    let all_grades := List.concat (values degraded_links) in
    let avg_grade := mean_or0 (map grade all_grades) in
    let avg_congestion :=
      mean_or0 (map (fun g => or0 (congestion g)) all_grades) in
    [mkPattern
       ("SAT_" ++ satellite_name)
       "satellite_interference"
       (Qmax (1 - avg_grade / 10) avg_congestion) (88 # 100)
       (keys degraded_links)
       "Possible satellite interference or underperformance"
       [("affected_links"%string, MInt (len degraded_links));
        ("avg_grade"%string, MFloat avg_grade);
        ("avg_congestion"%string, MFloat avg_congestion);
        ("total_measurements"%string, MInt (len all_grades))]
       (match all_grades with g :: _ => timestamp g | [] => now end)
       (len all_grades) (len degraded_links) (len degraded_links)]
  else [].

(** The test both [_detect_bidirectional_degradation] and
    [_calculate_bidirectional_score] make on one record. *)
Definition both_degraded (g : SiteGrade) : bool :=
  Qge_bool (or0 (ib_degradation g)) IB_DEGRADATION_THRESHOLD
  && Qge_bool (or0 (ob_degradation g)) OB_DEGRADATION_THRESHOLD.

Definition bidirectional_pattern (rt : Runtime) (l : Z) (g : SiteGrade)
  : DegradationPattern :=
  let ib_deg := or0 (ib_degradation g) in
  let ob_deg := or0 (ob_degradation g) in
  mkPattern
    ("BIDIR_" ++ str l ++ "_" ++ isoformat rt (timestamp g))
    "antenna_misalignment"
    (Qmax ib_deg ob_deg) (90 # 100) [l]
    "Antenna misalignment: simultaneous IB & OB degradation"
    [("ib_degradation"%string, MFloat ib_deg);
     ("ob_degradation"%string, MFloat ob_deg);
     ("grade"%string, MFloat (grade g));
     ("timestamp"%string, MStr (isoformat rt (timestamp g)))]
    (timestamp g) 1 1 1.

Fixpoint _detect_bidirectional_degradation (rt : Runtime)
  (grades : list SiteGrade) (l : Z) : list DegradationPattern :=
  match grades with
  | [] => []
  | g :: r =>
      if both_degraded g
      then bidirectional_pattern rt l g
           :: _detect_bidirectional_degradation rt r l
      else _detect_bidirectional_degradation rt r l
  end.

(** ** Scoring *)

Definition all_grade_values (degraded_items : list (Z * list SiteGrade))
  : list Q :=
  List.concat (map (fun gs => map grade gs) (values degraded_items)).

Definition consistency_score (all_grades : list Q) : R :=
  match all_grades with
  | [] => 0.5%R
  | _ =>
      match stdev all_grades with
      | Return grade_stdev =>
          Rmax 0 (Rmin 1 (1 - grade_stdev / 10))
      | Raise _ => 0.5%R
      end
  end.

Definition _calculate_correlation_score
  (degraded_items : list (Z * list SiteGrade)) (hours_lookback : Z) : R :=
  match degraded_items with
  | [] => 0%R
  | _ =>
      let item_count := Qlen degraded_items in
      let item_score := Qmin (item_count / 10) 1 in
      let consistency_score := consistency_score (all_grade_values degraded_items) in
      let correlation_score :=
        (Q2R item_score * 0.4 + consistency_score * 0.6)%R in
      Rmin 1 correlation_score
  end.

Definition _calculate_bidirectional_score (grades : list SiteGrade) : Q :=
  let bidirectional_count := Qlen (filter both_degraded grades) in
  let total_count := Qlen grades in
  match grades with
  | [] => 0
  | _ => bidirectional_count / total_count
  end.

(** ** Recommendations *)

Definition gt (x : R) (y : R) : bool :=
  if Rgt_dec x y then true else false.

Definition _generate_network_recommendations (affected_sites affected_links : Z)
  (correlation_score : R) (patterns : list DegradationPattern) : list string :=
  (if gt correlation_score 0.8 then
     ["🔴 CRITICAL: Strong correlation detected across network. Investigate potential equipment failure at central hub or core network equipment."]%string
   else if gt correlation_score 0.6 then
     ["🟠 HIGH: Moderate correlation detected across multiple sites. Check for common equipment, power infrastructure, or core network issues."]%string
   else [])
  ++ [("• Affected Sites: " ++ str affected_sites
       ++ ", Affected Links: " ++ str affected_links)%string;
      "• Check network equipment logs at affected sites for errors";
      "• Verify power stability and UPS status at affected locations";
      "• Review recent configuration changes affecting multiple sites"]%string
  ++ match patterns with
     | [] => []
     | _ => [("• " ++ str (len patterns)
              ++ " temporal correlation pattern(s) detected")%string]
     end.

Definition _generate_antenna_recommendations (rt : Runtime)
  (affected_links total_links : Z) (correlation_score : R)
  (patterns : list DegradationPattern) : list string :=
  let percentage :=
    if (total_links >? 0)%Z
    then inject_Z affected_links / inject_Z total_links * 100
    else 0 in
  (if gt correlation_score 0.75 then
     ["🔴 CRITICAL: Multiple links from this hub antenna showing instability. Likely antenna alignment or equipment issue at this hub.";
      ("• " ++ format_1f rt percentage ++ "% of links affected ("
       ++ str affected_links ++ "/" ++ str total_links ++ ")")%string;
      "• Schedule immediate antenna alignment check"]%string
   else
     ["🟠 WARNING: Hub antenna showing instability patterns.";
      "• Verify antenna orientation and mechanical stability"]%string)
  ++ ["• Check hub equipment (modem, amplifier, frequency converter) status";
      "• Inspect cable connections and potential water ingress";
      "• Consider frequency retuning if recent weather events occurred"]%string.

Definition _generate_satellite_recommendations (affected_links : Z)
  (correlation_score : R) (patterns : list DegradationPattern) : list string :=
  (if gt correlation_score 0.7 then
     ["🔴 CRITICAL: Multiple satellite links degrading simultaneously. Check for satellite interference, congestion, or degradation."]%string
   else
     ["🟠 WARNING: Satellite link degradation detected."]%string)
  ++ [("• Affected Links: " ++ str affected_links)%string;
      "• Check satellite operator status page for known issues";
      "• Monitor interference on satellite frequency band";
      "• Verify satellite uplink/downlink parameters";
      "• Consider frequency hopping to alternate satellite if available"]%string.

Definition _generate_bidirectional_recommendations
  (patterns : list DegradationPattern) (correlation_score : R) : list string :=
  (if gt correlation_score 0.6 then
     ["🔴 CRITICAL: Bidirectional degradation detected (IB & OB). Strong indicator of antenna misalignment.";
      "• IMMEDIATE ACTION: Schedule antenna re-alignment"]%string
   else
     ["🟠 WARNING: Simultaneous IB & OB degradation patterns detected."]%string)
  ++ ["• Check antenna orientation using spectrum analyzer";
      "• Verify antenna cable connections and impedance matching";
      "• Review weather conditions during degradation period";
      "• Inspect for physical damage to antenna or mast"]%string.

(** ** The four analyses

    [uid] is [uuid.uuid4().hex[:8]]; [now1] is the clock read for the
    cutoff, [now2] the clock read for the result (and for a pattern that
    has no record to take its timestamp from).  Each analysis runs
    inside [try: ... except Exception: return None]; in this embedding
    the one exception raised inside it is the [OverflowError] of a
    cutoff that is not a representable [datetime] (the session holds
    plain rows, so no query fails), and it gives [None]. *)

Definition empty_analysis (analysis_id scope : string) (scope_id : Z)
  (now : datetime) (hours_lookback : Z) (advice : string)
  : CorrelationAnalysis :=
  mkAnalysis analysis_id scope scope_id now hours_lookback [] 0%R [advice].

(** The dict of the links that have qualifying grades, in link order. *)
Definition collect_grades (ids : list Z) (grades_for : Z -> list SiteGrade)
  (keep : list SiteGrade -> bool) : list (Z * list SiteGrade) :=
  fold_left
    (fun d l =>
       match grades_for l with
       | [] => d
       | grades => if keep grades then setitem Z.eqb l grades d else d
       end)
    ids [].

Definition count_affected_sites (links : list Link)
  (link_grades : list (Z * list SiteGrade)) : Z :=
  len (list_set
         (flat_map
            (fun l =>
               match find (fun x => (link_link_id x =? l)%Z) links with
               | Some link => [link_site_id link]
               | None => []
               end)
            (keys link_grades))).

Definition analyze_network_degradation (rt : Runtime) (db : Session)
  (network_id hours_lookback : Z) (min_correlation : Q)
  (uid : string) (now1 now2 : datetime) : option CorrelationAnalysis :=
  let analysis_id := ("NET_" ++ str network_id ++ "_" ++ uid)%string in
  match filter (fun l => (link_network_id l =? network_id)%Z) (links db) with
  | [] => None
  | links =>
      let link_ids := map link_link_id links in
      match cutoff_time_of now1 hours_lookback with
      | Raise _ => None
      | Return cutoff_time =>
          let link_grades :=
            collect_grades link_ids
              (fun l => degraded_grades_of db l cutoff_time) (fun _ => true) in
          match link_grades with
          | [] =>
              Some (empty_analysis analysis_id "network" network_id now2
                      hours_lookback "No degradation detected in this network")
          | _ =>
              let patterns :=
                _detect_temporal_correlation rt link_grades network_id
                  "network_equipment" in
              let affected_sites := count_affected_sites links link_grades in
              let correlation_score :=
                _calculate_correlation_score link_grades hours_lookback in
              let recommendations :=
                _generate_network_recommendations affected_sites
                  (len link_grades) correlation_score patterns in
              Some (mkAnalysis analysis_id "network" network_id now2
                      hours_lookback patterns correlation_score
                      recommendations)
          end
      end
  end.

Definition has_antenna_issue (g : SiteGrade) : bool :=
  Qgt_bool (or0 (ib_instability g)) INSTABILITY_THRESHOLD
  || Qgt_bool (or0 (ob_instability g)) INSTABILITY_THRESHOLD.

Definition is_hub (s : Site) : bool :=
  contains_str "Hub"
    (match site_type s with Some t => t | None => EmptyString end).

Definition analyze_hub_antenna_degradation (rt : Runtime) (db : Session)
  (site_id hours_lookback : Z)
  (uid : string) (now1 now2 : datetime) : option CorrelationAnalysis :=
  let analysis_id := ("HUB_" ++ str site_id ++ "_" ++ uid)%string in
  match find (fun s => (site_site_id s =? site_id)%Z) (sites db) with
  | None => None
  | Some site =>
      if negb (is_hub site) then None
      else
        match filter (fun l => (link_site_id l =? site_id)%Z) (links db) with
        | [] => None
        | links =>
            match cutoff_time_of now1 hours_lookback with
            | Raise _ => None
            | Return cutoff_time =>
                let degraded_links :=
                  collect_grades (map link_link_id links)
                    (fun l => grades_of db l cutoff_time)
                    (existsb has_antenna_issue) in
                match degraded_links with
                | [] =>
                    Some (empty_analysis analysis_id "hub_antenna" site_id
                            now2 hours_lookback
                            "No antenna-level degradation detected")
                | _ =>
                    let patterns :=
                      _detect_antenna_alignment_patterns rt degraded_links
                        site_id now2 in
                    let correlation_score :=
                      _calculate_correlation_score degraded_links
                        hours_lookback in
                    let recommendations :=
                      _generate_antenna_recommendations rt
                        (len degraded_links) (len links) correlation_score
                        patterns in
                    Some (mkAnalysis analysis_id "hub_antenna" site_id now2
                            hours_lookback patterns correlation_score
                            recommendations)
                end
            end
        end
  end.

Definition analyze_satellite_degradation (rt : Runtime) (db : Session)
  (satellite_name : string) (hours_lookback : Z)
  (uid : string) (now1 now2 : datetime) : option CorrelationAnalysis :=
  let analysis_id := ("SAT_" ++ satellite_name ++ "_" ++ uid)%string in
  match filter (link_type_ilike satellite_name) (links db) with
  | [] =>
      Some (empty_analysis analysis_id "satellite" 0 now2 hours_lookback
              "No matching satellite links found")
  | relevant_links =>
      match cutoff_time_of now1 hours_lookback with
      | Raise _ => None
      | Return cutoff_time =>
          let degraded_links :=
            collect_grades (map link_link_id relevant_links)
              (fun l => degraded_grades_of db l cutoff_time) (fun _ => true) in
          match degraded_links with
          | [] =>
              Some (empty_analysis analysis_id "satellite" 0 now2
                      hours_lookback
                      "No degradation detected on this satellite")
          | _ =>
              let patterns :=
                _detect_satellite_patterns rt degraded_links satellite_name
                  now2 in
              let correlation_score :=
                _calculate_correlation_score degraded_links hours_lookback in
              let recommendations :=
                _generate_satellite_recommendations (len degraded_links)
                  correlation_score patterns in
              Some (mkAnalysis analysis_id "satellite" 0 now2 hours_lookback
                      patterns correlation_score recommendations)
          end
      end
  end.

(** [order_by(SiteGrade.timestamp)] *)
Fixpoint insert_by_time (g : SiteGrade) (l : list SiteGrade) : list SiteGrade :=
  match l with
  | [] => [g]
  | h :: r =>
      if (timestamp g <? timestamp h)%Z then g :: l
      else h :: insert_by_time g r
  end.

Definition order_by_timestamp (l : list SiteGrade) : list SiteGrade :=
  fold_left (fun acc g => insert_by_time g acc) l [].

Definition analyze_link_bidirectional_degradation (rt : Runtime) (db : Session)
  (link hours_lookback : Z)
  (uid : string) (now1 now2 : datetime) : option CorrelationAnalysis :=
  let analysis_id := ("LINK_" ++ str link ++ "_" ++ uid)%string in
  match cutoff_time_of now1 hours_lookback with
  | Raise _ => None
  | Return cutoff_time =>
      match order_by_timestamp (grades_of db link cutoff_time) with
      | [] =>
          Some (empty_analysis analysis_id "link" link now2 hours_lookback
                  "Insufficient data for analysis")
      | grades =>
          match _detect_bidirectional_degradation rt grades link with
          | [] =>
              Some (empty_analysis analysis_id "link" link now2 hours_lookback
                      "No bidirectional degradation detected")
          | patterns =>
              let correlation_score :=
                Q2R (_calculate_bidirectional_score grades) in
              let recommendations :=
                _generate_bidirectional_recommendations patterns
                  correlation_score in
              Some (mkAnalysis analysis_id "link" link now2 hours_lookback
                      patterns correlation_score recommendations)
          end
      end
  end.

End correlation_engine.

(* ================================================================== *)
(** * The properties in the vocabulary of the design document *)
(* ================================================================== *)

Module spec.
Import py libs anomaly_detector bcom_models correlation_engine.

(** What a detection operation gives on a batch too small to score,
    given what [_prepare_data] gave. *)
Definition small_batch_outcome (r : Exc (list Anomaly))
  (prepared : Exc (matrix * DataFrame)) : Prop :=
  match prepared with
  | Return _ => r = Return []
  | Raise e => r = Raise e
  end.

(** The sample standard deviation: the root of the sum of squared
    deviations from the mean over [n - 1]. *)
Definition sample_stdev (l : list Q) : R :=
  let n := inject_Z (Z.of_nat (List.length l)) in
  let m := (correlation_engine.Qsum l / n)%Q in
  sqrt (Q2R (correlation_engine.Qsum
               (map (fun x => (x - m) * (x - m))%Q l) / (n - 1))%Q).

Definition clamp01 (x : R) : R := Rmax 0 (Rmin 1 x).

(** consistency = clamp(1 - stdev/10, 0, 1), and 0.5 below two samples. *)
Definition consistency (all_grades : list Q) : R :=
  if (List.length all_grades <? 2)%nat then 0.5%R
  else clamp01 (1 - sample_stdev all_grades / 10).

(** item_score = min(count/10, 1) *)
Definition item_score {A} (items : list A) : R :=
  Q2R (Qmin (inject_Z (Z.of_nat (List.length items)) / 10) 1).

Definition correlation_score_of (degraded_items : list (Z * list SiteGrade))
  : R :=
  (0.4 * item_score degraded_items
   + 0.6 * consistency
             (flat_map (fun item => map grade (snd item)) degraded_items))%R.

(** An analysis with no pattern, score 0.0 and the one recommendation
    [advice]. *)
Definition advisory (r : option CorrelationAnalysis) (advice : string)
  : Prop :=
  exists a, r = Some a /\ patterns_found a = [] /\
            correlation_score a = 0%R /\ recommendations a = [advice].

End spec.

(* ================================================================== *)
(** * Sample inputs *)
(* ================================================================== *)

Module samples.
Import py detector_object model_cache libs anomaly_detector.
Import bcom_models correlation_engine.
Local Open Scope Z_scope.

(** ** Cache *)

Definition a_detector : AnomalyDetector := mkDetector (5 # 100) true.

(** [cache.set(ty, 5, 1, detector)] at time [now]. *)
Definition call (ty : string) (now : datetime) : SetCall :=
  mkSet ty 5 1 a_detector now now now.

Definition three_calls : list SetCall :=
  [call "network" 100; call "site" 200; call "link" 300].

(** One entry, cached at time 0 with the default TTL of 60 minutes. *)
Definition stale_cache : ModelCache :=
  set_all (init 60 2) [call "network" 0].

(** A cache of capacity 2 that holds two entries. *)
Definition busy_cache : ModelCache :=
  set_all (init 60 2) [call "network" 100; call "site" 200].

(** [busy_cache] after [cache.get("network", 5, 1)] at time 250: the
    first entry has one hit, the second none, so the second one is the
    least used. *)
Definition read_cache : ModelCache :=
  fst (get busy_cache "network" 5 1 250 250).

(** ** Detector *)

(** A scikit-learn that is never reached. *)
Definition sk_unreached : Sklearn :=
  mkSklearn (fun _ => Raise (ValueError "unreached"))
            (fun _ _ _ _ => Raise (ValueError "unreached"))
            (fun _ _ _ _ _ => Raise (ValueError "unreached"))
            (fun _ _ => None).

Definition clock0 : nat -> datetime := fun _ => 0.

(** Five records with one numeric column [col]. *)
Definition five_records (col : string) : list Record_ :=
  map (fun q => [(col, PyFloat q)]) [1; 2; 3; 4; 5]%Q.

(** Raw scores as [score_samples] returns them (negative), ten rows. *)
Definition ten_scores : list Q :=
  (-(8 # 10) :: repeat (-(4 # 10)) 9)%Q.

(** The floats [0.1] and [0.15000000000000002]; the second one is
    [0.1 * 1.5] in Python. *)
Definition float_0_1 : Q := (3602879701896397 # 36028797018963968)%Q.
Definition float_0_15_up : Q := (5404319552844596 # 36028797018963968)%Q.

(** A batch whose 90th percentile of absolute scores is the float
    [0.1], whatever the scores. *)
Definition sk_percentile_0_1 : Sklearn :=
  mkSklearn (fun _ => Raise (ValueError "unreached"))
            (fun _ _ _ _ => Raise (ValueError "unreached"))
            (fun _ _ _ _ _ => Raise (ValueError "unreached"))
            (fun _ _ => Some float_0_1).

(** ** Correlation engine *)

Definition hour (h : Z) : datetime := timedelta_hours h.
Definition minutes (m : Z) : datetime := timedelta_minutes m.

(** A grade row with only the grade set. *)
Definition graded (l : Z) (t : datetime) (g : Q) : SiteGrade :=
  mkGrade l t None None None None None g.

(** A grade row with inbound and outbound degradation set. *)
Definition degraded (l : Z) (t : datetime) (ib ob : Q) : SiteGrade :=
  mkGrade l t (Some ib) (Some ob) None None None 5.

(** A grade row with inbound and outbound instability set. *)
Definition unstable (l : Z) (t : datetime) (ib ob : Q) : SiteGrade :=
  mkGrade l t None None (Some ib) (Some ob) None 5.

(** Link 1 graded twice within the hour from 10:00, link 2 once at
    12:00. *)
Definition one_link_twice : list (Z * list SiteGrade) :=
  [(1, [graded 1 (hour 10 + minutes 5) 5; graded 1 (hour 10 + minutes 30) 6]);
   (2, [graded 2 (hour 12) 5])].

Definition one_link_entries : list (Z * SiteGrade) :=
  [(1, graded 1 (hour 10 + minutes 5) 5);
   (1, graded 1 (hour 10 + minutes 30) 6)].

(** Links 1, 2 and 3 graded below 6.5 within the hour from 10:00. *)
Definition three_links : list (Z * list SiteGrade) :=
  [(1, [graded 1 (hour 10 + minutes 5) 6]);
   (2, [graded 2 (hour 10 + minutes 20) 5]);
   (3, [graded 3 (hour 10 + minutes 40) 4])].

(** A database without any row. *)
Definition empty_db : Session := mkSession [] [] [].

(** A site that is not a hub, with a link in network 1. *)
Definition remote_db : Session :=
  mkSession [mkSite 10 (Some "Remote"%string)]
            [mkLink 1 10 1 (Some "VSAT"%string)] [].

(** Network 7 with links 1 and 2 and the grade rows of
    [one_link_twice]. *)
Definition db_one_link_twice : Session :=
  mkSession [mkSite 10 (Some "Hub"%string); mkSite 11 (Some "Remote"%string)]
            [mkLink 1 10 7 (Some "VSAT"%string);
             mkLink 2 11 7 (Some "VSAT"%string)]
            [graded 1 (hour 10 + minutes 5) 5;
             graded 1 (hour 10 + minutes 30) 6;
             graded 2 (hour 12) 5].

(** Link 42 with one grade row whose inbound degradation is 1.5. *)
Definition db_degradation_above_one : Session :=
  mkSession [mkSite 10 (Some "Remote"%string)]
            [mkLink 42 10 7 (Some "VSAT"%string)]
            [degraded 42 (hour 10) (15 # 10) (3 # 10)].

Definition rt_plain : Runtime :=
  mkRuntime (fun t => str t) (fun _ => "0.0"%string).

(** 2024-01-01T12:00:00. *)
Definition noon_2024 : datetime := 1704110400000000.



End samples.

(* ================================================================== *)
(** * Invariants and further sample inputs *)
(* ================================================================== *)

Module invariants.
Import Ascii py detector_object model_cache.
Local Open Scope Z_scope.

(** What holds of every cache reached from [ModelCache(...)]: no more
    entries than the capacity, and no key twice. *)
Definition cache_ok (c : ModelCache) : Prop :=
  size c <= max_cache_size c /\ NoDup (keys (_cache c)).

(** The entries whose clock reading was not past their expiry time,
    in dict order. *)
Fixpoint kept_from (clock : nat -> datetime) (i : nat)
  (d : list (string * CachedItem)) : list (string * CachedItem) :=
  match d with
  | [] => []
  | (key, item) :: r =>
      if clock i >? expires_at item
      then kept_from clock (S i) r
      else (key, item) :: kept_from clock (S i) r
  end.

(** What holds of the hourly buckets while they are filled: an hour
    appears once, no bucket is empty, and every entry sits in the
    bucket of its own hour and comes from [source]. *)
Definition buckets_ok (source : Z -> bcom_models.SiteGrade -> Prop)
  (b : correlation_engine.Buckets) : Prop :=
  NoDup (keys b) /\
  forall h es, In (h, es) b ->
    es <> [] /\
    forall l g, In (l, g) es ->
      replace_to_hour (bcom_models.timestamp g) = h /\ source l g.

(** A string that holds no underscore. *)
Definition underscore_free (s : string) : Prop :=
  forall a b, s <> (a ++ String "_"%char b)%string.

End invariants.

Module runs.
Import py detector_object model_cache libs anomaly_detector.
Import bcom_models correlation_engine samples.

(** A stand-in for scikit-learn that flags the first row only: the
    scaler returns its input, the forest predicts -1 for the first row
    and 1 for the others, with raw scores -0.8 and -0.4. *)
Definition sk_first_row : Sklearn :=
  mkSklearn
    (fun X => Return X)
    (fun _ _ _ X => Return (match X with
                            | [] => []
                            | _ :: r => (-1)%Z :: map (fun _ => 1%Z) r
                            end))
    (fun _ _ _ _ X => Return (match X with
                              | [] => []
                              | _ :: r => -(8 # 10) :: map (fun _ => -(4 # 10)) r
                              end))
    linear_percentile.

(** Ten records with the numeric column [latency]. *)
Definition ten_records : list Record_ :=
  map (fun q => [("latency"%string, PyFloat q)])
      [100; 1; 2; 3; 4; 5; 6; 7; 8; 9]%Q.

(** Three records that hold none of the declared feature columns. *)
Definition foreign_records : list Record_ :=
  map (fun q => [("temperature"%string, PyFloat q)]) [1; 2; 3]%Q.


End runs.

(* ================================================================== *)
(** * Facts about insertion-ordered dictionaries *)
(* ================================================================== *)

Section DictFacts.
Import py.
Context {V : Type}.
Implicit Types (d : list (string * V)) (k : string) (v : V).

Lemma lookup_None_iff k d :
  lookup String.eqb k d = None <-> ~ In k (keys d).
Proof.
  induction d as [|[k' v'] r IH]; simpl.
  - tauto.
  - destruct (String.eqb_spec k k') as [->|Hne].
    + split; [discriminate | intros H; exfalso; apply H; now left].
    + rewrite IH. split; intros H; [intros [E|E]; [congruence|tauto] | tauto].
Qed.

Lemma In_keys_lookup k d :
  In k (keys d) -> exists v, lookup String.eqb k d = Some v.
Proof.
  intros Hin. destruct (lookup String.eqb k d) eqn:E; [eauto|].
  apply lookup_None_iff in E. contradiction.
Qed.

Lemma lookup_Some_In k d v :
  lookup String.eqb k d = Some v -> In k (keys d).
Proof.
  intros E. destruct (in_dec string_dec k (keys d)) as [H|H]; [exact H|].
  apply lookup_None_iff in H. congruence.
Qed.

Lemma keys_setitem k v d k' :
  In k' (keys (setitem String.eqb k v d)) <-> k' = k \/ In k' (keys d).
Proof.
  induction d as [|[k0 v0] r IH]; simpl.
  - intuition congruence.
  - destruct (String.eqb_spec k k0) as [->|Hne]; simpl.
    + intuition congruence.
    + rewrite IH. intuition congruence.
Qed.

Lemma length_setitem_fresh k v d :
  ~ In k (keys d) -> List.length (setitem String.eqb k v d) = S (List.length d).
Proof.
  induction d as [|[k0 v0] r IH]; simpl; intros H; [reflexivity|].
  destruct (String.eqb_spec k k0) as [->|Hne]; [exfalso; apply H; now left|].
  simpl. rewrite IH; [reflexivity | tauto].
Qed.

Lemma length_setitem_present k v d :
  In k (keys d) -> List.length (setitem String.eqb k v d) = List.length d.
Proof.
  induction d as [|[k0 v0] r IH]; simpl; intros H; [contradiction|].
  destruct (String.eqb_spec k k0) as [->|Hne]; [reflexivity|].
  simpl. rewrite IH; [reflexivity|]. destruct H; congruence.
Qed.

Lemma length_delete k d :
  In k (keys d) -> S (List.length (delete String.eqb k d)) = List.length d.
Proof.
  induction d as [|[k0 v0] r IH]; simpl; intros H; [contradiction|].
  destruct (String.eqb_spec k k0) as [->|Hne]; [reflexivity|].
  simpl. rewrite IH; [reflexivity|]. destruct H; congruence.
Qed.

Lemma keys_delete_incl k d k' :
  In k' (keys (delete String.eqb k d)) -> In k' (keys d).
Proof.
  induction d as [|[k0 v0] r IH]; simpl; [tauto|].
  destruct (String.eqb_spec k k0) as [->|Hne]; simpl; tauto.
Qed.

Lemma keys_delete_other k d k' :
  k' <> k -> In k' (keys d) -> In k' (keys (delete String.eqb k d)).
Proof.
  intros Hne. induction d as [|[k0 v0] r IH]; simpl; [tauto|].
  destruct (String.eqb_spec k k0) as [->|Hne']; simpl.
  - intros [E|E]; [congruence | exact E].
  - tauto.
Qed.

Lemma NoDup_delete k d :
  NoDup (keys d) -> NoDup (keys (delete String.eqb k d)).
Proof.
  induction d as [|[k0 v0] r IH]; simpl; intros H; [constructor|].
  inversion H as [|? ? Hnin Hnd]; subst.
  destruct (String.eqb_spec k k0) as [->|Hne]; [exact Hnd|].
  simpl. constructor; [|now apply IH].
  intros Hin. apply Hnin. eapply keys_delete_incl; eassumption.
Qed.

Lemma deleted_key_absent k d :
  NoDup (keys d) -> ~ In k (keys (delete String.eqb k d)).
Proof.
  induction d as [|[k0 v0] r IH]; simpl; intros H; [tauto|].
  inversion H as [|? ? Hnin Hnd]; subst.
  destruct (String.eqb_spec k k0) as [->|Hne]; [exact Hnin|].
  simpl. intros [E|E]; [congruence | now apply IH in E].
Qed.

Lemma NoDup_setitem k v d :
  NoDup (keys d) -> NoDup (keys (setitem String.eqb k v d)).
Proof.
  induction d as [|[k0 v0] r IH]; simpl; intros H.
  - constructor; [simpl; tauto | constructor].
  - inversion H as [|? ? Hnin Hnd]; subst.
    destruct (String.eqb_spec k k0) as [->|Hne]; simpl.
    + constructor; assumption.
    + constructor; [|now apply IH].
      rewrite keys_setitem. intros [E|E]; [congruence | contradiction].
Qed.
End DictFacts.

(* ================================================================== *)
(** * ModelCache *)
(* ================================================================== *)

Section CacheFacts.
Import py detector_object model_cache.
Local Open Scope Z_scope.

Lemma tuple_ltb_false a b : tuple_ltb a b = false -> tuple_le b a.
Proof.
  unfold tuple_ltb, tuple_le. destruct a as [h t], b as [h' t']; simpl.
  intros H. apply orb_false_iff in H as [H1 H2].
  apply Z.ltb_ge in H1. apply andb_false_iff in H2 as [H2|H2].
  - apply Z.eqb_neq in H2. lia.
  - apply Z.ltb_ge in H2. lia.
Qed.

Lemma tuple_ltb_true a b : tuple_ltb a b = true -> tuple_le a b.
Proof.
  unfold tuple_ltb, tuple_le. destruct a as [h t], b as [h' t']; simpl.
  intros H. apply orb_true_iff in H as [H|H].
  - apply Z.ltb_lt in H. lia.
  - apply andb_true_iff in H as [H1 H2].
    apply Z.eqb_eq in H1. apply Z.ltb_lt in H2. lia.
Qed.

Lemma tuple_le_trans a b c : tuple_le a b -> tuple_le b c -> tuple_le a c.
Proof. unfold tuple_le. lia. Qed.

Lemma tuple_le_refl a : tuple_le a a.
Proof. unfold tuple_le. lia. Qed.

(** Python's [min] with a key returns an element of the iterable
    whose key no other element's key is below. *)
Lemma min_from_least {A} (key : A -> Z * Z) (xs : list A) : forall best,
  let m := min_from (fun a b => tuple_ltb (key a) (key b)) best xs in
  In m (best :: xs) /\
  forall x, In x (best :: xs) -> tuple_le (key m) (key x).
Proof.
  induction xs as [|x r IH]; intros best; simpl.
  - split; [now left|]. intros y [<-|[]]. apply tuple_le_refl.
  - destruct (tuple_ltb (key x) (key best)) eqn:E.
    + destruct (IH x) as [Hin Hle]. split.
      * simpl in Hin. tauto.
      * intros y [<-|Hy]; [|now apply Hle].
        eapply tuple_le_trans; [apply Hle; now left|].
        now apply tuple_ltb_true.
    + destruct (IH best) as [Hin Hle]. split.
      * simpl in Hin. simpl. tauto.
      * intros y [<-|[<-|Hy]].
        -- apply Hle. now left.
        -- eapply tuple_le_trans; [apply Hle; now left|].
           now apply tuple_ltb_false.
        -- apply Hle. now right.
Qed.

Lemma least_used_key_spec d victim :
  least_used_key d = Some victim ->
  In victim (keys d) /\
  forall k, In k (keys d) -> tuple_le (use_key d victim) (use_key d k).
Proof.
  unfold least_used_key. destruct (keys d) as [|k0 ks] eqn:E; [discriminate|].
  intros [= <-]. apply (min_from_least (use_key d) ks k0).
Qed.

Lemma least_used_key_exists d :
  d <> [] -> exists victim, least_used_key d = Some victim.
Proof.
  unfold least_used_key, keys. destruct d as [|[k v] r]; [congruence|].
  simpl. eauto.
Qed.

(** What [set] does to the dictionary when the cache is full. *)
Lemma set_when_full c s victim :
  size c >= max_cache_size c ->
  least_used_key (_cache c) = Some victim ->
  _cache (do_set c s) =
    setitem String.eqb (s_key s)
      (mkItem (s_model s) (s_now1 s)
              (s_now2 s + timedelta_minutes (ttl_minutes c)) 0 (s_now3 s))
      (delete String.eqb victim (_cache c)).
Proof.
  intros Hfull Hv. unfold do_set, set, size in *.
  unfold _evict_least_used. rewrite Hv.
  destruct (Z.of_nat (List.length (_cache c)) >=? max_cache_size c) eqn:E.
  - reflexivity.
  - rewrite Z.geb_leb in E. apply Z.leb_gt in E. lia.
Qed.

Lemma set_when_room c s :
  size c < max_cache_size c ->
  _cache (do_set c s) =
    setitem String.eqb (s_key s)
      (mkItem (s_model s) (s_now1 s)
              (s_now2 s + timedelta_minutes (ttl_minutes c)) 0 (s_now3 s))
      (_cache c).
Proof.
  intros Hroom. unfold do_set, set, size in *.
  destruct (Z.of_nat (List.length (_cache c)) >=? max_cache_size c) eqn:E.
  - rewrite Z.geb_leb in E. apply Z.leb_le in E. lia.
  - reflexivity.
Qed.

Lemma max_cache_size_do_set c s :
  max_cache_size (do_set c s) = max_cache_size c.
Proof.
  unfold do_set, set, _evict_least_used.
  destruct (_ >=? _); [destruct (least_used_key _)|]; reflexivity.
Qed.
End CacheFacts.

Section CacheCapacity.
Import py detector_object model_cache.
Local Open Scope Z_scope.

Lemma NoDup_do_set c s :
  NoDup (keys (_cache c)) -> NoDup (keys (_cache (do_set c s))).
Proof.
  intros Hnd. unfold do_set, set, _evict_least_used.
  destruct (_ >=? _); [destruct (least_used_key _)|]; simpl;
    apply NoDup_setitem; try apply NoDup_delete; exact Hnd.
Qed.

Lemma keys_do_set c s k :
  In k (keys (_cache (do_set c s))) -> k = s_key s \/ In k (keys (_cache c)).
Proof.
  unfold do_set, set, _evict_least_used.
  destruct (_ >=? _); [destruct (least_used_key _)|]; simpl;
    rewrite keys_setitem; intros [H|H]; auto.
  right. eapply keys_delete_incl; eassumption.
Qed.

(** One [set] with a key the cache does not hold. *)
Lemma size_do_set_fresh c s :
  1 <= max_cache_size c ->
  size c <= max_cache_size c ->
  ~ In (s_key s) (keys (_cache c)) ->
  size (do_set c s) = Z.min (size c + 1) (max_cache_size c).
Proof.
  intros Hpos Hle Hfresh.
  destruct (Z_lt_ge_dec (size c) (max_cache_size c)) as [Hroom|Hfull].
  - unfold size at 1. rewrite (set_when_room c s Hroom).
    rewrite length_setitem_fresh by exact Hfresh. unfold size in *. lia.
  - assert (Hne : _cache c <> []).
    { intros E. unfold size in Hfull. rewrite E in Hfull. simpl in Hfull. lia. }
    destruct (least_used_key_exists _ Hne) as [victim Hv].
    destruct (least_used_key_spec _ _ Hv) as [Hin _].
    unfold size at 1. rewrite (set_when_full c s victim Hfull Hv).
    rewrite length_setitem_fresh.
    + rewrite (length_delete victim (_cache c) Hin). unfold size in *. lia.
    + intros H. apply Hfresh. eapply keys_delete_incl; eassumption.
Qed.

(** Distinct fresh keys fill the cache up to its capacity and no
    further. *)
Lemma size_set_all_fresh calls : forall c,
  1 <= max_cache_size c ->
  size c <= max_cache_size c ->
  NoDup (map s_key calls) ->
  (forall s, In s calls -> ~ In (s_key s) (keys (_cache c))) ->
  size (set_all c calls) =
    Z.min (size c + Z.of_nat (List.length calls)) (max_cache_size c)
  /\ max_cache_size (set_all c calls) = max_cache_size c.
Proof.
  induction calls as [|s r IH]; intros c Hpos Hle Hnd Hfresh; simpl.
  - split; [lia | reflexivity].
  - inversion Hnd as [|? ? Hnin Hnd']; subst.
    assert (Hs : size (do_set c s) = Z.min (size c + 1) (max_cache_size c)).
    { apply size_do_set_fresh; auto. apply Hfresh. now left. }
    destruct (IH (do_set c s)) as [IH1 IH2].
    + rewrite max_cache_size_do_set. exact Hpos.
    + rewrite max_cache_size_do_set. lia.
    + exact Hnd'.
    + intros s' Hs' Hin. apply keys_do_set in Hin as [E|Hin].
      * apply Hnin. rewrite <- E. now apply in_map.
      * apply (Hfresh s'); [now right | exact Hin].
    + unfold set_all in *. rewrite IH1, IH2, Hs.
      rewrite max_cache_size_do_set. split; [lia | reflexivity].
Qed.

Lemma NoDup_set_all calls : forall c,
  NoDup (keys (_cache c)) -> NoDup (keys (_cache (set_all c calls))).
Proof.
  induction calls as [|s r IH]; intros c H; simpl; [exact H|].
  apply IH. now apply NoDup_do_set.
Qed.

Lemma size_fill ttl C calls :
  1 <= C -> NoDup (map s_key calls) ->
  size (set_all (init ttl C) calls) = Z.min (Z.of_nat (List.length calls)) C
  /\ max_cache_size (set_all (init ttl C) calls) = C.
Proof.
  intros Hpos Hnd.
  assert (H0 : size (init ttl C) = 0) by reflexivity.
  destruct (size_set_all_fresh calls (init ttl C)) as [H1 H2].
  - exact Hpos.
  - rewrite H0. simpl. lia.
  - exact Hnd.
  - intros s _ [].
  - split; [|exact H2]. rewrite H1, H0. reflexivity.
Qed.

(** An expired entry: [get] misses and drops it. *)
Lemma get_expired c ty fc ds now1 now2 item :
  NoDup (keys (_cache c)) ->
  lookup String.eqb (_generate_cache_key ty fc ds) (_cache c) = Some item ->
  now1 > expires_at item ->
  snd (get c ty fc ds now1 now2) = None /\
  lookup String.eqb (_generate_cache_key ty fc ds)
         (_cache (fst (get c ty fc ds now1 now2))) = None /\
  size (fst (get c ty fc ds now1 now2)) = size c - 1.
Proof.
  intros Hnd Hl Hexp. unfold get. rewrite Hl.
  assert (E : (now1 >? expires_at item) = true).
  { rewrite Z.gtb_ltb. apply Z.ltb_lt. lia. }
  rewrite E. simpl. split; [reflexivity|]. split.
  - apply lookup_None_iff. now apply deleted_key_absent.
  - unfold size. simpl.
    rewrite <- (length_delete (_generate_cache_key ty fc ds) (_cache c)).
    + lia.
    + eapply lookup_Some_In; eassumption.
Qed.
End CacheCapacity.

Section CacheClaims.
Import py detector_object model_cache samples.
Local Open Scope Z_scope.

Lemma keys_set_all calls : forall c k,
  In k (keys (_cache (set_all c calls))) ->
  In k (keys (_cache c)) \/ In k (map s_key calls).
Proof.
  induction calls as [|s r IH]; intros c k H; simpl in *; [now left|].
  apply IH in H as [H|H]; [|tauto].
  apply keys_do_set in H as [->|H]; tauto.
Qed.

Lemma do_set_capacity_zero c s :
  max_cache_size c <= 0 -> size c <= 1 ->
  size (do_set c s) = 1 /\ max_cache_size (do_set c s) = max_cache_size c.
Proof.
  intros Hmax Hsz. split; [|apply max_cache_size_do_set].
  destruct c as [ttl cap d].
  unfold do_set, set, _evict_least_used, least_used_key, size in *.
  cbn [_cache max_cache_size ttl_minutes] in *.
  assert (E : (Z.of_nat (List.length d) >=? cap) = true).
  { rewrite Z.geb_leb. apply Z.leb_le. lia. }
  rewrite E. destruct d as [|[k v] [|e r]]; simpl in *;
    [reflexivity | | lia].
  now rewrite String.eqb_refl.
Qed.

(** C3 at capacity 0.  The constructor accepts [max_cache_size = 0];
    [set] then evicts from a cache that may be empty and inserts all
    the same, so after any calls of [set], one or more (with a TTL
    whose expiry times are datetimes), the cache holds exactly one
    entry: one more than its [max_cache_size], and not the [C = 0]
    entries C3 states for [C + 1 = 1] distinct keys. *)
Theorem cache_capacity_zero_keeps_entry :
  (forall ttl calls,
     calls <> [] ->
     (forall s, In s calls -> expiry_fits ttl (s_now2 s)) ->
     size (set_all (init ttl 0) calls) = 1 /\
     max_cache_size (set_all (init ttl 0) calls) = 0 /\
     size (set_all (init ttl 0) calls)
       > max_cache_size (set_all (init ttl 0) calls))
  /\
  (let calls := [call "network" 100] in
   NoDup (map s_key calls) /\
   Z.of_nat (List.length calls) = 0 + 1 /\
   size (set_all (init 60 0) calls) = 1 /\
   size (set_all (init 60 0) calls) <> max_cache_size (init 60 0)).
Proof.
  split.
  - intros ttl calls Hne _.
    assert (H : forall calls c,
               max_cache_size c <= 0 -> size c <= 1 -> calls <> [] ->
               size (set_all c calls) = 1 /\
               max_cache_size (set_all c calls) = max_cache_size c).
    { clear. induction calls as [|s r IH]; intros c Hmax Hsz Hne;
        [congruence|].
      destruct (do_set_capacity_zero c s Hmax Hsz) as [H1 H2].
      destruct r as [|s' r']; [exact (conj H1 H2)|].
      change (set_all c (s :: s' :: r'))
        with (set_all (do_set c s) (s' :: r')).
      destruct (IH (do_set c s)) as [I1 I2]; [lia | lia | discriminate|].
      split; [exact I1 | now rewrite I2]. }
    destruct (H calls (init ttl 0)) as [H1 H2];
      [simpl; lia | unfold size; simpl; lia | exact Hne|].
    rewrite H1, H2. simpl. repeat split; lia.
  - simpl. split; [repeat constructor; simpl; tauto|].
    split; [reflexivity|]. split; [reflexivity|]. vm_compute. discriminate.
Qed.

Lemma cache_capacity_zero_keeps_entry_witness :
  size (set_all (init 60 0) [call "network" 100; call "site" 200]) = 1.
Proof.
  apply (proj1 cache_capacity_zero_keeps_entry 60
           [call "network" 100; call "site" 200]).
  - discriminate.
  - intros s [<-|[<-|[]]]; vm_compute; intuition discriminate.
Defined.
End CacheClaims.

(* ================================================================== *)
(** * AnomalyDetector *)
(* ================================================================== *)

Section DetectorFacts.
Import py libs anomaly_detector.

Lemma Qgt_bool_true a b : Qgt_bool a b = true <-> (b < a)%Q.
Proof.
  unfold Qgt_bool. rewrite negb_true_iff.
  destruct (Qle_bool a b) eqn:E.
  - apply Qle_bool_iff in E. split; [discriminate | intros H; exfalso; Lqa.lra].
  - split; [intros _ | reflexivity].
    apply Qnot_le_lt. intros H. apply Qle_bool_iff in H. congruence.
Qed.

Lemma Qgt_bool_false a b : Qgt_bool a b = false <-> (a <= b)%Q.
Proof.
  unfold Qgt_bool. rewrite negb_false_iff. apply Qle_bool_iff.
Qed.

Lemma length_select_to_numpy df cols :
  List.length (select_to_numpy df cols) = height df.
Proof. unfold select_to_numpy. now rewrite length_map, length_seq. Qed.

(** The guard every detection method has right after [_prepare_data]. *)
Lemma detect_small sk cols recommend data sensitivity clock X df :
  _prepare_data data cols = Return (X, df) ->
  (List.length X < 10)%nat ->
  detect sk cols recommend data sensitivity clock = Return [].
Proof.
  intros Hp Hlen. unfold detect. rewrite Hp. simpl.
  apply Nat.ltb_lt in Hlen. now rewrite Hlen.
Qed.

Lemma detect_unprepared sk cols recommend data sensitivity clock e :
  _prepare_data data cols = Raise e ->
  detect sk cols recommend data sensitivity clock = Raise e.
Proof. intros Hp. unfold detect. now rewrite Hp. Qed.

(** [_calculate_severity] only looks at [abs(score)], and a larger one
    never gets a lower label. *)
Lemma severity_monotone_in_abs sk all_scores s1 s2 :
  (Qabs s1 < Qabs s2)%Q ->
  (severity_rank (_calculate_severity sk s1 all_scores)
   <= severity_rank (_calculate_severity sk s2 all_scores))%nat.
Proof.
  intros Hlt. unfold _calculate_severity.
  destruct (np_percentile sk (map Qabs all_scores) 90) as [p|]; [|simpl; lia].
  generalize (fmul p (3 # 2)) (fmul p (1 # 2)). intros t1 t3.
  destruct (Qgt_bool (Qabs s2) t1) eqn:C2;
    [destruct (Qgt_bool (Qabs s1) t1);
     [|destruct (Qgt_bool (Qabs s1) p);
       [|destruct (Qgt_bool (Qabs s1) t3)]]; simpl; lia|].
  apply Qgt_bool_false in C2.
  destruct (Qgt_bool (Qabs s1) t1) eqn:C1;
    [apply Qgt_bool_true in C1; Lqa.lra|].
  destruct (Qgt_bool (Qabs s2) p) eqn:H2;
    [destruct (Qgt_bool (Qabs s1) p);
     [|destruct (Qgt_bool (Qabs s1) t3)]; simpl; lia|].
  apply Qgt_bool_false in H2.
  destruct (Qgt_bool (Qabs s1) p) eqn:H1;
    [apply Qgt_bool_true in H1; Lqa.lra|].
  destruct (Qgt_bool (Qabs s2) t3) eqn:M2;
    [destruct (Qgt_bool (Qabs s1) t3); simpl; lia|].
  apply Qgt_bool_false in M2.
  destruct (Qgt_bool (Qabs s1) t3) eqn:M1;
    [apply Qgt_bool_true in M1; Lqa.lra|].
  simpl. lia.
Qed.

(** The labels are cut at the float products 1.5 * p and 0.5 * p and
    at p itself. *)
Lemma severity_thresholds sk all_scores s p :
  np_percentile sk (map Qabs all_scores) 90 = Some p ->
  (_calculate_severity sk s all_scores = critical
     <-> (fmul p (3 # 2) < Qabs s)%Q) /\
  (_calculate_severity sk s all_scores = high
     <-> (Qabs s <= fmul p (3 # 2) /\ p < Qabs s)%Q) /\
  (_calculate_severity sk s all_scores = medium
     <-> (Qabs s <= fmul p (3 # 2) /\ Qabs s <= p
          /\ fmul p (1 # 2) < Qabs s)%Q) /\
  (_calculate_severity sk s all_scores = low
     <-> (Qabs s <= fmul p (3 # 2) /\ Qabs s <= p
          /\ Qabs s <= fmul p (1 # 2))%Q).
Proof.
  intros Hp. unfold _calculate_severity. rewrite Hp.
  generalize (fmul p (3 # 2)) (fmul p (1 # 2)). intros t1 t3.
  destruct (Qgt_bool (Qabs s) t1) eqn:C;
    [apply Qgt_bool_true in C | apply Qgt_bool_false in C].
  { repeat split; intros; try discriminate; try reflexivity;
      try tauto; try (exfalso; Lqa.lra). }
  destruct (Qgt_bool (Qabs s) p) eqn:H;
    [apply Qgt_bool_true in H | apply Qgt_bool_false in H].
  { repeat split; intros; try discriminate; try reflexivity;
      try tauto; try (exfalso; Lqa.lra). }
  destruct (Qgt_bool (Qabs s) t3) eqn:M;
    [apply Qgt_bool_true in M | apply Qgt_bool_false in M];
    repeat split; intros; try discriminate; try reflexivity;
      try tauto; try (exfalso; Lqa.lra).
Qed.
End DetectorFacts.

Section DetectorClaims.
Import py libs anomaly_detector spec samples.

Lemma numeric_columns_no_columns df cols :
  columns df = [] -> numeric_columns df cols = [].
Proof.
  intros E. induction cols as [|c r IH]; simpl; [reflexivity|].
  unfold get_column. rewrite E. simpl. exact IH.
Qed.

(** The matrix has one row per input record. *)
Lemma prepare_data_rows data cols X df :
  _prepare_data data cols = Return (X, df) ->
  List.length X = List.length data.
Proof.
  unfold _prepare_data, pl_DataFrame.
  destruct (column_names data) as [|n names] eqn:En; cbn [build_columns bind].
  - rewrite numeric_columns_no_columns by reflexivity. discriminate.
  - destruct (infer_dtype Null _); [|discriminate].
    destruct (forallb _ _); [|discriminate].
    destruct (build_columns names data) as [cs|e]; cbn [bind]; [|discriminate].
    match goal with
    | |- context [numeric_columns ?d cols] =>
        destruct (numeric_columns d cols) eqn:Ec
    end; [discriminate|].
    intros [= <- <-]. now rewrite length_select_to_numpy.
Qed.

(** C1, as stated, on five records with a numeric column: each of the
    three operations returns the empty list; none of them fails. *)
Lemma small_batch_is_not_an_error :
  (List.length (five_records "latency") < 10)%nat /\
  detect_network_anomalies sk_unreached (five_records "latency")
    (95 # 100) clock0 = Return [] /\
  detect_site_anomalies sk_unreached (five_records "cpu_usage")
    (95 # 100) clock0 = Return [] /\
  detect_link_anomalies sk_unreached (five_records "errors")
    (95 # 100) clock0 = Return [] /\
  ~ raises (detect_network_anomalies sk_unreached (five_records "latency")
              (95 # 100) clock0).
Proof.
  split; [simpl; lia|]. repeat split; try reflexivity.
  intros H. exact H.
Qed.

(** C1 (amended).  On a batch of fewer than 10 records every
    detection operation stops right after [_prepare_data]: when that
    succeeded (some declared column is numeric) the result is the
    empty list, nothing partial and no failure; when it raised, the
    operation raises the same error. *)
Theorem small_batch_yields_empty_list :
  forall sk data sensitivity clock,
    (List.length data < 10)%nat ->
    small_batch_outcome
      (detect_network_anomalies sk data sensitivity clock)
      (_prepare_data data network_columns) /\
    small_batch_outcome
      (detect_site_anomalies sk data sensitivity clock)
      (_prepare_data data site_columns) /\
    small_batch_outcome
      (detect_link_anomalies sk data sensitivity clock)
      (_prepare_data data link_columns).
Proof.
  intros sk data sensitivity clock Hlen.
  assert (H : forall cols recommend,
             small_batch_outcome
               (detect sk cols recommend data sensitivity clock)
               (_prepare_data data cols)).
  { intros cols recommend. unfold small_batch_outcome.
    destruct (_prepare_data data cols) as [[X df]|e] eqn:E.
    - eapply detect_small; [exact E|].
      rewrite (prepare_data_rows _ _ _ _ E). exact Hlen.
    - now apply detect_unprepared. }
  repeat split; apply H.
Qed.

Lemma small_batch_yields_empty_list_witness :
  detect_network_anomalies sk_unreached (five_records "latency")
    (95 # 100) clock0 = Return [].
Proof.
  apply (small_batch_yields_empty_list sk_unreached
           (five_records "latency") (95 # 100) clock0).
  simpl. lia.
Defined.

End DetectorClaims.

(* ================================================================== *)
(** * CorrelationEngine: pattern detectors *)
(* ================================================================== *)

Section PatternFacts.
Import py bcom_models correlation_engine.

Lemma Qge_bool_true a b : Qge_bool a b = true <-> (b <= a)%Q.
Proof. unfold Qge_bool. apply Qle_bool_iff. Qed.

Lemma both_degraded_iff g :
  both_degraded g = true <->
  (IB_DEGRADATION_THRESHOLD <= or0 (ib_degradation g) /\
   OB_DEGRADATION_THRESHOLD <= or0 (ob_degradation g))%Q.
Proof.
  unfold both_degraded. rewrite andb_true_iff, !Qge_bool_true. tauto.
Qed.

(** The loop of [_detect_bidirectional_degradation] keeps, in order,
    one pattern per record that passes the test. *)
Lemma bidirectional_patterns rt grades l :
  _detect_bidirectional_degradation rt grades l =
  map (bidirectional_pattern rt l) (filter both_degraded grades).
Proof.
  induction grades as [|g r IH]; simpl; [reflexivity|].
  destruct (both_degraded g); simpl; now rewrite IH.
Qed.
End PatternFacts.

Section PatternClaims.
Import py bcom_models correlation_engine samples.

(** C4.  [_detect_bidirectional_degradation] emits, in record order,
    one [antenna_misalignment] pattern for each grade record whose
    inbound and outbound degradation are both at least 0.2, and none
    for any other record; the pattern's severity is the larger of the
    two degradations and its confidence is 0.90.  A single record
    with inbound 0.25 and outbound 0.3 on link 42 gives exactly one
    pattern, of severity 0.3 and confidence 0.90. *)
Theorem bidirectional_pattern_per_degraded_record :
  forall rt grades l,
    _detect_bidirectional_degradation rt grades l =
      map (bidirectional_pattern rt l) (filter both_degraded grades) /\
    (forall g, In g (filter both_degraded grades) <->
               In g grades /\
               (2 # 10 <= or0 (ib_degradation g) /\
                2 # 10 <= or0 (ob_degradation g))%Q) /\
    (forall g,
       pattern_type (bidirectional_pattern rt l g) = "antenna_misalignment"%string /\
       severity (bidirectional_pattern rt l g) =
         Qmax (or0 (ib_degradation g)) (or0 (ob_degradation g)) /\
       confidence (bidirectional_pattern rt l g) = (90 # 100)%Q /\
       affected_items (bidirectional_pattern rt l g) = [l]) /\
    (exists p,
       _detect_bidirectional_degradation rt
         [degraded 42 (hour 10) (25 # 100) (3 # 10)] 42 = [p] /\
       pattern_type p = "antenna_misalignment"%string /\
       (severity p == 3 # 10)%Q /\ (confidence p == 9 # 10)%Q).
Proof.
  intros rt grades l. split; [apply bidirectional_patterns|].
  split; [|split].
  - intros g. rewrite filter_In, both_degraded_iff. reflexivity.
  - intros g. repeat split.
  - eexists. split; [reflexivity|]. repeat split.
Qed.

(** C7 at a record the table admits (its degradation columns are
    unconstrained floats): inbound degradation 1.5 with outbound 0.3
    gives a pattern of severity 1.5, and mean instabilities 1.2 and
    0.4 give an [antenna_alignment] pattern of severity 1.2.  The link
    analysis over a database that holds the first record returns that
    pattern. *)
Theorem severity_above_one :
  forall rt,
    (exists p,
       _detect_bidirectional_degradation rt
         [degraded 42 (hour 10) (15 # 10) (3 # 10)] 42 = [p] /\
       (severity p == 15 # 10)%Q /\ (1 < severity p)%Q) /\
    (exists p,
       _detect_antenna_alignment_patterns rt
         [(42%Z, [unstable 42 (hour 10) (12 # 10) (4 # 10)])] 7 0%Z = [p] /\
       (severity p == 12 # 10)%Q /\ (1 < severity p)%Q) /\
    (forall uid, exists a p,
       analyze_link_bidirectional_degradation rt db_degradation_above_one
         42 24 uid (hour 20) (hour 20) = Some a /\
       patterns_found a = [p] /\ (1 < severity p)%Q).
Proof.
  intros rt. split; [|split].
  - eexists. split; [reflexivity|]. split; reflexivity.
  - eexists. split; [reflexivity|]. split; reflexivity.
  - intros uid. eexists. eexists. split; [reflexivity|].
    split; reflexivity.
Qed.

(** C2 on a bucket that holds two records of the same link: link 1
    is graded twice between 10:00 and 11:00 and no other link in that
    hour, yet the bucket yields a [network_equipment_failure] pattern
    with the single affected link 1 and confidence 0.2, and the network
    analysis over a database with these rows returns it.  With three
    links degraded in one hour the pattern lists the three links with
    confidence 0.6, and every pattern of a bucket has severity
    [1 - mean(grades)/10] and confidence
    [min(0.95, affected_link_count/5)]. *)
Theorem pattern_from_one_link_bucket :
  forall rt,
    (exists p,
       _detect_temporal_correlation rt one_link_twice 7 "network_equipment"
         = [p] /\
       pattern_type p = "network_equipment_failure"%string /\
       p_timestamp p = hour 10 /\
       affected_items p = [1%Z] /\
       (confidence p == 2 # 10)%Q) /\
    (exists p,
       _detect_temporal_correlation rt three_links 7 "network_equipment"
         = [p] /\
       pattern_type p = "network_equipment_failure"%string /\
       affected_items p = [1%Z; 2%Z; 3%Z] /\
       (severity p == 5 # 10)%Q /\
       (confidence p == 6 # 10)%Q) /\
    (forall uid, exists a p,
       analyze_network_degradation rt db_one_link_twice 7 24 (7 # 10)
         uid (hour 20) (hour 20) = Some a /\
       patterns_found a = [p] /\
       affected_items p = [1%Z]) /\
    (forall network_id h entries p m,
       temporal_pattern rt network_id h entries = Return p ->
       mean (map (fun e => grade (snd e)) entries) = Return m ->
       (severity p == 1 - m / 10)%Q /\
       (confidence p ==
          Qmin (95 # 100)
               (inject_Z (len (list_set (map fst entries))) / 5))%Q).
Proof.
  intros rt. split; [|split; [|split]].
  - eexists. split; [reflexivity|]. repeat split.
  - eexists. split; [reflexivity|]. repeat split.
  - intros uid. eexists. eexists. split; [reflexivity|]. split; reflexivity.
  - intros network_id h entries p m Hp Hm.
    unfold temporal_pattern in Hp. rewrite Hm in Hp. simpl in Hp.
    injection Hp as <-. simpl. split; [reflexivity|].
    unfold Qlen.
    set (n := inject_Z (len (list_set (map fst entries)))).
    assert (E : (n / 10 * 2 == n / 5)%Q) by (field).
    now rewrite E.
Qed.

Lemma pattern_from_one_link_bucket_witness :
  exists p,
    temporal_pattern rt_plain 7 (hour 10) one_link_entries = Return p /\
    (severity p == 45 # 100)%Q /\ (confidence p == 2 # 10)%Q.
Proof.
  eexists. split; [reflexivity|].
  destruct (proj2 (proj2 (proj2 (pattern_from_one_link_bucket rt_plain)))
              7%Z (hour 10) one_link_entries _ _ eq_refl eq_refl)
    as [Hs Hc].
  split; [rewrite Hs | rewrite Hc]; reflexivity.
Defined.
End PatternClaims.

(* ================================================================== *)
(** * CorrelationEngine: scoring *)
(* ================================================================== *)

Section ScoreFacts.
Import py bcom_models correlation_engine spec.

Lemma all_grade_values_flat_map items :
  all_grade_values items = flat_map (fun item => map grade (snd item)) items.
Proof.
  unfold all_grade_values, values. rewrite flat_map_concat_map, map_map.
  reflexivity.
Qed.

Lemma consistency_score_spec l : consistency_score l = consistency l.
Proof.
  unfold consistency_score, consistency, stdev.
  destruct l as [|x [|y r]]; try reflexivity.
Qed.

Lemma consistency_bounds l : (0 <= consistency l <= 1)%R.
Proof.
  unfold consistency, clamp01.
  destruct (List.length l <? 2)%nat; [Lra.lra|].
  split; [apply Rmax_l|].
  apply Rmax_lub; [Lra.lra | apply Rmin_l].
Qed.

Lemma item_score_bounds {A} (items : list A) : (0 <= item_score items <= 1)%R.
Proof.
  unfold item_score.
  set (n := inject_Z (Z.of_nat (List.length items))).
  assert (Hn : (0 <= n)%Q).
  { unfold n. rewrite <- (Zle_Qle 0). lia. }
  assert (H0 : (0 <= Qmin (n / 10) 1)%Q).
  { apply Q.min_glb; [|discriminate].
    apply Qle_shift_div_l; [reflexivity|]. now rewrite Qmult_0_l. }
  assert (H1 : (Qmin (n / 10) 1 <= 1)%Q) by apply Q.le_min_r.
  apply Qle_Rle in H0, H1.
  rewrite RMicromega.Q2R_0 in H0. rewrite RMicromega.Q2R_1 in H1.
  split; assumption.
Qed.
End ScoreFacts.

Section ScoreClaims.
Import py bcom_models correlation_engine spec samples.

(** C5.  For a non-empty dict of degraded items
    [_calculate_correlation_score] is
    [0.4 * min(item_count/10, 1) + 0.6 * consistency], where
    consistency is [1 - stdev/10] of all the grades clamped to [0, 1],
    and 0.5 when there are fewer than two grades; the score lies in
    [0, 1]. *)
Theorem correlation_score_formula_and_bounds :
  forall degraded_items hours_lookback,
    degraded_items <> [] ->
    _calculate_correlation_score degraded_items hours_lookback
      = correlation_score_of degraded_items /\
    (0 <= _calculate_correlation_score degraded_items hours_lookback <= 1)%R.
Proof.
  intros items hours Hne.
  assert (E : _calculate_correlation_score items hours
              = correlation_score_of items).
  { unfold _calculate_correlation_score, correlation_score_of.
    destruct items as [|i r]; [congruence|].
    rewrite consistency_score_spec, all_grade_values_flat_map.
    change (Q2R (Qmin (Qlen (i :: r) / 10) 1)) with (item_score (i :: r)).
    pose proof (item_score_bounds (i :: r)) as Hi.
    pose proof (consistency_bounds
                  (flat_map (fun item => map grade (snd item)) (i :: r)))
      as Hc.
    rewrite Rmin_right; Lra.lra. }
  split; [exact E|]. rewrite E. unfold correlation_score_of.
  pose proof (item_score_bounds items) as Hi.
  pose proof (consistency_bounds
                (flat_map (fun item => map grade (snd item)) items)) as Hc.
  Lra.lra.
Qed.

Lemma correlation_score_formula_and_bounds_witness :
  (0 <= _calculate_correlation_score three_links 24 <= 1)%R.
Proof.
  apply (correlation_score_formula_and_bounds three_links 24).
  discriminate.
Defined.
End ScoreClaims.

(* ================================================================== *)
(** * CorrelationEngine: the analyses on a scope without degradation *)
(* ================================================================== *)

Section AnalysisFacts.
Import py bcom_models correlation_engine spec.

(** No link qualifies: the dict of degraded links stays empty. *)
Lemma collect_grades_none ids grades_for keep :
  (forall l, In l ids -> grades_for l = [] \/ keep (grades_for l) = false) ->
  collect_grades ids grades_for keep = [].
Proof.
  unfold collect_grades. induction ids as [|l r IH]; intros H; simpl.
  - reflexivity.
  - destruct (H l (or_introl eq_refl)) as [E|E].
    + rewrite E. apply IH. intros l' Hl'. apply H. now right.
    + destruct (grades_for l) eqn:G; [|rewrite E];
        apply IH; intros l' Hl'; apply H; now right.
Qed.

Lemma In_insert_by_time g x l :
  In x (insert_by_time g l) <-> x = g \/ In x l.
Proof.
  induction l as [|h r IH]; simpl.
  - intuition congruence.
  - destruct (timestamp g <? timestamp h)%Z; simpl.
    + intuition congruence.
    + rewrite IH. intuition congruence.
Qed.

Lemma In_order_by_timestamp x l :
  In x (order_by_timestamp l) <-> In x l.
Proof.
  unfold order_by_timestamp.
  assert (H : forall acc,
             In x (fold_left (fun acc g => insert_by_time g acc) l acc)
             <-> In x acc \/ In x l).
  { induction l as [|g r IH]; intros acc; simpl; [tauto|].
    rewrite IH, In_insert_by_time. intuition congruence. }
  rewrite H. simpl. tauto.
Qed.

Lemma no_bidirectional_patterns rt grades l :
  (forall g, In g grades -> both_degraded g = false) ->
  _detect_bidirectional_degradation rt grades l = [].
Proof.
  induction grades as [|g r IH]; intros H; simpl; [reflexivity|].
  rewrite (H g (or_introl eq_refl)). apply IH.
  intros g' Hg'. apply H. now right.
Qed.

Lemma advisory_empty_analysis id sc sid now hours advice :
  advisory (Some (empty_analysis id sc sid now hours advice)) advice.
Proof. eexists. repeat split. Qed.

(** When the cutoff of an analysis is a [datetime], and which. *)
Lemma cutoff_time_of_Return now hours cutoff :
  cutoff_time_of now hours = Return cutoff <->
  (Z.abs (hours / 24) <= 999999999 /\
   -62135596800000000 <= now - hours * 3600000000 <= 253402300799999999 /\
   cutoff = now - hours * 3600000000)%Z.
Proof.
  unfold cutoff_time_of, timedelta, datetime_sub, timedelta_hours,
    datetime_min, datetime_max.
  destruct (Z.abs (hours / 24) >? 999999999)%Z eqn:D; cbn [bind].
  - apply Z.gtb_lt in D. split; [discriminate | lia].
  - rewrite Z.gtb_ltb in D. apply Z.ltb_ge in D.
    destruct ((now - hours * 3600000000 <? -62135596800000000)%Z
              || (now - hours * 3600000000 >? 253402300799999999)%Z) eqn:B.
    + apply orb_true_iff in B as [B|B];
        [apply Z.ltb_lt in B | apply Z.gtb_lt in B];
        (split; [discriminate | lia]).
    + apply orb_false_iff in B as [B1 B2]. apply Z.ltb_ge in B1.
      rewrite Z.gtb_ltb in B2. apply Z.ltb_ge in B2.
      split; [intros [= <-]; lia | intros (_ & _ & ->); reflexivity].
Qed.

End AnalysisFacts.

Section AnalysisClaims.
Import py bcom_models correlation_engine spec samples.
Local Open Scope Z_scope.

(** C8, as stated, on scopes without qualifying entities: a network
    without links, a site that is not a hub and a site that does not
    exist each give [None], not an analysis; and so does a link
    without grade records when the window of 100000000 hours starts
    before year 1. *)
Lemma no_analysis_without_links :
  analyze_network_degradation rt_plain empty_db 1 24 (7 # 10)
    "0a1b2c3d" 0 0 = None /\
  analyze_hub_antenna_degradation rt_plain remote_db 10 24
    "0a1b2c3d" 0 0 = None /\
  analyze_hub_antenna_degradation rt_plain empty_db 10 24
    "0a1b2c3d" 0 0 = None /\
  analyze_link_bidirectional_degradation rt_plain empty_db 42 100000000
    "0a1b2c3d" noon_2024 noon_2024 = None.
Proof. repeat split. Qed.

(** C8 (amended).  The cutoff [utcnow() - timedelta(hours)] is a
    [datetime] exactly when the window has at most 999999999 days and
    starts between year 1 and year 9999.  The network analysis gives
    [None] for a network without links, the hub-antenna analysis for a
    site that is missing, is not a hub or has no links, and every
    analysis that has to compute a cutoff that is not a [datetime]
    gives [None]; the satellite analysis without a matching link
    returns an analysis before it computes the cutoff.  In every other
    case an analysis is returned.  Whenever an analysis is returned
    for a scope in which nothing qualifies (no matching link, no
    degraded grade, no unstable link, no grade record, no record
    degraded in both directions) it has no pattern, score 0.0 and
    exactly one advisory recommendation.  (A link matches a satellite
    name under [ILIKE]: an underscore in the name stands for any
    character, the case of letters is ignored, and a link without a
    type does not match.) *)
Theorem analysis_without_degradation :
  forall rt db hours uid now1 now2,
    let window := cutoff_time_of now1 hours in
    (forall cutoff,
       window = Return cutoff <->
       Z.abs (hours / 24) <= 999999999 /\
       -62135596800000000 <= now1 - hours * 3600000000
         <= 253402300799999999 /\
       cutoff = now1 - hours * 3600000000)
    /\
    (forall network_id min_correlation,
       let r := analyze_network_degradation rt db network_id hours
                  min_correlation uid now1 now2 in
       let ls := filter (fun l => link_network_id l =? network_id)
                        (links db) in
       (ls = [] -> r = None) /\
       (ls <> [] -> raises window -> r = None) /\
       (forall cutoff, ls <> [] -> window = Return cutoff ->
          r <> None /\
          ((forall l, In l ls ->
              degraded_grades_of db (link_link_id l) cutoff = []) ->
           advisory r "No degradation detected in this network")))
    /\
    (forall site_id,
       let r := analyze_hub_antenna_degradation rt db site_id hours
                  uid now1 now2 in
       let ls := filter (fun l => link_site_id l =? site_id) (links db) in
       let site := find (fun s => site_site_id s =? site_id) (sites db) in
       (site = None -> r = None) /\
       (forall s, site = Some s -> is_hub s = false -> r = None) /\
       (ls = [] -> r = None) /\
       (forall s, site = Some s -> is_hub s = true -> ls <> [] ->
          raises window -> r = None) /\
       (forall s cutoff, site = Some s -> is_hub s = true -> ls <> [] ->
          window = Return cutoff ->
          r <> None /\
          ((forall l, In l ls ->
              existsb has_antenna_issue
                (grades_of db (link_link_id l) cutoff) = false) ->
           advisory r "No antenna-level degradation detected")))
    /\
    (forall satellite_name,
       let r := analyze_satellite_degradation rt db satellite_name hours
                  uid now1 now2 in
       let ls := filter (link_type_ilike satellite_name) (links db) in
       (ls = [] -> advisory r "No matching satellite links found") /\
       (ls <> [] -> raises window -> r = None) /\
       (forall cutoff, ls <> [] -> window = Return cutoff ->
          r <> None /\
          ((forall l, In l ls ->
              degraded_grades_of db (link_link_id l) cutoff = []) ->
           advisory r "No degradation detected on this satellite")))
    /\
    (forall link,
       let r := analyze_link_bidirectional_degradation rt db link hours
                  uid now1 now2 in
       (raises window -> r = None) /\
       (forall cutoff, window = Return cutoff ->
          r <> None /\
          (grades_of db link cutoff = [] ->
           advisory r "Insufficient data for analysis") /\
          (grades_of db link cutoff <> [] ->
           (forall g, In g (grades_of db link cutoff) ->
              both_degraded g = false) ->
           advisory r "No bidirectional degradation detected")))
    /\
    (link_type_ilike "V_AT" (mkLink 1 10 7 (Some "VSAT-KU"%string)) = true /\
     link_type_ilike "sat-k" (mkLink 1 10 7 (Some "VSAT-KU"%string)) = true /\
     link_type_ilike "ku-v" (mkLink 1 10 7 (Some "VSAT-KU"%string)) = false /\
     link_type_ilike "" (mkLink 1 10 7 None) = false).
Proof.
  intros rt db hours uid now1 now2 window.
  assert (Hraise : raises window -> exists e, window = Raise e).
  { destruct window as [c|e]; simpl; [tauto | eauto]. }
  split; [intros cutoff; apply cutoff_time_of_Return|].
  split; [|split; [|split; [|split; [|repeat split]]]].
  - intros network_id min_correlation r ls. subst r.
    unfold analyze_network_degradation. fold ls. fold window.
    split; [intros ->; reflexivity|]. split.
    + intros Hne Hw. destruct (Hraise Hw) as [e ->].
      destruct ls; [congruence | reflexivity].
    + intros cutoff Hne ->. destruct ls as [|l0 lr] eqn:El; [congruence|].
      split.
      * destruct (collect_grades _ _ _); discriminate.
      * intros Hnone. rewrite collect_grades_none.
        -- apply advisory_empty_analysis.
        -- intros l Hl. left.
           apply (in_map_iff link_link_id (l0 :: lr)) in Hl as (x & Hx & Hin).
           subst l. now apply Hnone.
  - intros site_id r ls site. subst r.
    unfold analyze_hub_antenna_degradation. fold site. fold ls. fold window.
    split; [intros ->; reflexivity|].
    split; [intros s -> ->; reflexivity|].
    split.
    { intros ->. destruct site as [s|]; [|reflexivity].
      destruct (is_hub s); reflexivity. }
    split.
    + intros s -> Hhub Hne Hw. rewrite Hhub. cbn [negb].
      destruct (Hraise Hw) as [e ->].
      destruct ls; [congruence | reflexivity].
    + intros s cutoff -> Hhub Hne ->. rewrite Hhub. cbn [negb].
      destruct ls as [|l0 lr] eqn:El; [congruence|].
      split.
      * destruct (collect_grades _ _ _); discriminate.
      * intros Hnone. rewrite collect_grades_none.
        -- apply advisory_empty_analysis.
        -- intros l Hl. right.
           apply (in_map_iff link_link_id (l0 :: lr)) in Hl as (x & Hx & Hin).
           subst l. now apply Hnone.
  - intros satellite_name r ls. subst r.
    unfold analyze_satellite_degradation. fold ls. fold window.
    split; [intros ->; apply advisory_empty_analysis|]. split.
    + intros Hne Hw. destruct (Hraise Hw) as [e ->].
      destruct ls; [congruence | reflexivity].
    + intros cutoff Hne ->. destruct ls as [|l0 lr] eqn:El; [congruence|].
      split.
      * destruct (collect_grades _ _ _); discriminate.
      * intros Hnone. rewrite collect_grades_none.
        -- apply advisory_empty_analysis.
        -- intros l Hl. left.
           apply (in_map_iff link_link_id (l0 :: lr)) in Hl as (x & Hx & Hin).
           subst l. now apply Hnone.
  - intros link r. subst r.
    unfold analyze_link_bidirectional_degradation. fold window.
    split.
    + intros Hw. destruct (Hraise Hw) as [e ->]. reflexivity.
    + intros cutoff ->. split; [|split].
      * destruct (order_by_timestamp _); [discriminate|].
        destruct (_detect_bidirectional_degradation _ _ _); discriminate.
      * intros ->. apply advisory_empty_analysis.
      * intros Hne Hnone.
        destruct (order_by_timestamp (grades_of db link cutoff))
          as [|g0 gr] eqn:Eo.
        { exfalso. destruct (grades_of db link cutoff) as [|g gs] eqn:Eg;
            [congruence|].
          assert (Hg : In g (order_by_timestamp (g :: gs)))
            by (apply In_order_by_timestamp; now left).
          rewrite Eo in Hg. exact Hg. }
        rewrite no_bidirectional_patterns.
        -- apply advisory_empty_analysis.
        -- intros g Hg. apply Hnone. apply In_order_by_timestamp.
           now rewrite Eo.
Qed.

Lemma analysis_without_degradation_witness :
  advisory
    (analyze_network_degradation rt_plain remote_db 1 24 (7 # 10)
       "0a1b2c3d" 0 0)
    "No degradation detected in this network" /\
  analyze_link_bidirectional_degradation rt_plain empty_db 42 100000000
    "0a1b2c3d" noon_2024 noon_2024 = None.
Proof.
  destruct (analysis_without_degradation rt_plain remote_db 24
              "0a1b2c3d"%string 0 0) as (_ & Hnet & _).
  destruct (analysis_without_degradation rt_plain empty_db 100000000
              "0a1b2c3d"%string noon_2024 noon_2024)
    as (_ & _ & _ & _ & Hlink & _).
  split.
  - apply (proj2 (proj2 (Hnet 1 (7 # 10))) (-86400000000)).
    + discriminate.
    + reflexivity.
    + intros l _. reflexivity.
  - apply (proj1 (Hlink 42)). exact I.
Defined.
End AnalysisClaims.

(* ================================================================== *)
(** * Further facts about dictionaries, for any key type *)
(* ================================================================== *)

Section DictKeyFacts.
Import py.
Context {K V : Type}.
Variable eqb : K -> K -> bool.
Hypothesis eqb_eq : forall a b, eqb a b = true <-> a = b.
Implicit Types (d : list (K * V)) (k : K) (v : V).

Lemma eqb_refl_key k : eqb k k = true.
Proof. now apply eqb_eq. Qed.

Lemma eqb_neq_key k k' : k <> k' -> eqb k k' = false.
Proof.
  intros H. destruct (eqb k k') eqn:E; [|reflexivity].
  apply eqb_eq in E. contradiction.
Qed.

Lemma eqb_cases k k' : (eqb k k' = true /\ k = k') \/ (eqb k k' = false /\ k <> k').
Proof.
  destruct (eqb k k') eqn:E.
  - left. split; [reflexivity | now apply eqb_eq].
  - right. split; [reflexivity|]. intros H. apply eqb_eq in H. congruence.
Qed.

Lemma lookup_setitem_same k v d : lookup eqb k (setitem eqb k v d) = Some v.
Proof.
  induction d as [|[k0 v0] r IH]; simpl.
  - now rewrite eqb_refl_key.
  - destruct (eqb_cases k k0) as [[E ->]|[E Hne]]; rewrite E; simpl.
    + now rewrite eqb_refl_key.
    + now rewrite E.
Qed.

Lemma lookup_setitem_other k v d k' :
  k' <> k -> lookup eqb k' (setitem eqb k v d) = lookup eqb k' d.
Proof.
  intros Hne. induction d as [|[k0 v0] r IH]; simpl.
  - now rewrite (eqb_neq_key k' k Hne).
  - destruct (eqb_cases k k0) as [[E <-]|[E Hne0]]; rewrite E; simpl.
    + now rewrite (eqb_neq_key k' k Hne).
    + now rewrite IH.
Qed.

Lemma lookup_delete_other k d k' :
  k' <> k -> lookup eqb k' (delete eqb k d) = lookup eqb k' d.
Proof.
  intros Hne. induction d as [|[k0 v0] r IH]; simpl; [reflexivity|].
  destruct (eqb_cases k k0) as [[E <-]|[E Hne0]]; rewrite E; simpl.
  - now rewrite (eqb_neq_key k' k Hne).
  - now rewrite IH.
Qed.

Lemma lookup_Some_In_gen k d v : lookup eqb k d = Some v -> In (k, v) d.
Proof.
  induction d as [|[k0 v0] r IH]; simpl; [discriminate|].
  destruct (eqb_cases k k0) as [[E <-]|[E Hne0]]; rewrite E.
  - intros [= ->]. now left.
  - intros H. right. now apply IH.
Qed.

Lemma lookup_None_not_In k d : lookup eqb k d = None -> ~ In k (keys d).
Proof.
  induction d as [|[k0 v0] r IH]; simpl; [tauto|].
  destruct (eqb_cases k k0) as [[E <-]|[E Hne0]]; rewrite E.
  - discriminate.
  - intros H [H1|H1]; [congruence | now apply IH].
Qed.

Lemma In_lookup_NoDup k v d :
  NoDup (keys d) -> In (k, v) d -> lookup eqb k d = Some v.
Proof.
  induction d as [|[k0 v0] r IH]; simpl; intros Hnd Hin; [contradiction|].
  inversion Hnd as [|? ? Hnin Hnd']; subst.
  destruct Hin as [[= -> ->]|Hin].
  - now rewrite eqb_refl_key.
  - destruct (eqb_cases k k0) as [[E <-]|[E Hne0]]; rewrite E.
    + exfalso. apply Hnin. change k with (fst (k, v)). now apply in_map.
    + now apply IH.
Qed.

Lemma keys_setitem_gen k v d k' :
  In k' (keys (setitem eqb k v d)) <-> k' = k \/ In k' (keys d).
Proof.
  induction d as [|[k0 v0] r IH]; simpl.
  - intuition congruence.
  - destruct (eqb_cases k k0) as [[E <-]|[E Hne0]]; rewrite E; simpl.
    + intuition congruence.
    + rewrite IH. intuition congruence.
Qed.

Lemma NoDup_setitem_gen k v d :
  NoDup (keys d) -> NoDup (keys (setitem eqb k v d)).
Proof.
  induction d as [|[k0 v0] r IH]; simpl; intros H.
  - constructor; [simpl; tauto | constructor].
  - inversion H as [|? ? Hnin Hnd]; subst.
    destruct (eqb_cases k k0) as [[E <-]|[E Hne0]]; rewrite E; simpl.
    + constructor; assumption.
    + constructor; [|now apply IH].
      rewrite keys_setitem_gen. intros [E'|E']; [congruence | contradiction].
Qed.

Lemma keys_setitem_present k v v' d :
  lookup eqb k d = Some v' -> keys (setitem eqb k v d) = keys d.
Proof.
  induction d as [|[k0 v0] r IH]; simpl; [discriminate|].
  destruct (eqb_cases k k0) as [[E <-]|[E Hne0]]; rewrite E; simpl.
  - reflexivity.
  - intros H. now rewrite IH.
Qed.

Lemma length_setitem_le k v d :
  (List.length (setitem eqb k v d) <= S (List.length d))%nat.
Proof.
  induction d as [|[k0 v0] r IH]; simpl; [lia|].
  destruct (eqb k k0); simpl; lia.
Qed.

Lemma length_delete_le k d :
  (List.length (delete eqb k d) <= List.length d)%nat.
Proof.
  induction d as [|[k0 v0] r IH]; simpl; [lia|].
  destruct (eqb k k0); simpl; lia.
Qed.
End DictKeyFacts.

(* ================================================================== *)
(** * ModelCache: round trip, isolation, invariants, accounting *)
(* ================================================================== *)

Section CacheUse.
Import py detector_object model_cache samples invariants.
Local Open Scope Z_scope.

Lemma ttl_minutes_do_set c s : ttl_minutes (do_set c s) = ttl_minutes c.
Proof.
  unfold do_set, set, _evict_least_used.
  destruct (_ >=? _); [destruct (least_used_key _)|]; reflexivity.
Qed.

(** The entry a [set] leaves under its key. *)
Lemma lookup_after_set c s :
  lookup String.eqb (s_key s) (_cache (do_set c s)) =
  Some (mkItem (s_model s) (s_now1 s)
               (s_now2 s + timedelta_minutes (ttl_minutes c)) 0 (s_now3 s)).
Proof.
  unfold do_set, set, _evict_least_used.
  destruct (_ >=? _); [destruct (least_used_key _)|]; simpl;
    apply (lookup_setitem_same String.eqb String.eqb_eq).
Qed.



(** A [get] touches no entry but the one of its key; a [set] touches
    no entry but the one of its key and, when the cache is full, the
    one it evicts. *)
Theorem other_entries_untouched :
  (forall c ty fc ds now1 now2 k,
     k <> _generate_cache_key ty fc ds ->
     lookup String.eqb k (_cache (fst (get c ty fc ds now1 now2)))
     = lookup String.eqb k (_cache c))
  /\
  (forall c s k,
     k <> s_key s ->
     size c < max_cache_size c \/ least_used_key (_cache c) <> Some k ->
     lookup String.eqb k (_cache (do_set c s))
     = lookup String.eqb k (_cache c)).
Proof.
  split.
  - intros c ty fc ds now1 now2 k Hne. unfold get.
    destruct (lookup String.eqb (_generate_cache_key ty fc ds) (_cache c))
      as [item|]; [|reflexivity].
    destruct (now1 >? expires_at item); simpl.
    + now apply (lookup_delete_other String.eqb String.eqb_eq).
    + now apply (lookup_setitem_other String.eqb String.eqb_eq).
  - intros c s k Hne Hcase. unfold do_set, set, _evict_least_used.
    fold (s_key s).
    destruct (Z.of_nat (List.length (_cache c)) >=? max_cache_size c) eqn:E.
    + destruct (least_used_key (_cache c)) as [victim|] eqn:Ev; simpl.
      * rewrite (lookup_setitem_other String.eqb String.eqb_eq) by exact Hne.
        apply (lookup_delete_other String.eqb String.eqb_eq).
        destruct Hcase as [Hroom|Hv]; [|congruence].
        rewrite Z.geb_leb in E. apply Z.leb_le in E. unfold size in Hroom. lia.
      * now apply (lookup_setitem_other String.eqb String.eqb_eq).
    + simpl. now apply (lookup_setitem_other String.eqb String.eqb_eq).
Qed.

Lemma other_entries_untouched_witness :
  lookup String.eqb "network_5_1"%string
    (_cache (fst (get busy_cache "site" 5 1 300 300)))
  = lookup String.eqb "network_5_1"%string (_cache busy_cache).
Proof.
  apply (proj1 other_entries_untouched busy_cache "site"%string 5 1 300 300).
  discriminate.
Defined.

(** ** The invariant of every reachable cache *)

Lemma fold_delete_length keys_ : forall d : list (string * CachedItem),
  (List.length (fold_left (fun d key => delete String.eqb key d) keys_ d)
   <= List.length d)%nat.
Proof.
  induction keys_ as [|k r IH]; intros d; simpl; [lia|].
  etransitivity; [apply IH|]. apply length_delete_le.
Qed.

Lemma fold_delete_NoDup keys_ : forall d : list (string * CachedItem),
  NoDup (keys d) ->
  NoDup (keys (fold_left (fun d key => delete String.eqb key d) keys_ d)).
Proof.
  induction keys_ as [|k r IH]; intros d H; simpl; [exact H|].
  apply IH. now apply NoDup_delete.
Qed.

Lemma max_cache_size_step c op : max_cache_size (step c op) = max_cache_size c.
Proof.
  destruct op as [ty fc ds now1 now2|s|clock|]; cbn [step];
    [|apply max_cache_size_do_set|reflexivity|reflexivity].
  unfold get. destruct (lookup _ _ _) as [item|]; [|reflexivity].
  destruct (now1 >? expires_at item); reflexivity.
Qed.

Lemma cache_ok_step c op :
  1 <= max_cache_size c -> cache_ok c -> cache_ok (step c op).
Proof.
  intros Hpos [Hsz Hnd]. unfold cache_ok. rewrite max_cache_size_step.
  destruct op as [ty fc ds now1 now2|s|clock|]; cbn [step].
  - unfold get.
    destruct (lookup _ _ _) as [item|] eqn:El; [|split; assumption].
    destruct (now1 >? expires_at item); unfold size in *; simpl; split.
    + pose proof (length_delete_le String.eqb
                    (_generate_cache_key ty fc ds) (_cache c)). lia.
    + now apply NoDup_delete.
    + rewrite length_setitem_present; [exact Hsz|].
      eapply lookup_Some_In; eassumption.
    + now apply NoDup_setitem.
  - split; [|now apply NoDup_do_set].
    destruct (Z_lt_ge_dec (size c) (max_cache_size c)) as [Hroom|Hfull].
    + unfold size at 1. rewrite (set_when_room c s Hroom).
      pose proof (length_setitem_le String.eqb (s_key s)
                    (mkItem (s_model s) (s_now1 s)
                       (s_now2 s + timedelta_minutes (ttl_minutes c)) 0
                       (s_now3 s)) (_cache c)).
      unfold size in Hroom. lia.
    + assert (Hne : _cache c <> []).
      { intros E. unfold size in Hfull. rewrite E in Hfull.
        simpl in Hfull. lia. }
      destruct (least_used_key_exists _ Hne) as [victim Hv].
      destruct (least_used_key_spec _ _ Hv) as [Hin _].
      unfold size at 1. rewrite (set_when_full c s victim Hfull Hv).
      pose proof (length_setitem_le String.eqb (s_key s)
                    (mkItem (s_model s) (s_now1 s)
                       (s_now2 s + timedelta_minutes (ttl_minutes c)) 0
                       (s_now3 s)) (delete String.eqb victim (_cache c))).
      pose proof (length_delete victim (_cache c) Hin).
      unfold size in Hsz. lia.
  - unfold size in *. simpl. split.
    + pose proof (fold_delete_length (expired_from clock 0 (_cache c))
                    (_cache c)). lia.
    + now apply fold_delete_NoDup.
  - unfold size. simpl. split; [lia | constructor].
Qed.

(** Whatever calls are made on it, in whatever order, a cache created
    with a capacity of at least 1 never holds more entries than its
    capacity, never holds a key twice, and keeps the capacity it was
    created with. *)
Theorem cache_never_exceeds_capacity :
  forall ttl C ops,
    1 <= C ->
    size (run (init ttl C) ops) <= C /\
    NoDup (keys (_cache (run (init ttl C) ops))) /\
    max_cache_size (run (init ttl C) ops) = C.
Proof.
  intros ttl C ops Hpos.
  assert (H : forall c, max_cache_size c = C -> cache_ok c ->
                        cache_ok (run c ops) /\ max_cache_size (run c ops) = C).
  { induction ops as [|op r IH]; intros c Hmax Hok; simpl; [auto|].
    apply IH.
    - now rewrite max_cache_size_step.
    - apply cache_ok_step; [lia | exact Hok]. }
  destruct (H (init ttl C)) as [[Hsz Hnd] Hmax].
  - reflexivity.
  - split; [unfold size; simpl; lia | constructor].
  - rewrite Hmax in Hsz. auto.
Qed.

Lemma cache_never_exceeds_capacity_witness :
  size (run (init 60 2)
          [OpSet (call "network" 0); OpSet (call "site" 10);
           OpGet "site" 5 1 20 20; OpSet (call "link" 30);
           OpCleanup (fun _ => 40); OpSet (call "site" 50)]) <= 2.
Proof.
  apply (cache_never_exceeds_capacity 60 2). lia.
Defined.

(** ** Hit accounting *)

Lemma hits_sum_setitem k new old : forall d : list (string * CachedItem),
  lookup String.eqb k d = Some old ->
  fold_right Z.add 0 (map hits (values (setitem String.eqb k new d)))
  = fold_right Z.add 0 (map hits (values d)) - hits old + hits new.
Proof.
  unfold values. induction d as [|[k0 v0] r IH]; simpl; [discriminate|].
  destruct (String.eqb k k0); simpl.
  - intros [= ->]. lia.
  - intros H. rewrite (IH H). lia.
Qed.

(** A [get] that finds a live entry returns its detector and counts
    one hit: the entry's [hits] and the [total_hits] statistic both go
    up by exactly one, [last_accessed] becomes the time of the call,
    and neither the size nor the order of the keys changes. *)
Theorem hit_is_counted_once :
  forall iso c ty fc ds now1 now2 item,
    lookup String.eqb (_generate_cache_key ty fc ds) (_cache c) = Some item ->
    now1 <= expires_at item ->
    let r := get c ty fc ds now1 now2 in
    snd r = Some (model item) /\
    lookup String.eqb (_generate_cache_key ty fc ds) (_cache (fst r))
      = Some (mkItem (model item) (created_at item) (expires_at item)
                     (hits item + 1) now2) /\
    total_hits (get_stats iso (fst r)) = total_hits (get_stats iso c) + 1 /\
    stats_size (get_stats iso (fst r)) = stats_size (get_stats iso c) /\
    keys (_cache (fst r)) = keys (_cache c).
Proof.
  intros iso c ty fc ds now1 now2 item Hl Hlive r. subst r.
  unfold get. rewrite Hl.
  assert (E : (now1 >? expires_at item) = false).
  { rewrite Z.gtb_ltb. apply Z.ltb_ge. exact Hlive. }
  rewrite E. simpl. split; [reflexivity|]. split; [|split; [|split]].
  - apply (lookup_setitem_same String.eqb String.eqb_eq).
  - rewrite (hits_sum_setitem _ _ item) by exact Hl. simpl. lia.
  - rewrite length_setitem_present; [reflexivity|].
    eapply lookup_Some_In; eassumption.
  - eapply (keys_setitem_present String.eqb String.eqb_eq). exact Hl.
Qed.

Lemma hit_is_counted_once_witness :
  total_hits (get_stats str (fst (get busy_cache "site" 5 1 300 300)))
  = total_hits (get_stats str busy_cache) + 1.
Proof.
  apply (hit_is_counted_once str busy_cache "site"%string 5 1 300 300
           (mkItem a_detector 200 3600000200 0 200)).
  - reflexivity.
  - vm_compute. discriminate.
Defined.
End CacheUse.

(* ================================================================== *)
(** * ModelCache: which entry [set] evicts *)
(* ================================================================== *)

Section CacheEviction.
Import py detector_object model_cache samples.
Local Open Scope Z_scope.

Lemma tuple_ltb_spec a b :
  tuple_ltb a b = true <->
  fst a < fst b \/ (fst a = fst b /\ snd a < snd b).
Proof.
  unfold tuple_ltb. rewrite orb_true_iff, andb_true_iff.
  rewrite !Z.ltb_lt, Z.eqb_eq. reflexivity.
Qed.

Lemma tuple_ltb_false_spec a b :
  tuple_ltb a b = false <->
  fst b < fst a \/ (fst b = fst a /\ snd b <= snd a).
Proof.
  destruct (tuple_ltb a b) eqn:E.
  - apply tuple_ltb_spec in E. split; [discriminate | lia].
  - split; [intros _ | reflexivity].
    assert (H : ~ (fst a < fst b \/ (fst a = fst b /\ snd a < snd b))).
    { intros H. apply tuple_ltb_spec in H. congruence. }
    lia.
Qed.

Ltac tuple_order :=
  repeat match goal with
         | H : tuple_ltb _ _ = true |- _ => apply tuple_ltb_spec in H
         | H : tuple_ltb _ _ = false |- _ => apply tuple_ltb_false_spec in H
         end;
  try apply tuple_ltb_spec; try apply tuple_ltb_false_spec; lia.

(** Python's [min] with a key returns the first of the elements with
    the least key: what precedes it has a greater key, what follows it
    a key that is not less. *)
Lemma min_from_first {A} (key : A -> Z * Z) (xs : list A) : forall best,
  let m := min_from (fun a b => tuple_ltb (key a) (key b)) best xs in
  exists l1 l2,
    best :: xs = l1 ++ m :: l2 /\
    (forall x, In x l1 -> tuple_ltb (key m) (key x) = true) /\
    (forall x, In x l2 -> tuple_ltb (key x) (key m) = false).
Proof.
  induction xs as [|x r IH]; intros best; simpl.
  - exists [], []. split; [reflexivity|]. split; intros y [].
  - destruct (tuple_ltb (key x) (key best)) eqn:E.
    + destruct (IH x) as (l1 & l2 & E12 & H1 & H2).
      set (m := min_from (fun a b => tuple_ltb (key a) (key b)) x r) in *.
      exists (best :: l1), l2. split; [simpl; now rewrite E12|]. split.
      * intros y [<-|Hy]; [|now apply H1].
        assert (Hx : In x (l1 ++ m :: l2)) by (rewrite <- E12; now left).
        apply in_app_or in Hx as [Hx|[Hx|Hx]].
        -- pose proof (H1 x Hx). tuple_order.
        -- rewrite Hx. exact E.
        -- pose proof (H2 x Hx). tuple_order.
      * exact H2.
    + destruct (IH best) as (l1 & l2 & E12 & H1 & H2).
      set (m := min_from (fun a b => tuple_ltb (key a) (key b)) best r) in *.
      destruct l1 as [|b l1'].
      * simpl in E12. injection E12 as Em Er.
        exists [], (x :: l2). split; [simpl; now rewrite <- Em, Er|].
        split; [intros y []|].
        intros y [<-|Hy]; [now rewrite <- Em | now apply H2].
      * simpl in E12. injection E12 as Eb Er.
        exists (best :: x :: l1'), l2.
        split; [simpl; now rewrite Er|]. split; [|exact H2].
        intros y [<-|[<-|Hy]].
        -- apply H1. rewrite Eb. now left.
        -- assert (Hb : tuple_ltb (key m) (key best) = true)
             by (apply H1; rewrite Eb; now left).
           tuple_order.
        -- apply H1. now right.
Qed.

Lemma use_key_In (d : list (string * CachedItem)) k it :
  NoDup (keys d) -> In (k, it) d ->
  use_key d k = (hits it, last_accessed it).
Proof.
  intros Hnd Hin. unfold use_key.
  now rewrite (In_lookup_NoDup String.eqb String.eqb_eq k it d Hnd Hin).
Qed.

(** The entry [_evict_least_used] picks, by the fields of the entries:
    it is the first in dict order among those with the least
    [(hits, last_accessed)]. *)
Lemma least_used_key_first d victim :
  NoDup (keys d) ->
  least_used_key d = Some victim ->
  exists d1 vitem d2,
    d = d1 ++ (victim, vitem) :: d2 /\
    (forall k it, In (k, it) d1 ->
       hits vitem < hits it \/
       (hits vitem = hits it /\ last_accessed vitem < last_accessed it)) /\
    (forall k it, In (k, it) d2 ->
       hits vitem < hits it \/
       (hits vitem = hits it /\ last_accessed vitem <= last_accessed it)).
Proof.
  intros Hnd Hv. unfold least_used_key in Hv.
  destruct (keys d) as [|k0 ks] eqn:Ek; [discriminate|].
  rewrite <- Ek in Hnd. injection Hv as Hv.
  destruct (min_from_first (use_key d) ks k0) as (l1 & l2 & E & H1 & H2).
  rewrite Hv in E, H1, H2. rewrite <- Ek in E. unfold keys in E.
  apply map_eq_app in E as (d1 & dr & Ed & E1 & Er).
  destruct dr as [|[v vitem] d2]; [discriminate|].
  simpl in Er. injection Er as Ev E2. subst v.
  exists d1, vitem, d2. split; [exact Ed|].
  assert (Hvic : use_key d victim = (hits vitem, last_accessed vitem)).
  { apply use_key_In; [exact Hnd|]. rewrite Ed. apply in_or_app.
    right. now left. }
  split.
  - intros k it Hin.
    assert (Hk : use_key d k = (hits it, last_accessed it)).
    { apply use_key_In; [exact Hnd|]. rewrite Ed. apply in_or_app. now left. }
    assert (Hl : In k l1) by (rewrite <- E1; apply (in_map fst _ _ Hin)).
    specialize (H1 k Hl). rewrite Hvic, Hk in H1.
    apply tuple_ltb_spec in H1. exact H1.
  - intros k it Hin.
    assert (Hk : use_key d k = (hits it, last_accessed it)).
    { apply use_key_In; [exact Hnd|]. rewrite Ed. apply in_or_app.
      right. now right. }
    assert (Hl : In k l2) by (rewrite <- E2; apply (in_map fst _ _ Hin)).
    specialize (H2 k Hl). rewrite Hvic, Hk in H2.
    apply tuple_ltb_false_spec in H2. exact H2.
Qed.

Lemma delete_middle (d1 : list (string * CachedItem)) k v d2 :
  ~ In k (keys d1) ->
  delete String.eqb k (d1 ++ (k, v) :: d2) = d1 ++ d2.
Proof.
  induction d1 as [|[k0 v0] r IH]; simpl; intros H.
  - now rewrite String.eqb_refl.
  - destruct (String.eqb_spec k k0) as [->|Hne]; [exfalso; apply H; now left|].
    f_equal. apply IH. tauto.
Qed.

Lemma setitem_fresh_last (d : list (string * CachedItem)) k v :
  ~ In k (keys d) -> setitem String.eqb k v d = d ++ [(k, v)].
Proof.
  induction d as [|[k0 v0] r IH]; simpl; intros H; [reflexivity|].
  destruct (String.eqb_spec k k0) as [->|Hne]; [exfalso; apply H; now left|].
  f_equal. apply IH. tauto.
Qed.

Lemma victim_not_before (d1 : list (string * CachedItem)) k v d2 :
  NoDup (keys (d1 ++ (k, v) :: d2)) ->
  ~ In k (keys d1) /\ ~ In k (keys d2).
Proof.
  unfold keys. rewrite map_app. simpl. intros H.
  apply NoDup_remove_2 in H. rewrite in_app_iff in H. tauto.
Qed.

(** For capacities of at least 1 and a TTL whose expiry times are
    datetimes.  Starting from an empty cache of capacity [C >= 1], [C]
    calls of [set] with distinct keys fill it and one more call with a
    further key leaves exactly [C] entries.
    In any state, a [set] of a new key on a cache that holds
    [max_cache_size] entries or more removes exactly one entry: the
    first in insertion order among those with the least hit count and,
    at equal hit count, the earliest last access; every other entry
    stays where it is and the new entry goes last.  And [get] on a key
    whose entry has [utcnow() > expires_at] returns [None] and the
    entry is gone from the cache afterwards. *)
Theorem cache_capacity_eviction_and_expiry :
  (forall ttl C calls,
     1 <= C ->
     Z.of_nat (List.length calls) = C + 1 ->
     NoDup (map s_key calls) ->
     (forall s, In s calls -> expiry_fits ttl (s_now2 s)) ->
     size (set_all (init ttl C) (removelast calls)) = C /\
     size (set_all (init ttl C) calls) = C)
  /\
  (forall c s,
     NoDup (keys (_cache c)) ->
     _cache c <> [] ->
     size c >= max_cache_size c ->
     ~ In (s_key s) (keys (_cache c)) ->
     expiry_fits (ttl_minutes c) (s_now2 s) ->
     size (do_set c s) = size c /\
     exists d1 victim vitem d2,
       _cache c = d1 ++ (victim, vitem) :: d2 /\
       (forall k it, In (k, it) d1 ->
          hits vitem < hits it \/
          (hits vitem = hits it /\
           last_accessed vitem < last_accessed it)) /\
       (forall k it, In (k, it) d2 ->
          hits vitem < hits it \/
          (hits vitem = hits it /\
           last_accessed vitem <= last_accessed it)) /\
       _cache (do_set c s) =
         d1 ++ d2 ++
         [(s_key s,
           mkItem (s_model s) (s_now1 s)
                  (s_now2 s + ttl_minutes c * 60000000) 0 (s_now3 s))])
  /\
  (forall c ty fc ds now1 now2 item,
     NoDup (keys (_cache c)) ->
     lookup String.eqb (_generate_cache_key ty fc ds) (_cache c)
       = Some item ->
     now1 > expires_at item ->
     snd (get c ty fc ds now1 now2) = None /\
     lookup String.eqb (_generate_cache_key ty fc ds)
            (_cache (fst (get c ty fc ds now1 now2))) = None /\
     size (fst (get c ty fc ds now1 now2)) = size c - 1).
Proof.
  split; [|split].
  - intros ttl C calls Hpos Hlen Hnd _.
    destruct (size_fill ttl C calls Hpos Hnd) as [Hall _].
    assert (Hnd' : NoDup (map s_key (removelast calls))).
    { destruct (exists_last (l := calls)) as (front & last & E).
      - intros ->. simpl in Hlen. lia.
      - rewrite E, removelast_last. rewrite E, map_app in Hnd.
        now apply NoDup_app_remove_r in Hnd. }
    destruct (size_fill ttl C (removelast calls) Hpos Hnd') as [Hfront _].
    assert (Hl : Z.of_nat (List.length (removelast calls)) = C).
    { destruct (exists_last (l := calls)) as (front & last & E).
      - intros ->. simpl in Hlen. lia.
      - rewrite E, removelast_last. rewrite E, length_app in Hlen.
        simpl in Hlen. lia. }
    split; lia.
  - intros c s Hnd Hne Hfull Hfresh _.
    destruct (least_used_key_exists _ Hne) as [victim Hv].
    destruct (least_used_key_first _ _ Hnd Hv)
      as (d1 & vitem & d2 & Ed & H1 & H2).
    assert (Hcache := set_when_full c s victim Hfull Hv).
    rewrite Ed in Hnd.
    destruct (victim_not_before _ _ _ _ Hnd) as [Hv1 Hv2].
    assert (Hfresh' : ~ In (s_key s) (keys (d1 ++ d2))).
    { intros H. apply Hfresh. rewrite Ed. unfold keys in *.
      rewrite map_app in *. simpl. rewrite in_app_iff in *. simpl. tauto. }
    assert (Hfinal : _cache (do_set c s) =
              d1 ++ d2 ++
              [(s_key s,
                mkItem (s_model s) (s_now1 s)
                       (s_now2 s + ttl_minutes c * 60000000) 0 (s_now3 s))]).
    { rewrite Hcache, Ed, delete_middle by exact Hv1.
      rewrite setitem_fresh_last by exact Hfresh'.
      now rewrite <- app_assoc. }
    split.
    + unfold size. rewrite Hfinal, Ed. repeat rewrite length_app.
      cbn [List.length]. lia.
    + exists d1, victim, vitem, d2. auto.
  - intros c ty fc ds now1 now2 item Hnd Hl He.
    exact (get_expired c ty fc ds now1 now2 item Hnd Hl He).
Qed.

Lemma cache_capacity_eviction_and_expiry_witness :
  size (set_all (init 60 2) three_calls) = 2 /\
  keys (_cache (do_set read_cache (call "link" 300)))
    = ["network_5_1"; "link_5_1"]%string /\
  snd (get stale_cache "network" 5 1 3600000001 3600000001) = None.
Proof.
  destruct cache_capacity_eviction_and_expiry as (Hfill & Hevict & Hget).
  split; [|split].
  - apply (Hfill 60 2 three_calls).
    + lia.
    + reflexivity.
    + repeat constructor; simpl; intuition discriminate.
    + intros s [<-|[<-|[<-|[]]]]; vm_compute; intuition discriminate.
  - destruct (Hevict read_cache (call "link" 300)) as (_ & H).
    + repeat constructor; simpl; intuition discriminate.
    + discriminate.
    + vm_compute. discriminate.
    + simpl. intuition discriminate.
    + vm_compute. intuition discriminate.
    + reflexivity.
  - apply (Hget stale_cache "network"%string 5 1 3600000001 3600000001
             (mkItem a_detector 0 3600000000 0 0)).
    + repeat constructor; simpl; tauto.
    + reflexivity.
    + reflexivity.
Defined.

(** C10.  [set] does not look the key up before it makes room: on a
    cache that holds [max_cache_size] entries, a [set] for a key that
    is already there (with a TTL whose expiry time is a datetime)
    still removes the entry [_evict_least_used]
    picks, the first in insertion order among those with the least
    hit count and, at equal hit count, the earliest last access, and
    only then writes the key.  When that entry is not the one being
    updated it is lost and the cache ends one entry below capacity.
    Such a cache exists: in [read_cache], of capacity 2, the first
    entry has been read once, so updating it evicts the second. *)
Theorem set_existing_key_still_evicts :
  (forall c s,
     NoDup (keys (_cache c)) ->
     size c = max_cache_size c ->
     In (s_key s) (keys (_cache c)) ->
     expiry_fits (ttl_minutes c) (s_now2 s) ->
     exists d1 victim vitem d2,
       _cache c = d1 ++ (victim, vitem) :: d2 /\
       (forall k it, In (k, it) d1 ->
          hits vitem < hits it \/
          (hits vitem = hits it /\
           last_accessed vitem < last_accessed it)) /\
       (forall k it, In (k, it) d2 ->
          hits vitem < hits it \/
          (hits vitem = hits it /\
           last_accessed vitem <= last_accessed it)) /\
       _cache (do_set c s) =
         setitem String.eqb (s_key s)
           (mkItem (s_model s) (s_now1 s)
                   (s_now2 s + ttl_minutes c * 60000000) 0 (s_now3 s))
           (d1 ++ d2) /\
       (victim <> s_key s ->
          ~ In victim (keys (_cache (do_set c s))) /\
          In (s_key s) (keys (_cache (do_set c s))) /\
          size (do_set c s) = max_cache_size c - 1 /\
          size (do_set c s) < max_cache_size (do_set c s)))
  /\
  (NoDup (keys (_cache read_cache)) /\
   size read_cache = max_cache_size read_cache /\
   keys (_cache read_cache) = ["network_5_1"; "site_5_1"]%string /\
   s_key (call "network" 300) = "network_5_1"%string /\
   expiry_fits (ttl_minutes read_cache) (s_now2 (call "network" 300)) /\
   keys (_cache (do_set read_cache (call "network" 300)))
     = ["network_5_1"]%string /\
   size (do_set read_cache (call "network" 300))
     < max_cache_size read_cache).
Proof.
  split.
  - intros c s Hnd Hfull Hin _.
    assert (Hne : _cache c <> []) by (intros E; rewrite E in Hin; exact Hin).
    destruct (least_used_key_exists _ Hne) as [victim Hv].
    destruct (least_used_key_first _ _ Hnd Hv)
      as (d1 & vitem & d2 & Ed & H1 & H2).
    assert (Hcache := set_when_full c s victim ltac:(lia) Hv).
    pose proof Hnd as Hnd'. rewrite Ed in Hnd'.
    destruct (victim_not_before _ _ _ _ Hnd') as [Hv1 Hv2].
    assert (Hdel : delete String.eqb victim (_cache c) = d1 ++ d2)
      by (rewrite Ed; now apply delete_middle).
    exists d1, victim, vitem, d2.
    split; [exact Ed|]. split; [exact H1|]. split; [exact H2|].
    split.
    { rewrite Hcache, Hdel. reflexivity. }
    intros Hneq.
    assert (Hvin : In victim (keys (_cache c))).
    { rewrite Ed. unfold keys. rewrite map_app, in_app_iff. simpl. tauto. }
    assert (Hsz : size (do_set c s) = max_cache_size c - 1).
    { unfold size at 1. rewrite Hcache, length_setitem_present.
      - rewrite <- Hfull. unfold size.
        rewrite <- (length_delete victim (_cache c) Hvin). lia.
      - apply keys_delete_other; [congruence | exact Hin]. }
    split; [|split; [|split; [exact Hsz|]]].
    + rewrite Hcache, keys_setitem. intros [E|H]; [contradiction|].
      revert H. now apply deleted_key_absent.
    + rewrite Hcache, keys_setitem. now left.
    + rewrite max_cache_size_do_set. lia.
  - split; [repeat constructor; simpl; intuition discriminate|].
    repeat split; vm_compute; intuition discriminate.
Qed.

Lemma set_existing_key_still_evicts_witness :
  exists d1 victim vitem d2,
    _cache read_cache = d1 ++ (victim, vitem) :: d2 /\
    victim = "site_5_1"%string /\
    ~ In victim (keys (_cache (do_set read_cache (call "network" 300)))) /\
    size (do_set read_cache (call "network" 300)) = 1.
Proof.
  destruct (proj1 set_existing_key_still_evicts read_cache
              (call "network" 300))
    as (d1 & victim & vitem & d2 & Ed & H1 & H2 & Hc & H).
  - repeat constructor; simpl; intuition discriminate.
  - reflexivity.
  - simpl. tauto.
  - vm_compute. intuition discriminate.
  - assert (Ev : victim = "site_5_1"%string).
    { change (_cache read_cache)
        with [("network_5_1"%string, mkItem a_detector 100 3600000100 1 250);
              ("site_5_1"%string, mkItem a_detector 200 3600000200 0 200)]
        in Ed.
      destruct d1 as [|e1 [|e2 d1]].
      - simpl in Ed. injection Ed as _ Ei E2. subst vitem d2.
        specialize (H2 _ _ (or_introl eq_refl)). simpl in H2. lia.
      - simpl in Ed. injection Ed as _ Ev _. now rewrite Ev.
      - simpl in Ed. injection Ed as _ _ E. destruct d1; discriminate. }
    exists d1, victim, vitem, d2. split; [exact Ed|]. split; [exact Ev|].
    destruct H as (Hout & _ & Hsz & _).
    + rewrite Ev. discriminate.
    + split; [exact Hout | exact Hsz].
Defined.
End CacheEviction.

(* ================================================================== *)
(** * ModelCache: cleanup and cache keys *)
(* ================================================================== *)

Section CacheCleanup.
Import py detector_object model_cache samples invariants.
Local Open Scope Z_scope.

Lemma expired_from_incl clock : forall d i k,
  In k (expired_from clock i d) -> In k (keys d).
Proof.
  induction d as [|[k0 it] r IH]; intros i k; simpl; [tauto|].
  destruct (clock i >? expires_at it); simpl.
  - intros [H|H]; [now left | right; eapply IH; eassumption].
  - intros H. right. eapply IH; eassumption.
Qed.

Lemma fold_delete_skip (k : string) (v : CachedItem) ks :
  forall d, ~ In k ks ->
  fold_left (fun d key => delete String.eqb key d) ks ((k, v) :: d)
  = (k, v) :: fold_left (fun d key => delete String.eqb key d) ks d.
Proof.
  induction ks as [|k0 r IH]; intros d Hnin; simpl; [reflexivity|].
  destruct (String.eqb_spec k0 k) as [->|Hne].
  - exfalso. apply Hnin. now left.
  - apply IH. intros H. apply Hnin. now right.
Qed.

Lemma cleanup_keeps clock : forall d i,
  NoDup (keys d) ->
  fold_left (fun d key => delete String.eqb key d) (expired_from clock i d) d
  = kept_from clock i d.
Proof.
  induction d as [|[k it] r IH]; intros i Hnd; simpl; [reflexivity|].
  inversion Hnd as [|? ? Hnin Hnd']; subst.
  destruct (clock i >? expires_at it); simpl.
  - rewrite String.eqb_refl. now apply IH.
  - rewrite fold_delete_skip.
    + now rewrite IH.
    + intros H. apply Hnin. eapply expired_from_incl; eassumption.
Qed.

Lemma kept_plus_expired clock : forall d i,
  (List.length (kept_from clock i d) + List.length (expired_from clock i d)
   = List.length d)%nat.
Proof.
  induction d as [|[k it] r IH]; intros i; simpl; [reflexivity|].
  destruct (clock i >? expires_at it); simpl; rewrite <- (IH (S i)); lia.
Qed.

(** [cleanup_expired] on a cache without duplicate keys keeps, in
    order, exactly the entries whose clock reading was not past their
    [expires_at], and returns the number of entries it dropped; when
    the clock does not move during the call, what remains is the
    entries with [expires_at >= now], so a second cleanup at the same
    time removes nothing. *)
Theorem cleanup_drops_exactly_the_expired :
  forall c clock,
    NoDup (keys (_cache c)) ->
    let r := cleanup_expired c clock in
    _cache (fst r) = kept_from clock 0 (_cache c) /\
    snd r = size c - size (fst r) /\
    (forall now, (forall i, clock i = now) ->
       _cache (fst r)
         = filter (fun kv => negb (now >? expires_at (snd kv))) (_cache c) /\
       (forall k item, In (k, item) (_cache (fst r)) -> now <= expires_at item) /\
       snd (cleanup_expired (fst r) clock) = 0).
Proof.
  intros c clock Hnd r. subst r. unfold cleanup_expired. simpl.
  rewrite cleanup_keeps by exact Hnd.
  split; [reflexivity|]. split.
  - unfold size. simpl.
    pose proof (kept_plus_expired clock (_cache c) 0). lia.
  - intros now Hclock.
    assert (Ec : forall d i, kept_from clock i d
                   = filter (fun kv => negb (now >? expires_at (snd kv))) d).
    { intros d. induction d as [|[k it] rr IH]; intros i; simpl; [reflexivity|].
      rewrite Hclock. destruct (now >? expires_at it); simpl; now rewrite IH. }
    rewrite Ec. split; [reflexivity|]. split.
    + intros k item Hin. apply filter_In in Hin as [_ Hlive]. simpl in Hlive.
      apply negb_true_iff in Hlive. rewrite Z.gtb_ltb in Hlive.
      now apply Z.ltb_ge in Hlive.
    + assert (En : forall d i,
                 expired_from clock i
                   (filter (fun kv => negb (now >? expires_at (snd kv))) d)
                 = []).
      { intros d. induction d as [|[k it] rr IH]; intros i; simpl; [reflexivity|].
        destruct (now >? expires_at it) eqn:E; simpl; [apply IH|].
        rewrite Hclock, E. apply IH. }
      now rewrite En.
Qed.

Lemma cleanup_drops_exactly_the_expired_witness :
  snd (cleanup_expired busy_cache (fun _ => 3600000150)) = 1.
Proof.
  destruct (cleanup_drops_exactly_the_expired busy_cache
              (fun _ => 3600000150)) as (_ & Hn & _).
  - repeat constructor; simpl; intuition discriminate.
  - rewrite Hn. reflexivity.
Defined.
End CacheCleanup.

Section CacheKeys.
Import Ascii py detector_object model_cache samples invariants.
Local Open Scope string_scope.

Lemma append_assoc_str (a b c : string) : (a ++ b) ++ c = a ++ (b ++ c).
Proof. induction a as [|x a IH]; simpl; [reflexivity | now rewrite IH]. Qed.

Lemma digits_underscore_free d : underscore_free (NilEmpty.string_of_uint d).
Proof.
  unfold underscore_free.
  induction d; intros a b; simpl; destruct a as [|x a]; simpl;
    try discriminate; intros [= _ H]; revert H; apply IHd.
Qed.

Lemma str_underscore_free z : underscore_free (str z).
Proof.
  unfold str, NilZero.string_of_int.
  assert (U : forall u, underscore_free (NilZero.string_of_uint u)).
  { intros u. destruct u; try apply digits_underscore_free.
    intros a b. destruct a as [|x [|y a]]; simpl; discriminate. }
  destruct (Z.to_int z) as [u|u]; [apply U|].
  intros a b. destruct a as [|x a]; simpl; [discriminate|].
  intros [= _ H]. revert H. apply U.
Qed.

Lemma str_inj z z' : str z = str z' -> z = z'.
Proof.
  unfold str. intros H. apply DecimalZ.to_int_inj.
  assert (P : forall n, NilZero.int_of_string
                          (NilZero.string_of_int (Z.to_int n))
                        = Some (Z.to_int n)).
  { intros n. apply NilZero.isi; destruct n; simpl; try discriminate;
      intros [= E]; revert E; apply DecimalPos.Unsigned.to_uint_nonnil. }
  pose proof (P z) as Pz. rewrite H, P in Pz. congruence.
Qed.

(** The part after the last underscore determines the rest. *)
Lemma split_at_last_underscore b b' : forall x x',
  underscore_free b -> underscore_free b' ->
  x ++ String "_"%char b = x' ++ String "_"%char b' -> x = x' /\ b = b'.
Proof.
  induction x as [|c x IH]; intros x' Hb Hb' E; destruct x' as [|c' x'];
    simpl in E.
  - injection E as E. auto.
  - injection E as _ E. exfalso. exact (Hb _ _ E).
  - injection E as _ E. exfalso. symmetry in E. exact (Hb' _ _ E).
  - injection E as -> E. destruct (IH x' Hb Hb' E) as [-> ->]. auto.
Qed.

(** Cache keys do not collide: two calls get the same key only when
    they agree on the anomaly type, the feature count and the data
    size, whatever characters the anomaly type holds. *)
Theorem cache_key_injective :
  forall ty fc ds ty' fc' ds',
    _generate_cache_key ty fc ds = _generate_cache_key ty' fc' ds' ->
    ty = ty' /\ fc = fc' /\ ds = ds'.
Proof.
  intros ty fc ds ty' fc' ds' E. unfold _generate_cache_key in E.
  change (ty ++ String "_"%char (str fc ++ String "_"%char (str ds))
          = ty' ++ String "_"%char (str fc' ++ String "_"%char (str ds'))) in E.
  assert (A : forall a b c, a ++ String "_"%char (b ++ String "_"%char c)
                            = (a ++ String "_"%char b) ++ String "_"%char c).
  { intros a b c. rewrite append_assoc_str. reflexivity. }
  rewrite !A in E.
  apply split_at_last_underscore in E as [E1 E2];
    try apply str_underscore_free.
  apply split_at_last_underscore in E1 as [E0 E1];
    try apply str_underscore_free.
  apply str_inj in E1, E2. auto.
Qed.

Lemma cache_key_injective_witness :
  "a_1"%string = "a_1"%string /\ 2%Z = 2%Z /\ 3%Z = 3%Z.
Proof.
  apply (cache_key_injective "a_1" 2 3 "a_1" 2 3). reflexivity.
Defined.
End CacheKeys.

(* ================================================================== *)
(** * AnomalyDetector: the cache helpers *)
(* ================================================================== *)

Section DetectorCache.
Import py detector_object samples.
Import detector_cache.
Local Open Scope Z_scope.

Lemma get_live_after_set c ty fc ds m n1 n2 n3 now1 now2 :
  now1 <= n2 + timedelta_minutes (model_cache.ttl_minutes c) ->
  snd (model_cache.get (model_cache.set c ty fc ds m n1 n2 n3)
         ty fc ds now1 now2) = Some m.
Proof.
  intros Hlive.
  set (s := model_cache.mkSet ty fc ds m n1 n2 n3).
  change (model_cache.set c ty fc ds m n1 n2 n3) with (model_cache.do_set c s).
  unfold model_cache.get.
  change (model_cache._generate_cache_key ty fc ds) with (model_cache.s_key s).
  rewrite lookup_after_set. simpl.
  assert (E : (now1 >? n2 + timedelta_minutes (model_cache.ttl_minutes c))
              = false).
  { rewrite Z.gtb_ltb. apply Z.ltb_ge. exact Hlive. }
  now rewrite E.
Qed.

(** With caching disabled the two helpers neither store nor find
    anything and leave the cache as it is.  With caching enabled, a
    detector stored for an anomaly type and a list of feature columns
    is found again, until it expires, under the same anomaly type and
    any list of feature columns of the same length: the key holds the
    number of columns, not their names, and the constant data size 1. *)
Theorem detector_cache_helpers :
  (forall self cache ty cols n1 n2 n3 now1 now2,
     cache_enabled self = false ->
     _cache_detector self cache ty cols n1 n2 n3 = cache /\
     _get_cached_detector self cache ty cols now1 now2 = (cache, None))
  /\
  (forall self other cache ty cols cols' n1 n2 n3 now1 now2,
     cache_enabled self = true ->
     cache_enabled other = true ->
     List.length cols' = List.length cols ->
     now1 <= n2 + timedelta_minutes (model_cache.ttl_minutes cache) ->
     snd (_get_cached_detector other
            (_cache_detector self cache ty cols n1 n2 n3)
            ty cols' now1 now2) = Some self).
Proof.
  split.
  - intros self cache ty cols n1 n2 n3 now1 now2 Hoff.
    unfold _cache_detector, _get_cached_detector. rewrite Hoff. auto.
  - intros self other cache ty cols cols' n1 n2 n3 now1 now2 Hon Hon' Hlen Hlive.
    unfold _cache_detector, _get_cached_detector. rewrite Hon, Hon', Hlen.
    simpl. now apply get_live_after_set.
Qed.

Lemma detector_cache_helpers_witness :
  snd (_get_cached_detector a_detector
         (_cache_detector a_detector (model_cache.init 60 10) "network"
            ["bandwidth_usage"; "latency"]%string 0 0 0)
         "network" ["errors"; "discards"]%string 100 100)
  = Some a_detector.
Proof.
  apply (proj2 detector_cache_helpers a_detector a_detector
           (model_cache.init 60 10) "network"%string
           ["bandwidth_usage"; "latency"]%string
           ["errors"; "discards"]%string 0 0 0 100 100);
    try reflexivity.
  vm_compute. discriminate.
Defined.
End DetectorCache.

(* ================================================================== *)
(** * AnomalyDetector: the prepared matrix and the reported anomalies *)
(* ================================================================== *)

Section DetectorOutput.
Import py libs anomaly_detector spec samples runs.

Lemma numeric_columns_length df cols :
  (List.length (numeric_columns df cols) <= List.length cols)%nat.
Proof.
  induction cols as [|c r IH]; simpl; [lia|].
  destruct (get_column df c) as [s|]; [destruct (is_numeric (s_dtype s))|];
    simpl; lia.
Qed.

Lemma select_to_numpy_width df cs row :
  In row (select_to_numpy df cs) -> List.length row = List.length cs.
Proof.
  unfold select_to_numpy. intros H. apply in_map_iff in H as (i & <- & _).
  apply length_map.
Qed.

Lemma prepare_data_matrix data cols X df :
  _prepare_data data cols = Return (X, df) ->
  exists cs, cs <> [] /\ (List.length cs <= List.length cols)%nat /\
             X = select_to_numpy df cs.
Proof.
  unfold _prepare_data. destruct (pl_DataFrame data) as [df0|e]; simpl;
    [|discriminate].
  pose proof (numeric_columns_length df0 cols) as Hlen.
  destruct (numeric_columns df0 cols) as [|s cs] eqn:E; [discriminate|].
  intros [= <- <-]. exists (s :: cs). repeat split; [discriminate | exact Hlen].
Qed.

Lemma numeric_columns_nth df cols : forall j col,
  nth_error
    (filter (fun col => match get_column df col with
                        | Some s => is_numeric (s_dtype s)
                        | None => false
                        end) cols) j = Some col ->
  exists s, nth_error (numeric_columns df cols) j = Some s /\
            get_column df col = Some s.
Proof.
  induction cols as [|c r IH]; intros j col; simpl.
  - destruct j; discriminate.
  - destruct (get_column df c) as [s|] eqn:G; [|apply IH].
    destruct (is_numeric (s_dtype s)); [|apply IH].
    destruct j as [|j]; simpl.
    + intros [= <-]. exists s. auto.
    + apply IH.
Qed.

Lemma numeric_columns_count df cols :
  List.length (numeric_columns df cols) =
  List.length
    (filter (fun col => match get_column df col with
                        | Some s => is_numeric (s_dtype s)
                        | None => false
                        end) cols).
Proof.
  induction cols as [|c r IH]; simpl; [reflexivity|].
  destruct (get_column df c) as [s|]; [|exact IH].
  destruct (is_numeric (s_dtype s)); simpl; now rewrite IH.
Qed.

Lemma select_to_numpy_cell df cs i j s :
  (i < height df)%nat -> nth_error cs j = Some s ->
  nth j (nth i (select_to_numpy df cs) []) 0 =
  to_numpy_cast cs (to_float (nth i (s_values s) PyNone)).
Proof.
  intros Hi Hj. unfold select_to_numpy.
  set (row := fun i => map (fun s => to_numpy_cast cs
                                       (to_float (nth i (s_values s) PyNone)))
                           cs).
  rewrite (nth_indep _ [] (row O))
    by (rewrite length_map, length_seq; exact Hi).
  rewrite (map_nth row (seq 0 (height df)) O i).
  rewrite seq_nth by exact Hi. simpl. unfold row.
  generalize (to_numpy_cast cs). intros cast.
  apply nth_error_split in Hj as (l1 & l2 & -> & <-).
  rewrite map_app. simpl.
  rewrite app_nth2; rewrite length_map; [|lia].
  now rewrite Nat.sub_diag.
Qed.

Lemma numeric_columns_float df cols :
  existsb (fun s => is_float (s_dtype s)) (numeric_columns df cols) =
  existsb (fun col => match get_column df col with
                      | Some s => is_float (s_dtype s)
                      | None => false
                      end)
          (filter (fun col => match get_column df col with
                              | Some s => is_numeric (s_dtype s)
                              | None => false
                              end) cols).
Proof.
  induction cols as [|c r IH]; simpl; [reflexivity|].
  destruct (get_column df c) as [s|] eqn:G; [|exact IH].
  destruct (is_numeric (s_dtype s)); [|exact IH].
  simpl. now rewrite G, IH.
Qed.

(** What [_prepare_data] does with the frame polars built.  The
    columns it keeps are the declared feature columns, in the declared
    order, that are columns of the frame with dtype Float64, Float32,
    Int64 or Int32.  When there is none it raises the [ValueError];
    otherwise it returns the frame and a matrix with one row per row of
    the frame and one column per kept column, whose cell is the value
    of that column in that row, a null read as 0, converted to float64
    when one of the kept columns is a float column.  (The declared
    columns are without repetition, as [select] demands.) *)
Theorem prepared_matrix_shape :
  forall data cols df,
    NoDup cols ->
    pl_DataFrame data = Return df ->
    let dtype_in (test : DType -> bool) col :=
      match get_column df col with
      | Some s => test (s_dtype s)
      | None => false
      end in
    let kept :=
      filter (dtype_in (fun d => match d with
                                 | Float64 | Float32 | Int64 | Int32 => true
                                 | _ => false
                                 end)) cols in
    let floats :=
      existsb (dtype_in (fun d => match d with
                                  | Float64 | Float32 => true
                                  | _ => false
                                  end)) kept in
    (kept = [] ->
     _prepare_data data cols =
     Raise (ValueError "No numeric columns found in the data")) /\
    (kept <> [] ->
     exists X,
       _prepare_data data cols = Return (X, df) /\
       List.length X = height df /\
       (forall row, In row X -> List.length row = List.length kept) /\
       (forall i j col,
          (i < height df)%nat -> nth_error kept j = Some col ->
          exists s,
            get_column df col = Some s /\
            let v := to_float (nth i (s_values s) PyNone) in
            nth j (nth i X []) 0 = if floats then binary64 v else v)).
Proof.
  intros data cols df _ Hdf dtype_in kept floats.
  assert (Hkept : kept = filter (fun col => match get_column df col with
                                            | Some s => is_numeric (s_dtype s)
                                            | None => false
                                            end) cols).
  { unfold kept. apply filter_ext. intros col. unfold dtype_in.
    destruct (get_column df col) as [s|]; [destruct (s_dtype s)|];
      reflexivity. }
  assert (Hfloats : floats = existsb (fun s => is_float (s_dtype s))
                                     (numeric_columns df cols)).
  { rewrite numeric_columns_float, <- Hkept. unfold floats.
    reflexivity. }
  pose proof (numeric_columns_count df cols) as Hcount.
  rewrite <- Hkept in Hcount.
  unfold _prepare_data. rewrite Hdf. cbn [bind]. split.
  - intros E. rewrite E in Hcount.
    destruct (numeric_columns df cols); [reflexivity | discriminate].
  - intros Hne.
    destruct (numeric_columns df cols) as [|s0 cs] eqn:Ec.
    { destruct kept; [congruence | discriminate]. }
    eexists. split; [reflexivity|].
    split; [apply length_select_to_numpy|]. split.
    + intros row Hrow. rewrite (select_to_numpy_width _ _ _ Hrow).
      exact Hcount.
    + intros i j col Hi Hj. rewrite Hkept in Hj.
      apply numeric_columns_nth in Hj as (s & Hs & Hg).
      exists s. split; [exact Hg|]. rewrite Ec in Hs. cbv zeta.
      rewrite (select_to_numpy_cell _ _ _ _ _ Hi Hs).
      unfold to_numpy_cast. rewrite <- Hfloats.
      destruct floats; reflexivity.
Qed.

Lemma prepared_matrix_shape_witness :
  exists X df,
    _prepare_data ten_records network_columns = Return (X, df) /\
    List.length X = 10%nat /\
    forall row, In row X -> List.length row = 1%nat.
Proof.
  destruct (pl_DataFrame ten_records) as [df|e] eqn:Hdf;
    [|vm_compute in Hdf; discriminate].
  assert (Hh : height df = 10%nat)
    by (vm_compute in Hdf; injection Hdf as <-; reflexivity).
  assert (Hk : filter (fun col =>
                         match get_column df col with
                         | Some s => match s_dtype s with
                                     | Float64 | Float32 | Int64 | Int32 => true
                                     | _ => false
                                     end
                         | None => false
                         end) network_columns = ["latency"%string])
    by (vm_compute in Hdf; injection Hdf as <-; reflexivity).
  destruct (prepared_matrix_shape ten_records network_columns df) as [_ H].
  - repeat constructor; simpl; intuition discriminate.
  - exact Hdf.
  - destruct H as (X & HX & Hlen & Hrow & _).
    + rewrite Hk. discriminate.
    + exists X, df. split; [exact HX|]. split; [now rewrite Hlen|].
      intros row Hr. rewrite (Hrow row Hr), Hk. reflexivity.
Defined.

Lemma affected_from_declared names X : forall sample idx n,
  (idx + List.length sample <= List.length names)%nat ->
  In n (affected_from idx sample X names) -> In n names.
Proof.
  induction sample as [|v r IH]; intros idx n Hlen; simpl; [tauto|].
  simpl in Hlen.
  destruct (deviates v (column_of X idx)); simpl.
  - intros [<-|H]; [apply nth_In; lia | apply (IH (S idx)); [lia | exact H]].
  - apply IH. lia.
Qed.

Lemma affected_metrics_nonempty_declared sample all_samples feature_names :
  feature_names <> [] ->
  _identify_affected_metrics sample all_samples feature_names <> [] /\
  ((List.length sample <= List.length feature_names)%nat ->
   forall n,
     In n (_identify_affected_metrics sample all_samples feature_names) ->
     In n feature_names).
Proof.
  intros Hne. unfold _identify_affected_metrics.
  destruct (affected_from 0 sample all_samples feature_names) as [|a r] eqn:E.
  - split.
    + destruct feature_names; [congruence | discriminate].
    + intros _ n Hn. destruct feature_names as [|f fs]; [congruence|].
      simpl in Hn. destruct Hn as [<-|[]]. now left.
  - split; [discriminate|]. intros Hlen n Hn. rewrite <- E in Hn.
    eapply affected_from_declared; [|exact Hn]. simpl. exact Hlen.
Qed.

(** [_identify_affected_metrics] never returns an empty list when
    there is a feature name at all (it falls back to the first name),
    and for a sample no longer than the list of names every name it
    returns is one of them. *)
Theorem affected_metrics_never_empty :
  forall sample all_samples feature_names,
    feature_names <> [] ->
    _identify_affected_metrics sample all_samples feature_names <> [] /\
    ((List.length sample <= List.length feature_names)%nat ->
     forall n,
       In n (_identify_affected_metrics sample all_samples feature_names) ->
       In n feature_names).
Proof.
  intros sample X names. apply affected_metrics_nonempty_declared.
Qed.

Lemma affected_metrics_never_empty_witness :
  _identify_affected_metrics [100; 5]%Q [[100; 5]; [1; 5]; [2; 5]]%Q
    network_columns <> [].
Proof.
  apply (affected_metrics_never_empty [100; 5]%Q
           [[100; 5]; [1; 5]; [2; 5]]%Q network_columns).
  discriminate.
Defined.

(** ** The anomalies a detection returns *)

Lemma or_default_nonempty l d : or_default l d <> [].
Proof. destruct l; discriminate. Qed.

Lemma or_default_keeps l d x : In x l -> In x (or_default l d).
Proof. destruct l; [contradiction | auto]. Qed.

Lemma detect_returns sk cols recommend data sensitivity clock l :
  detect sk cols recommend data sensitivity clock = Return l ->
  l = [] \/
  exists X df preds scores,
    _prepare_data data cols = Return (X, df) /\
    l = collect sk recommend cols data X scores clock 0 preds scores.
Proof.
  unfold detect.
  destruct (_prepare_data data cols) as [[X df]|e]; simpl; [|discriminate].
  destruct (List.length X <? 10)%nat; [intros [= <-]; now left|].
  destruct (StandardScaler_fit_transform sk X) as [Xs|e]; simpl;
    [|discriminate].
  destruct (IsolationForest_fit_predict sk (1 - sensitivity) 42 100 Xs)
    as [preds|e]; simpl; [|discriminate].
  destruct (IsolationForest_score_samples sk (1 - sensitivity) 42 100 Xs Xs)
    as [scores|e]; simpl; [|discriminate].
  intros [= <-]. right. exists X, df, preds, scores. auto.
Qed.

Lemma collect_indices sk recommend cols data X all clock :
  forall preds scores idx a,
    In a (collect sk recommend cols data X all clock idx preds scores) ->
    (idx <= index a)%nat.
Proof.
  induction preds as [|p preds IH]; intros scores idx a; simpl; [tauto|].
  destruct scores as [|s scores]; [simpl; tauto|].
  destruct (p =? -1)%Z; simpl.
  - intros [<-|H]; simpl; [lia|]. apply IH in H. lia.
  - intros H. apply IH in H. lia.
Qed.

Lemma collect_sorted sk recommend cols data X all clock :
  forall preds scores idx,
    Sorted.StronglySorted lt
      (map index
         (collect sk recommend cols data X all clock idx preds scores)).
Proof.
  induction preds as [|p preds IH]; intros scores idx; simpl; [constructor|].
  destruct scores as [|s scores]; [constructor|].
  destruct (p =? -1)%Z; simpl; [|apply IH].
  constructor; [apply IH|].
  apply Forall_forall. intros i Hi. apply in_map_iff in Hi as (a & <- & Ha).
  apply collect_indices in Ha. lia.
Qed.

Lemma collect_wellformed sk recommend cols data X all clock :
  forall preds scores idx a,
    In a (collect sk recommend cols data X all clock idx preds scores) ->
    anomaly_detected a = true /\
    (0 <= anomaly_score a)%Q /\
    affected_metrics a
      = _identify_affected_metrics (nth (index a) X []) X cols /\
    recommendations a = recommend (affected_metrics a) (severity a) /\
    exists score, In score scores /\
                  anomaly_score a = Qabs score /\
                  severity a = _calculate_severity sk score all.
Proof.
  induction preds as [|p preds IH]; intros scores idx a; simpl; [tauto|].
  destruct scores as [|s scores]; [simpl; tauto|].
  assert (Hrest : In a (collect sk recommend cols data X all clock (S idx)
                          preds scores) ->
                  anomaly_detected a = true /\
                  (0 <= anomaly_score a)%Q /\
                  affected_metrics a
                    = _identify_affected_metrics (nth (index a) X []) X cols /\
                  recommendations a
                    = recommend (affected_metrics a) (severity a) /\
                  exists score, In score (s :: scores) /\
                                anomaly_score a = Qabs score /\
                                severity a
                                = _calculate_severity sk score all).
  { intros H. destruct (IH scores (S idx) a H) as (H1 & H2 & H3 & H4 & sc & H5 & H6).
    repeat split; auto. exists sc. split; [now right | exact H6]. }
  destruct (p =? -1)%Z; simpl; [|exact Hrest].
  intros [<-|H]; [|now apply Hrest]. simpl.
  repeat split; auto; [apply Qabs_nonneg|].
  exists s. repeat split. now left.
Qed.

(** Whatever scikit-learn answers, the anomalies a detection operation
    returns are well formed: they come in strictly increasing row
    order, each has [anomaly_detected = True], a non-negative
    [anomaly_score], at least one affected metric, all of them declared
    feature columns of the operation, and at least one recommendation;
    an anomaly labelled critical or high carries the escalation
    sentence of its operation. *)
Theorem reported_anomalies_wellformed :
  forall sk data sensitivity clock,
    let ok cols escalation (r : Exc (list Anomaly)) :=
      forall l, r = Return l ->
        Sorted.StronglySorted lt (map index l) /\
        forall a, In a l ->
          anomaly_detected a = true /\
          (0 <= anomaly_score a)%Q /\
          affected_metrics a <> [] /\
          (forall m, In m (affected_metrics a) -> In m cols) /\
          recommendations a <> [] /\
          (urgent (severity a) = true -> In escalation (recommendations a)) in
    ok network_columns
       "Immediate investigation recommended - potential service impact"%string
       (detect_network_anomalies sk data sensitivity clock) /\
    ok site_columns
       "Critical issue detected - immediate action required"%string
       (detect_site_anomalies sk data sensitivity clock) /\
    ok link_columns
       "High-priority link issue - potential connectivity impact"%string
       (detect_link_anomalies sk data sensitivity clock).
Proof.
  intros sk data sensitivity clock ok.
  assert (G : forall cols recommend escalation,
             cols <> [] ->
             (forall am sev, recommend am sev <> []) ->
             (forall am sev, urgent sev = true ->
                             In escalation (recommend am sev)) ->
             ok cols escalation
                (detect sk cols recommend data sensitivity clock)).
  { intros cols recommend escalation Hcols Hrec Hesc l Hl.
    apply detect_returns in Hl as [->|(X & df & preds & scores & Hp & ->)].
    { split; [constructor | intros a []]. }
    split; [apply collect_sorted|]. intros a Ha.
    destruct (collect_wellformed _ _ _ _ _ _ _ _ _ _ _ Ha)
      as (Hd & Hs & Haff & Hr & _).
    destruct (prepare_data_matrix _ _ _ _ Hp) as (cs & _ & Hle & ->).
    assert (Hw : (List.length (nth (index a) (select_to_numpy df cs) [])
                  <= List.length cols)%nat).
    { destruct (nth_in_or_default (index a) (select_to_numpy df cs) [])
        as [Hin|E].
      - rewrite (select_to_numpy_width _ _ _ Hin). exact Hle.
      - rewrite E. simpl. lia. }
    destruct (affected_metrics_nonempty_declared
                (nth (index a) (select_to_numpy df cs) [])
                (select_to_numpy df cs) cols Hcols) as [Hne Hdecl].
    rewrite Haff, Hr.
    repeat split; auto. }
  split; [|split]; apply G; try discriminate.
  - intros am sev. apply or_default_nonempty.
  - intros am sev Hu. apply or_default_keeps. rewrite !in_app_iff.
    do 5 right. rewrite Hu. now left.
  - intros am sev. apply or_default_nonempty.
  - intros am sev Hu. apply or_default_keeps. rewrite !in_app_iff.
    do 5 right. rewrite Hu. now left.
  - intros am sev. apply or_default_nonempty.
  - intros am sev Hu. apply or_default_keeps. rewrite !in_app_iff.
    do 4 right. rewrite Hu. now left.
Qed.
End DetectorOutput.

Section DetectorEdges.
Import py libs anomaly_detector spec samples runs endpoints.

Lemma reported_anomalies_wellformed_witness :
  exists l,
    detect_network_anomalies sk_first_row ten_records (95 # 100) clock0
      = Return l /\
    l <> [] /\
    forall a, In a l -> recommendations a <> [].
Proof.
  eexists. split; [vm_compute; reflexivity|]. split; [discriminate|].
  intros a Ha.
  destruct (reported_anomalies_wellformed sk_first_row ten_records
              (95 # 100) clock0) as (Hnet & _ & _).
  destruct (Hnet _ eq_refl) as [_ Hall].
  now destruct (Hall a Ha) as (_ & _ & _ & _ & Hrec & _).
Defined.

Lemma add_names_incl ks : forall seen c,
  In c (add_names seen ks) -> In c seen \/ In c ks.
Proof.
  induction ks as [|k r IH]; intros seen c; simpl; [tauto|].
  destruct (existsb (String.eqb k) seen).
  - intros H. apply IH in H. tauto.
  - intros H. apply IH in H. rewrite in_app_iff in H. simpl in H. tauto.
Qed.

Lemma column_names_incl data c :
  In c (column_names data) -> exists r, In r data /\ In c (keys r).
Proof.
  unfold column_names.
  assert (H : forall (rows : list Record_) seen,
             In c (fold_left (fun seen r => add_names seen (keys r)) rows seen) ->
             In c seen \/ exists r, In r rows /\ In c (keys r)).
  { induction rows as [|r0 rest IH]; intros seen; simpl; [tauto|].
    intros Hc. apply IH in Hc as [Hc|(r & Hr & Hk)].
    - apply add_names_incl in Hc as [Hc|Hc]; [tauto|].
      right. exists r0. tauto.
    - right. exists r. tauto. }
  intros Hc. apply H in Hc as [[]|(r & Hr & Hk)].
  exists r. split; [|exact Hk].
  rewrite <- (firstn_skipn infer_schema_length data).
  apply in_or_app. now left.
Qed.

Lemma build_columns_names data : forall names cs,
  build_columns names data = Return cs -> map s_name cs = names.
Proof.
  induction names as [|n r IH]; intros cs; cbn [build_columns bind].
  - intros [= <-]. reflexivity.
  - destruct (infer_dtype Null _); [|discriminate].
    destruct (forallb _ _); [|discriminate].
    destruct (build_columns r data) as [cs'|e]; cbn [bind]; [|discriminate].
    intros [= <-]. simpl. now rewrite (IH cs').
Qed.

Lemma get_column_absent df c :
  ~ In c (map s_name (columns df)) -> get_column df c = None.
Proof.
  unfold get_column. induction (columns df) as [|s r IH]; simpl; [reflexivity|].
  intros H. destruct (String.eqb_spec c (s_name s)) as [->|Hne].
  - exfalso. apply H. now left.
  - apply IH. tauto.
Qed.

Lemma numeric_columns_absent df cols :
  (forall c, In c cols -> ~ In c (map s_name (columns df))) ->
  numeric_columns df cols = [].
Proof.
  induction cols as [|c r IH]; intros H; simpl; [reflexivity|].
  rewrite get_column_absent by (apply H; now left).
  apply IH. intros c' Hc'. apply H. now right.
Qed.

Lemma prepare_data_without_columns data cols :
  (forall r c, In r data -> In c cols -> lookup String.eqb c r = None) ->
  match pl_DataFrame data with
  | Return _ =>
      _prepare_data data cols =
      Raise (ValueError "No numeric columns found in the data")
  | Raise e => _prepare_data data cols = Raise e
  end.
Proof.
  intros Hmiss. unfold _prepare_data.
  destruct (pl_DataFrame data) as [df|e] eqn:E; simpl; [|reflexivity].
  rewrite numeric_columns_absent; [reflexivity|].
  intros c Hc Hin. unfold pl_DataFrame in E.
  destruct (build_columns (column_names data) data) as [cs|e] eqn:B;
    simpl in E; [|discriminate].
  injection E as <-. simpl in Hin.
  rewrite (build_columns_names _ _ _ B) in Hin.
  apply column_names_incl in Hin as (r & Hr & Hk).
  specialize (Hmiss r c Hr Hc). apply lookup_None_iff in Hmiss. contradiction.
Qed.

(** Records that hold none of the declared feature columns are an
    error, not an empty result: when no record has any of the
    operation's columns as a key (in particular for an empty batch),
    each detection operation raises the [ValueError] ["No numeric
    columns found in the data"], or the error polars raised while
    building the frame; scikit-learn is not reached. *)
Theorem records_without_feature_columns_raise :
  forall sk data sensitivity clock,
    let missing cols :=
      forall r c, In r data -> In c cols -> lookup String.eqb c r = None in
    let failed (r : Exc (list Anomaly)) :=
      match pl_DataFrame data with
      | Return _ =>
          r = Raise (ValueError "No numeric columns found in the data")
      | Raise e => r = Raise e
      end in
    (missing network_columns ->
     failed (detect_network_anomalies sk data sensitivity clock)) /\
    (missing site_columns ->
     failed (detect_site_anomalies sk data sensitivity clock)) /\
    (missing link_columns ->
     failed (detect_link_anomalies sk data sensitivity clock)).
Proof.
  intros sk data sensitivity clock missing failed.
  assert (G : forall cols recommend,
             missing cols ->
             failed (detect sk cols recommend data sensitivity clock)).
  { intros cols recommend Hm. unfold failed.
    pose proof (prepare_data_without_columns data cols Hm) as P.
    destruct (pl_DataFrame data); apply detect_unprepared; exact P. }
  repeat split; apply G.
Qed.

Lemma records_without_feature_columns_raise_witness :
  detect_network_anomalies sk_unreached foreign_records (95 # 100) clock0
  = Raise (ValueError "No numeric columns found in the data") /\
  detect_network_anomalies sk_unreached [] (95 # 100) clock0
  = Raise (ValueError "No numeric columns found in the data").
Proof.
  split.
  - apply (proj1 (records_without_feature_columns_raise sk_unreached
                    foreign_records (95 # 100) clock0)).
    intros r c Hr Hc. simpl in Hr, Hc.
    repeat (destruct Hr as [<-|Hr]; [repeat (destruct Hc as [<-|Hc];
              [reflexivity|]); contradiction|]). contradiction.
  - apply (proj1 (records_without_feature_columns_raise sk_unreached
                    [] (95 # 100) clock0)).
    intros r c [].
Defined.

(** ** The status of a detection response *)

Lemma urgent_flag_app (f : Anomaly -> bool) r1 r2 :
  existsb f r1 = true -> existsb f (r1 ++ r2) = true.
Proof. intros H. rewrite existsb_app, H. reflexivity. Qed.

(** The status the endpoint derives from the results is ["healthy"]
    exactly when there is no result and ["critical"] exactly when some
    result is labelled critical or high; further results never lower
    it in healthy < anomalies_detected < warning < critical; and a
    batch of fewer than 10 records, when it is accepted, is reported
    healthy. *)
Theorem overall_status_reflects_results :
  (forall results, overall_status results = "healthy"%string <-> results = [])
  /\
  (forall results,
     overall_status results = "critical"%string <->
     exists a, In a results /\ urgent (severity a) = true)
  /\
  (forall r1 r2,
     (status_rank (overall_status r1)
      <= status_rank (overall_status (r1 ++ r2)))%nat)
  /\
  (forall sk data sensitivity clock l,
     (List.length data < 10)%nat ->
     detect_network_anomalies sk data sensitivity clock = Return l \/
     detect_site_anomalies sk data sensitivity clock = Return l \/
     detect_link_anomalies sk data sensitivity clock = Return l ->
     overall_status l = "healthy"%string).
Proof.
  pose (fu := fun r : Anomaly =>
                match severity r with critical | high => true | _ => false end).
  pose (fm := fun r : Anomaly =>
                match severity r with medium => true | _ => false end).
  assert (U : forall results,
             overall_status results =
             if existsb fu results then "critical"%string
             else if existsb fm results then "warning"%string
             else match results with
                  | [] => "healthy"%string
                  | _ => "anomalies_detected"%string
                  end) by reflexivity.
  split; [|split; [|split]].
  - intros results. rewrite U.
    destruct (existsb fu results) eqn:E1, (existsb fm results) eqn:E2,
      results; split; intros H; try reflexivity; try discriminate.
  - intros results. rewrite U. destruct (existsb fu results) eqn:E1.
    + split; [intros _ | reflexivity].
      apply existsb_exists in E1 as (a & Ha & Hu). exists a. split; [exact Ha|].
      unfold fu in Hu. unfold urgent. destruct (severity a); auto.
    + split.
      * destruct (existsb fm results); [discriminate|].
        destruct results; discriminate.
      * intros (a & Ha & Hu). exfalso.
        assert (T : existsb fu results = true).
        { apply existsb_exists. exists a. split; [exact Ha|].
          unfold fu. unfold urgent in Hu. destruct (severity a); auto. }
        congruence.
  - intros r1 r2. rewrite !U, !existsb_app.
    destruct (existsb fu r1), (existsb fu r2), (existsb fm r1),
      (existsb fm r2), r1, r2; simpl; unfold status_rank; simpl; lia.
  - intros sk data sensitivity clock l Hlen H.
    assert (G : forall cols recommend,
               detect sk cols recommend data sensitivity clock = Return l ->
               l = []).
    { intros cols recommend Hd.
      destruct (_prepare_data data cols) as [[X df]|e] eqn:P.
      - rewrite (detect_small sk cols recommend data sensitivity clock X df P)
          in Hd.
        + congruence.
        + rewrite (prepare_data_rows _ _ _ _ P). exact Hlen.
      - rewrite (detect_unprepared sk cols recommend data sensitivity clock e P)
          in Hd. discriminate. }
    assert (E : l = []) by (destruct H as [H|[H|H]]; eapply G; exact H).
    subst l. reflexivity.
Qed.

Lemma overall_status_reflects_results_witness :
  overall_status [] = "healthy"%string.
Proof.
  destruct overall_status_reflects_results as (_ & _ & _ & Hsmall).
  apply (Hsmall sk_unreached (five_records "latency") (95 # 100) clock0).
  - simpl. lia.
  - left. reflexivity.
Defined.
End DetectorEdges.

(* ================================================================== *)
(** * AnomalyDetector: severity against the reported score *)
(* ================================================================== *)

Section SeverityClaims.
Import py libs anomaly_detector samples runs.

(** C6.  The score an anomaly record reports is [abs(score)], and
    within one batch the label is monotonic in it: of two anomalies
    that one detection call returns, the one with the strictly higher
    [anomaly_score] never has the strictly lower label in
    low < medium < high < critical; the same holds of
    [_calculate_severity] for any two scores against one batch.  The
    labels are cut at the float products [p * 1.5] and [p * 0.5] and at
    [p], the 90th percentile numpy gives for the absolute scores of the
    batch.  The products are rounded: with [p] the float 0.1, [p * 1.5]
    is the float 0.15000000000000002, above the exact product, and a
    score equal to it is labelled high. *)
Theorem severity_monotone_in_absolute_score :
  (forall sk data sensitivity clock,
     let monotone (r : Exc (list Anomaly)) :=
       forall l a1 a2,
         r = Return l -> In a1 l -> In a2 l ->
         (anomaly_score a1 < anomaly_score a2)%Q ->
         (severity_rank (severity a1) <= severity_rank (severity a2))%nat in
     monotone (detect_network_anomalies sk data sensitivity clock) /\
     monotone (detect_site_anomalies sk data sensitivity clock) /\
     monotone (detect_link_anomalies sk data sensitivity clock))
  /\
  (forall sk all_scores s1 s2,
     (Qabs s1 < Qabs s2)%Q ->
     (severity_rank (_calculate_severity sk s1 all_scores)
      <= severity_rank (_calculate_severity sk s2 all_scores))%nat)
  /\
  (forall sk all_scores s p,
     np_percentile sk (map Qabs all_scores) 90 = Some p ->
     (_calculate_severity sk s all_scores = critical
        <-> (fmul p (3 # 2) < Qabs s)%Q) /\
     (_calculate_severity sk s all_scores = high
        <-> (Qabs s <= fmul p (3 # 2) /\ p < Qabs s)%Q) /\
     (_calculate_severity sk s all_scores = medium
        <-> (Qabs s <= fmul p (3 # 2) /\ Qabs s <= p
             /\ fmul p (1 # 2) < Qabs s)%Q) /\
     (_calculate_severity sk s all_scores = low
        <-> (Qabs s <= fmul p (3 # 2) /\ Qabs s <= p
             /\ Qabs s <= fmul p (1 # 2))%Q))
  /\
  ((float_0_1 * (3 # 2) < float_0_15_up)%Q /\
   (fmul float_0_1 (3 # 2) == float_0_15_up)%Q /\
   (fmul float_0_1 (1 # 2) == float_0_1 * (1 # 2))%Q /\
   forall all_scores,
     _calculate_severity sk_percentile_0_1 float_0_15_up all_scores = high).
Proof.
  split; [|split; [|split]].
  - intros sk data sensitivity clock monotone.
    assert (G : forall cols recommend,
               monotone (detect sk cols recommend data sensitivity clock)).
    { intros cols recommend l a1 a2 Hl H1 H2 Hlt.
      apply detect_returns in Hl as [->|(X & df & preds & scores & _ & ->)];
        [destruct H1|].
      destruct (collect_wellformed _ _ _ _ _ _ _ _ _ _ _ H1)
        as (_ & _ & _ & _ & s1 & _ & E1 & S1).
      destruct (collect_wellformed _ _ _ _ _ _ _ _ _ _ _ H2)
        as (_ & _ & _ & _ & s2 & _ & E2 & S2).
      rewrite S1, S2. apply severity_monotone_in_abs.
      now rewrite <- E1, <- E2. }
    repeat split; apply G.
  - intros sk all_scores s1 s2. apply severity_monotone_in_abs.
  - intros sk all_scores s p. apply severity_thresholds.
  - split; [reflexivity|]. split; [reflexivity|]. split; [reflexivity|].
    intros all_scores. reflexivity.
Qed.

Lemma severity_monotone_in_absolute_score_witness :
  (severity_rank (_calculate_severity sk_first_row (-(4 # 10)) ten_scores)
   <= severity_rank (_calculate_severity sk_first_row (-(8 # 10)) ten_scores))%nat
  /\
  _calculate_severity sk_first_row (-(8 # 10)) ten_scores = critical.
Proof.
  destruct severity_monotone_in_absolute_score as (_ & Habs & Hcut & _).
  split.
  - apply (Habs sk_first_row ten_scores (-(4 # 10)) (-(8 # 10))). reflexivity.
  - apply (proj2 (proj1 (Hcut sk_first_row ten_scores (-(8 # 10)) _
                           eq_refl))).
    reflexivity.
Defined.
End SeverityClaims.

(* ================================================================== *)
(** * CorrelationEngine: the bidirectional score and the link analysis *)
(* ================================================================== *)

Section LinkAnalysis.
Import py bcom_models correlation_engine spec samples.

Lemma filter_length_le {A} (f : A -> bool) l :
  (List.length (filter f l) <= List.length l)%nat.
Proof. induction l as [|x r IH]; simpl; [lia|]. destruct (f x); simpl; lia. Qed.

Lemma filter_length_all {A} (f : A -> bool) l :
  List.length (filter f l) = List.length l <->
  forall x, In x l -> f x = true.
Proof.
  induction l as [|x r IH]; simpl; [tauto|].
  pose proof (filter_length_le f r) as Hle.
  destruct (f x) eqn:E; simpl.
  - split.
    + intros H y [<-|Hy]; [exact E|]. apply IH; [lia | exact Hy].
    + intros H. f_equal. apply IH. intros y Hy. apply H. now right.
  - split; [lia|]. intros H. specialize (H x (or_introl eq_refl)). congruence.
Qed.

Lemma filter_length_none {A} (f : A -> bool) l :
  List.length (filter f l) = O <-> forall x, In x l -> f x = false.
Proof.
  induction l as [|x r IH]; simpl; [tauto|].
  destruct (f x) eqn:E; simpl.
  - split; [discriminate|]. intros H.
    specialize (H x (or_introl eq_refl)). congruence.
  - rewrite IH. split.
    + intros H y [<-|Hy]; auto.
    + intros H y Hy. apply H. now right.
Qed.

Lemma Qlen_pos {A} (l : list A) : l <> [] -> (0 < Qlen l)%Q.
Proof.
  intros H. unfold Qlen, len. rewrite <- (Zlt_Qlt 0).
  destruct l; [congruence | simpl; lia].
Qed.

Lemma Qlen_le {A B} (l : list A) (l' : list B) :
  (List.length l <= List.length l')%nat -> (Qlen l <= Qlen l')%Q.
Proof. intros H. unfold Qlen, len. rewrite <- Zle_Qle. lia. Qed.

Lemma Qlen_nonneg {A} (l : list A) : (0 <= Qlen l)%Q.
Proof. unfold Qlen, len. rewrite <- (Zle_Qle 0). lia. Qed.

Lemma Qlen_eq_iff {A B} (l : list A) (l' : list B) :
  (Qlen l == Qlen l')%Q <-> List.length l = List.length l'.
Proof.
  unfold Qlen, len. rewrite inject_Z_injective. lia.
Qed.

Lemma bidirectional_score_bounds grades :
  (0 <= _calculate_bidirectional_score grades <= 1)%Q.
Proof.
  unfold _calculate_bidirectional_score.
  destruct grades as [|g r] eqn:E; [split; discriminate|]. rewrite <- E.
  assert (Hn : (0 < Qlen grades)%Q) by (apply Qlen_pos; congruence).
  split.
  - apply Qle_shift_div_l; [exact Hn|]. rewrite Qmult_0_l. apply Qlen_nonneg.
  - apply Qle_shift_div_r; [exact Hn|]. rewrite Qmult_1_l.
    apply Qlen_le, filter_length_le.
Qed.

Lemma bidirectional_score_extremes grades :
  ((_calculate_bidirectional_score grades == 0)%Q <->
   forall g, In g grades -> both_degraded g = false) /\
  ((_calculate_bidirectional_score grades == 1)%Q <->
   grades <> [] /\ forall g, In g grades -> both_degraded g = true).
Proof.
  unfold _calculate_bidirectional_score.
  destruct grades as [|g0 r] eqn:E.
  - split.
    + split; [intros _ g [] | reflexivity].
    + split; [discriminate | intros [H _]; congruence].
  - rewrite <- E.
    assert (Hn : (0 < Qlen grades)%Q) by (apply Qlen_pos; congruence).
    assert (Hn0 : ~ (Qlen grades == 0)%Q)
      by (intros H; rewrite H in Hn; discriminate).
    set (k := Qlen (filter both_degraded grades)).
    assert (Hk : (Qlen grades * (k / Qlen grades) == k)%Q)
      by (apply Qmult_div_r; exact Hn0).
    split.
    + rewrite <- filter_length_none.
      change O with (@List.length SiteGrade []).
      rewrite <- (Qlen_eq_iff (filter both_degraded grades) (@nil SiteGrade)).
      fold k. change (Qlen (@nil SiteGrade)) with 0%Q.
      split; intros H.
      * rewrite <- Hk, H. apply Qmult_0_r.
      * rewrite H. unfold Qdiv. apply Qmult_0_l.
    + rewrite <- filter_length_all.
      rewrite <- (Qlen_eq_iff (filter both_degraded grades) grades). fold k.
      split.
      * intros H. split; [congruence|]. rewrite <- Hk, H. apply Qmult_1_r.
      * intros [_ H]. rewrite H. apply Qmult_inv_r. exact Hn0.
Qed.

(** [_calculate_bidirectional_score] is the share of records degraded
    in both directions: it lies between 0 and 1, it is 0 exactly when
    no record passes the test (in particular without records) and 1
    exactly when there are records and all of them pass. *)
Theorem bidirectional_score_is_a_share :
  forall grades,
    (0 <= _calculate_bidirectional_score grades <= 1)%Q /\
    ((_calculate_bidirectional_score grades == 0)%Q <->
     forall g, In g grades -> both_degraded g = false) /\
    ((_calculate_bidirectional_score grades == 1)%Q <->
     grades <> [] /\ forall g, In g grades -> both_degraded g = true).
Proof.
  intros grades. split; [apply bidirectional_score_bounds|].
  apply bidirectional_score_extremes.
Qed.

(** ** Ordering by timestamp keeps the records *)






End LinkAnalysis.

(* ================================================================== *)
(** * CorrelationEngine: what the pattern detectors emit *)
(* ================================================================== *)

Section PatternInvariants.
Import py bcom_models correlation_engine spec samples invariants.

Lemma In_dedup x l : In x (dedup l) <-> In x l.
Proof.
  induction l as [|y r IH]; simpl; [tauto|].
  rewrite filter_In, IH, negb_true_iff, Z.eqb_neq.
  destruct (Z.eq_dec y x); intuition congruence.
Qed.

Lemma NoDup_dedup l : NoDup (dedup l).
Proof.
  induction l as [|y r IH]; simpl; constructor.
  - rewrite filter_In, negb_true_iff, Z.eqb_neq. tauto.
  - now apply NoDup_filter.
Qed.

Lemma existsb_Zeqb x l : existsb (Z.eqb x) l = true <-> In x l.
Proof.
  rewrite existsb_exists. split.
  - intros (y & Hy & E). apply Z.eqb_eq in E. now subst y.
  - intros H. exists x. split; [exact H | apply Z.eqb_refl].
Qed.

(** [list(set(xs))] holds the elements of [xs], each once. *)
Lemma In_list_set x l : In x (list_set l) <-> In x l.
Proof.
  unfold list_set. rewrite in_app_iff, !filter_In, negb_true_iff.
  rewrite (existsb_Zeqb x (dedup l)), !(In_dedup x l).
  destruct (existsb (Z.eqb x) (dedup (table_keys (set_of l)))) eqn:E.
  - apply existsb_Zeqb in E.
    split; [intros [[_ H]|[_ H]]; [exact H | discriminate] | auto].
  - split; [intros [[_ H]|[H _]]; exact H | auto].
Qed.

Lemma NoDup_list_set l : NoDup (list_set l).
Proof.
  unfold list_set. apply NoDup_app.
  - apply NoDup_filter, NoDup_dedup.
  - apply NoDup_filter, NoDup_dedup.
  - intros x H1 H2. apply filter_In in H1 as [H1 _].
    apply filter_In in H2 as [_ H2]. apply negb_true_iff in H2.
    apply (proj2 (existsb_Zeqb _ _)) in H1. congruence.
Qed.

Lemma Qsum_bounds (a b : Q) l :
  (forall x, In x l -> a <= x <= b)%Q ->
  (a * Qlen l <= Qsum l <= b * Qlen l)%Q.
Proof.
  unfold Qlen, len. induction l as [|x r IH]; intros H.
  - simpl. change (inject_Z 0) with 0%Q. split; Lqa.lra.
  - destruct (IH (fun y Hy => H y (or_intror Hy))) as [IH1 IH2].
    destruct (H x (or_introl eq_refl)) as [Hx1 Hx2].
    simpl Qsum. simpl List.length. rewrite Nat2Z.inj_succ.
    unfold Z.succ. rewrite inject_Z_plus. change (inject_Z 1) with 1%Q.
    split; Lqa.nra.
Qed.

Lemma mean_bounds (a b : Q) l m :
  mean l = Return m ->
  (forall x, In x l -> a <= x <= b)%Q ->
  (a <= m <= b)%Q.
Proof.
  unfold mean. destruct l as [|x r] eqn:E; [discriminate|]. rewrite <- E.
  intros [= <-] H.
  assert (Hn : (0 < Qlen l)%Q) by (apply Qlen_pos; congruence).
  destruct (Qsum_bounds a b l H) as [H1 H2]. split.
  - apply Qle_shift_div_l; assumption.
  - apply Qle_shift_div_r; assumption.
Qed.

Lemma mean_or0_bounds (a b : Q) l :
  (a <= 0 <= b)%Q ->
  (forall x, In x l -> a <= x <= b)%Q ->
  (a <= mean_or0 l <= b)%Q.
Proof.
  intros H0 H. unfold mean_or0. destruct (mean l) as [m|e] eqn:E.
  - eapply mean_bounds; eassumption.
  - exact H0.
Qed.

Lemma In_setitem_Z {V} (k : Z) (v : V) d h x :
  In (h, x) (setitem Z.eqb k v d) -> (h = k /\ x = v) \/ In (h, x) d.
Proof.
  induction d as [|[k0 v0] r IH]; simpl.
  - intros [[= <- <-]|[]]. now left.
  - destruct (Z.eqb_spec k k0) as [->|Hne]; simpl.
    + intros [[= <- <-]|H]; auto.
    + intros [H|H]; [now right; left|].
      apply IH in H. tauto.
Qed.

Lemma bucket_add_ok source b l g :
  buckets_ok source b -> source l g -> buckets_ok source (bucket_add b l g).
Proof.
  intros [Hnd Hb] Hsrc. unfold bucket_add.
  set (k := replace_to_hour (timestamp g)).
  assert (Hnew : forall (es : list (Z * SiteGrade)),
             (forall l' g', In (l', g') es ->
                replace_to_hour (timestamp g') = k /\ source l' g') ->
             buckets_ok source (setitem Z.eqb k (es ++ [(l, g)]) b)).
  { intros es Hes. split; [apply (NoDup_setitem_gen Z.eqb Z.eqb_eq); exact Hnd|].
    intros h x Hin. apply In_setitem_Z in Hin as [[-> ->]|Hin]; [|now apply Hb].
    split; [destruct es; discriminate|].
    intros l' g' Hin. apply in_app_iff in Hin as [Hin|[[= <- <-]|[]]].
    - now apply Hes.
    - split; [reflexivity | exact Hsrc]. }
  destruct (lookup Z.eqb k b) as [entries|] eqn:El.
  - apply Hnew. intros l' g' Hin.
    apply (lookup_Some_In_gen Z.eqb Z.eqb_eq) in El.
    now apply (proj2 (Hb k entries El)).
  - apply (Hnew []). intros l' g' [].
Qed.

Lemma hourly_buckets_ok link_grades :
  buckets_ok (fun l g => exists gs, In (l, gs) link_grades /\ In g gs)
             (hourly_buckets link_grades).
Proof.
  unfold hourly_buckets.
  set (source := fun l g => exists gs, In (l, gs) link_grades /\ In g gs).
  assert (Inner : forall l gs b,
             (forall g, In g gs -> source l g) -> buckets_ok source b ->
             buckets_ok source (fold_left (fun b' g => bucket_add b' l g) gs b)).
  { intros l gs. induction gs as [|g r IH]; intros b Hs Hb; simpl; [exact Hb|].
    apply IH; [intros g' Hg'; apply Hs; now right|].
    apply bucket_add_ok; [exact Hb | apply Hs; now left]. }
  assert (Outer : forall lg b,
             (forall l gs, In (l, gs) lg -> In (l, gs) link_grades) ->
             buckets_ok source b ->
             buckets_ok source
               (fold_left
                  (fun b lg => fold_left (fun b' g => bucket_add b' (fst lg) g)
                                         (snd lg) b) lg b)).
  { induction lg as [|[l gs] r IH]; intros b Hsub Hb; simpl; [exact Hb|].
    apply IH; [intros l' gs' H; apply Hsub; now right|].
    apply Inner; [|exact Hb].
    intros g Hg. exists gs. split; [apply Hsub; now left | exact Hg]. }
  apply Outer; [auto|]. split; [constructor | intros h es []].
Qed.

Lemma temporal_loop_from rt network_id b p :
  In p (temporal_loop rt network_id b) ->
  exists h es, In (h, es) b /\ (2 <= List.length es)%nat /\
               temporal_pattern rt network_id h es = Return p.
Proof.
  induction b as [|[h es] r IH]; cbn [temporal_loop map keys In]; [tauto|].
  destruct (MIN_DEVICES_FOR_PATTERN <=? List.length es)%nat eqn:E.
  - destruct (temporal_pattern rt network_id h es) as [q|e] eqn:T;
      [|intros []].
    intros [<-|H].
    + exists h, es. apply Nat.leb_le in E. auto.
    + destruct (IH H) as (h' & es' & Hin & Hl & Ht). exists h', es'. auto.
  - intros H. destruct (IH H) as (h' & es' & Hin & Hl & Ht).
    exists h', es'. auto.
Qed.

Lemma temporal_loop_timestamps rt network_id b t :
  In t (map p_timestamp (temporal_loop rt network_id b)) -> In t (keys b).
Proof.
  induction b as [|[h es] r IH]; cbn [temporal_loop map keys In]; [tauto|].
  destruct (MIN_DEVICES_FOR_PATTERN <=? List.length es)%nat.
  - destruct (temporal_pattern rt network_id h es) as [q|e] eqn:T;
      [|intros []].
    simpl. intros [<-|H]; [left | right; now apply IH].
    unfold temporal_pattern in T.
    destruct (mean (map (fun e => grade (snd e)) es)); simpl in T;
      [|discriminate].
    now injection T as <-.
  - intros H. right. now apply IH.
Qed.

Lemma temporal_loop_distinct_hours rt network_id b :
  NoDup (keys b) -> NoDup (map p_timestamp (temporal_loop rt network_id b)).
Proof.
  induction b as [|[h es] r IH]; cbn [temporal_loop map keys]; intros Hnd;
    [constructor|].
  inversion Hnd as [|? ? Hnin Hnd']; subst.
  destruct (MIN_DEVICES_FOR_PATTERN <=? List.length es)%nat; [|now apply IH].
  destruct (temporal_pattern rt network_id h es) as [q|e] eqn:T;
    [|constructor].
  simpl. constructor; [|now apply IH].
  assert (p_timestamp q = h) as ->.
  { unfold temporal_pattern in T.
    destruct (mean (map (fun e => grade (snd e)) es)); simpl in T;
      [|discriminate].
    now injection T as <-. }
  intros H. apply Hnin. eapply temporal_loop_timestamps. exact H.
Qed.

Lemma replace_to_hour_boundary t : (replace_to_hour t mod 3600000000 = 0)%Z.
Proof.
  unfold replace_to_hour.
  rewrite Zminus_mod_idemp_r, Z.sub_diag. reflexivity.
Qed.

(** Every pattern of [_detect_temporal_correlation] stands for one
    hour: its timestamp is a full hour and no two patterns share it;
    its [affected_items] is a non-empty list without duplicates of
    links of the input dict, each with a grade record in that hour;
    the link counts equal the length of that list; its confidence lies
    between 0.2 and 0.95; and when the grades respect the table's
    range of 1 to 10 its severity lies between 0 and 0.9. *)
Theorem temporal_patterns_wellformed :
  forall rt link_grades network_id pattern_type_arg,
    let patterns :=
      _detect_temporal_correlation rt link_grades network_id pattern_type_arg in
    NoDup (map p_timestamp patterns) /\
    (forall p, In p patterns ->
       pattern_type p = "network_equipment_failure"%string /\
       (p_timestamp p mod 3600000000 = 0)%Z /\
       hours_duration p = 1%Z /\
       affected_items p <> [] /\
       NoDup (affected_items p) /\
       (forall l, In l (affected_items p) ->
          exists gs g, In (l, gs) link_grades /\ In g gs /\
                       replace_to_hour (timestamp g) = p_timestamp p) /\
       links_affected_count p = len (affected_items p) /\
       devices_affected_count p = len (affected_items p) /\
       (2 # 10 <= confidence p <= 95 # 100)%Q /\
       ((forall l gs g, In (l, gs) link_grades -> In g gs ->
           1 <= grade g <= 10)%Q ->
        (0 <= severity p <= 9 # 10)%Q)).
Proof.
  intros rt link_grades network_id pt patterns. subst patterns.
  unfold _detect_temporal_correlation.
  destruct (List.length link_grades <? MIN_DEVICES_FOR_PATTERN)%nat.
  { split; [constructor | intros p []]. }
  destruct (hourly_buckets_ok link_grades) as [Hnd Hb].
  split; [now apply temporal_loop_distinct_hours|].
  intros p Hp. apply temporal_loop_from in Hp as (h & es & Hin & Hlen & Ht).
  destruct (Hb h es Hin) as [Hne Hes].
  unfold temporal_pattern in Ht.
  destruct (mean (map (fun e => grade (snd e)) es)) as [m|e] eqn:Em;
    simpl in Ht; [|discriminate].
  injection Ht as <-. simpl.
  assert (Hitems : list_set (map fst es) <> []).
  { destruct es as [|[l g] r]; [congruence|]. intros E.
    assert (Hl : In l (list_set (map fst ((l, g) :: r))))
      by (apply In_list_set; left; reflexivity).
    rewrite E in Hl. destruct Hl. }
  assert (Hone : (1 <= Qlen (list_set (map fst es)))%Q).
  { unfold Qlen, len. rewrite <- (Zle_Qle 1).
    destruct (list_set (map fst es)); [congruence | simpl; lia]. }
  split; [reflexivity|]. split.
  { destruct es as [|[l g] r]; [congruence|].
    destruct (Hes l g (or_introl eq_refl)) as [<- _].
    apply replace_to_hour_boundary. }
  split; [reflexivity|]. split; [exact Hitems|].
  split; [apply NoDup_list_set|]. split.
  { intros l Hl. apply (proj1 (In_list_set _ _)) in Hl.
    apply in_map_iff in Hl as ([l' g] & <- & Hlg).
    destruct (Hes l' g Hlg) as [Hh (gs & Hgs & Hg)].
    exists gs, g. auto. }
  split; [reflexivity|]. split; [reflexivity|]. split.
  { split.
    - apply Q.min_glb; [discriminate|].
      set (n := Qlen (list_set (map fst es))) in *.
      setoid_replace (n / 10 * 2)%Q with (n * (2 # 10))%Q by field.
      Lqa.lra.
    - apply Q.le_min_l. }
  intros Hrange.
  assert (Hm : (1 <= m <= 10)%Q).
  { eapply mean_bounds; [exact Em|].
    intros x Hx. apply in_map_iff in Hx as ([l g] & <- & Hlg).
    destruct (Hes l g Hlg) as [_ (gs & Hgs & Hg)]. simpl.
    eapply Hrange; eassumption. }
  setoid_replace (m / 10)%Q with (m * (1 # 10))%Q by field.
  split; Lqa.lra.
Qed.

Lemma temporal_patterns_wellformed_witness :
  Forall (fun p => 0 <= severity p <= 9 # 10)%Q
    (_detect_temporal_correlation rt_plain three_links 7 "network_equipment").
Proof.
  apply Forall_forall. intros p Hp.
  destruct (temporal_patterns_wellformed rt_plain three_links 7
              "network_equipment"%string) as [_ H].
  destruct (H p Hp) as (_ & _ & _ & _ & _ & _ & _ & _ & _ & Hsev).
  apply Hsev. intros l gs g Hl Hg. simpl in Hl.
  destruct Hl as [[= <- <-]|[[= <- <-]|[[= <- <-]|[]]]];
    destruct Hg as [<-|[]]; split; discriminate.
Defined.
End PatternInvariants.

Section OtherDetectors.
Import py bcom_models correlation_engine spec samples invariants.


Lemma In_concat_values (dl : list (Z * list SiteGrade)) g :
  In g (List.concat (values dl)) -> exists l gs, In (l, gs) dl /\ In g gs.
Proof.
  unfold values. induction dl as [|[l gs] r IH]; simpl; [tauto|].
  rewrite in_app_iff. intros [H|H].
  - exists l, gs. auto.
  - destruct (IH H) as (l' & gs' & H1 & H2). exists l', gs'. auto.
Qed.



(** [_detect_satellite_patterns] emits nothing for fewer than two
    degraded links and exactly one [satellite_interference] pattern
    otherwise; the pattern lists every link of the dict, in dict order,
    with confidence 0.88; when the grades lie between 1 and 10 and the
    congestion values between 0 and 1 its severity lies between 0 and
    1. *)
Theorem satellite_pattern_wellformed :
  forall rt degraded_links satellite_name now,
    let patterns :=
      _detect_satellite_patterns rt degraded_links satellite_name now in
    ((List.length degraded_links < 2)%nat -> patterns = []) /\
    ((2 <= List.length degraded_links)%nat ->
     exists p,
       patterns = [p] /\
       pattern_type p = "satellite_interference"%string /\
       affected_items p = keys degraded_links /\
       confidence p = (88 # 100)%Q /\
       links_affected_count p = len degraded_links /\
       hours_duration p = len (List.concat (values degraded_links)) /\
       ((forall l gs g, In (l, gs) degraded_links -> In g gs ->
           1 <= grade g <= 10 /\ 0 <= or0 (congestion g) <= 1)%Q ->
        (0 <= severity p <= 1)%Q)).
Proof.
  intros rt dl name now patterns. subst patterns.
  unfold _detect_satellite_patterns, MIN_DEVICES_FOR_PATTERN.
  destruct (2 <=? List.length dl)%nat eqn:E.
  - apply Nat.leb_le in E. split; [lia|]. intros _.
    eexists. split; [reflexivity|]. cbn.
    repeat (split; [reflexivity|]).
    intros Hr.
    assert (Hav : (0 <= mean_or0 (map grade (List.concat (values dl))) <= 10)%Q).
    { apply mean_or0_bounds; [split; discriminate|].
      intros x Hx. apply in_map_iff in Hx as (g & <- & Hg).
      apply In_concat_values in Hg as (l & gs & H1 & H2).
      destruct (Hr l gs g H1 H2) as [[Ha Hb] _]. split; Lqa.lra. }
    assert (Hc : (0 <= mean_or0 (map (fun g => or0 (congestion g))
                                     (List.concat (values dl))) <= 1)%Q).
    { apply mean_or0_bounds; [split; discriminate|].
      intros x Hx. apply in_map_iff in Hx as (g & <- & Hg).
      apply In_concat_values in Hg as (l & gs & H1 & H2).
      apply (Hr l gs g H1 H2). }
    set (avg := mean_or0 (map grade (List.concat (values dl)))) in *.
    set (cong := mean_or0 (map (fun g => or0 (congestion g))
                               (List.concat (values dl)))) in *.
    assert (Hs : (0 <= 1 - avg / 10 <= 1)%Q).
    { setoid_replace (avg / 10)%Q with (avg * (1 # 10))%Q by field.
      split; Lqa.lra. }
    split.
    + eapply Qle_trans; [apply (proj1 Hc) | apply Q.le_max_r].
    + apply Q.max_lub; [apply Hs | apply Hc].
  - apply Nat.leb_gt in E. split; [reflexivity | lia].
Qed.

Lemma satellite_pattern_wellformed_witness :
  exists p,
    _detect_satellite_patterns rt_plain three_links "SES-4" 0%Z = [p] /\
    affected_items p = [1%Z; 2%Z; 3%Z].
Proof.
  destruct (proj2 (satellite_pattern_wellformed rt_plain three_links
                     "SES-4"%string 0%Z)) as (p & Hp & _ & Ha & _).
  - simpl. lia.
  - exists p. split; [exact Hp | exact Ha].
Defined.
End OtherDetectors.

(* ================================================================== *)
(** * CorrelationEngine: what every analysis returns *)
(* ================================================================== *)

Section AnalysisInvariants.
Import py bcom_models correlation_engine spec samples invariants.

Lemma correlation_score_range items hours :
  (0 <= _calculate_correlation_score items hours <= 1)%R.
Proof.
  unfold _calculate_correlation_score.
  destruct items as [|i r]; [Lra.lra|].
  rewrite consistency_score_spec.
  change (Q2R (Qmin (Qlen (i :: r) / 10) 1)) with (item_score (i :: r)).
  pose proof (item_score_bounds (i :: r)) as Hi.
  pose proof (consistency_bounds (all_grade_values (i :: r))) as Hc.
  rewrite Rmin_right; Lra.lra.
Qed.

Lemma network_recommendations_nonempty s l score patterns :
  _generate_network_recommendations s l score patterns <> [].
Proof.
  unfold _generate_network_recommendations. intros H.
  apply app_eq_nil in H as [_ H]. apply app_eq_nil in H as [H _].
  discriminate.
Qed.

Lemma antenna_recommendations_nonempty rt a t score patterns :
  _generate_antenna_recommendations rt a t score patterns <> [].
Proof.
  unfold _generate_antenna_recommendations. intros H.
  apply app_eq_nil in H as [_ H]. discriminate.
Qed.

Lemma satellite_recommendations_nonempty a score patterns :
  _generate_satellite_recommendations a score patterns <> [].
Proof.
  unfold _generate_satellite_recommendations. intros H.
  apply app_eq_nil in H as [_ H]. discriminate.
Qed.

Lemma bidirectional_recommendations_nonempty patterns score :
  _generate_bidirectional_recommendations patterns score <> [].
Proof.
  unfold _generate_bidirectional_recommendations. intros H.
  apply app_eq_nil in H as [_ H]. discriminate.
Qed.

(** Whenever one of the four analyses returns an analysis, it is for
    the scope and window that were asked for, stamped with the time of
    the call, its correlation score lies within [0, 1] and it carries
    at least one recommendation. *)
Theorem analyses_are_wellformed :
  forall rt db hours uid now1 now2,
    let ok scope_name id (r : option CorrelationAnalysis) :=
      forall a, r = Some a ->
        scope a = scope_name /\ scope_id a = id /\
        hours_analyzed a = hours /\ a_timestamp a = now2 /\
        (0 <= correlation_score a <= 1)%R /\
        recommendations a <> [] in
    (forall network_id min_correlation,
       ok "network"%string network_id
          (analyze_network_degradation rt db network_id hours
             min_correlation uid now1 now2)) /\
    (forall site_id,
       ok "hub_antenna"%string site_id
          (analyze_hub_antenna_degradation rt db site_id hours uid now1 now2)) /\
    (forall satellite_name,
       ok "satellite"%string 0%Z
          (analyze_satellite_degradation rt db satellite_name hours
             uid now1 now2)) /\
    (forall link,
       ok "link"%string link
          (analyze_link_bidirectional_degradation rt db link hours
             uid now1 now2)).
Proof.
  intros rt db hours uid now1 now2 ok. unfold ok.
  assert (Hempty : forall id sc sid advice a,
             Some (empty_analysis id sc sid now2 hours advice) = Some a ->
             scope a = sc /\ scope_id a = sid /\
             hours_analyzed a = hours /\ a_timestamp a = now2 /\
             (0 <= correlation_score a <= 1)%R /\ recommendations a <> []).
  { intros id sc sid advice a [= <-]. unfold empty_analysis.
    cbn [scope scope_id hours_analyzed a_timestamp correlation_score
         recommendations].
    repeat (split; [reflexivity|]). split; [Lra.lra | discriminate]. }
  split; [|split; [|split]].
  - intros network_id min_correlation a.
    unfold analyze_network_degradation.
    destruct (filter _ (links db)) as [|l0 lr]; [discriminate|].
    destruct (cutoff_time_of now1 hours) as [cutoff|e]; [|discriminate].
    destruct (collect_grades _ _ _) as [|e0 er] eqn:Ec; [apply Hempty|].
    intros [= <-].
    cbn [scope scope_id hours_analyzed a_timestamp correlation_score
         recommendations].
    repeat (split; [reflexivity|]).
    split; [exact (correlation_score_range (e0 :: er) hours)|].
    apply network_recommendations_nonempty.
  - intros site_id a. unfold analyze_hub_antenna_degradation.
    destruct (find _ (sites db)) as [s|]; [|discriminate].
    destruct (negb (is_hub s)); [discriminate|].
    destruct (filter _ (links db)) as [|l0 lr]; [discriminate|].
    destruct (cutoff_time_of now1 hours) as [cutoff|e]; [|discriminate].
    destruct (collect_grades _ _ _) as [|e0 er] eqn:Ec; [apply Hempty|].
    intros [= <-].
    cbn [scope scope_id hours_analyzed a_timestamp correlation_score
         recommendations].
    repeat (split; [reflexivity|]).
    split; [exact (correlation_score_range (e0 :: er) hours)|].
    apply antenna_recommendations_nonempty.
  - intros satellite_name a. unfold analyze_satellite_degradation.
    destruct (filter _ (links db)) as [|l0 lr]; [apply Hempty|].
    destruct (cutoff_time_of now1 hours) as [cutoff|e]; [|discriminate].
    destruct (collect_grades _ _ _) as [|e0 er] eqn:Ec; [apply Hempty|].
    intros [= <-].
    cbn [scope scope_id hours_analyzed a_timestamp correlation_score
         recommendations].
    repeat (split; [reflexivity|]).
    split; [exact (correlation_score_range (e0 :: er) hours)|].
    apply satellite_recommendations_nonempty.
  - intros link a. unfold analyze_link_bidirectional_degradation.
    destruct (cutoff_time_of now1 hours) as [cutoff|e]; [|discriminate].
    destruct (order_by_timestamp _) as [|g0 gr]; [apply Hempty|].
    destruct (_detect_bidirectional_degradation rt (g0 :: gr) link)
      as [|p0 pr]; [apply Hempty|].
    intros [= <-].
    cbn [scope scope_id hours_analyzed a_timestamp correlation_score
         recommendations].
    destruct (bidirectional_score_bounds (g0 :: gr)) as [H0 H1].
    apply Qle_Rle in H0, H1.
    rewrite RMicromega.Q2R_0 in H0. rewrite RMicromega.Q2R_1 in H1.
    repeat (split; [reflexivity|]).
    split; [split; assumption|].
    apply bidirectional_recommendations_nonempty.
Qed.

Lemma analyses_are_wellformed_witness :
  exists a,
    analyze_network_degradation rt_plain db_one_link_twice 7 24 (7 # 10)
      "0a1b2c3d" (hour 20) (hour 20) = Some a /\
    (0 <= correlation_score a <= 1)%R.
Proof.
  eexists. split; [reflexivity|].
  eapply (proj1 (analyses_are_wellformed rt_plain db_one_link_twice 24
                   "0a1b2c3d"%string (hour 20) (hour 20)) 7%Z (7 # 10)).
  reflexivity.
Defined.

(** ** Which links a network analysis can name *)





End AnalysisInvariants.

Section ScoreWitness.
Import py bcom_models correlation_engine samples.

Lemma bidirectional_score_is_a_share_witness :
  (_calculate_bidirectional_score
     [degraded 42 (hour 10) (25 # 100) (3 # 10)] == 1)%Q.
Proof.
  apply (proj2 (proj2 (bidirectional_score_is_a_share
                         [degraded 42 (hour 10) (25 # 100) (3 # 10)]))).
  split; [discriminate|]. intros g [<-|[]]. reflexivity.
Defined.
End ScoreWitness.

(* ================================================================== *)
(** * CorrelationEngine: which links a hub or satellite analysis names *)
(* ================================================================== *)

Section ScopedAnalyses.
Import Ascii py bcom_models correlation_engine samples runs.





(** ** What [ILIKE] matches *)












End ScopedAnalyses.
